(** * bTCP: segment codec and the client and server endpoint handlers

    A shallow embedding of [btcp/btcp_socket.py], [btcp/client_socket.py] and
    [btcp/server_socket.py].

    Python integers are unbounded, so every counter is a [Z]; a [bytes] object
    is a [list byte]; an attribute that may hold [None] is an [option].  A
    Python exception is an inductive [exn]; a method of a socket object is a
    function in a small state-and-exception monad over the record of the
    object's attributes, in which the attribute writes that happened before an
    exception stay visible, as they do in Python.  Calls of [print] write to
    standard output only and are left out.

    The two threads of a socket are modelled where a property needs them: the
    network thread is the sequence of callbacks the lossy layer makes
    ([lossy_layer_segment_received], [lossy_layer_tick]), each run to its end;
    a blocking call of the application thread ([connect], [shutdown],
    [accept], [recv]) takes, for each of its waits, the callbacks the network
    thread runs in the meantime; between two waits the call runs without the
    network thread cutting in.  The method [close] and the destructor only
    release the lossy layer and are not modelled: no property below is about
    them. *)

From Stdlib Require Import ZArith List Bool Lia Relations.
From Stdlib.Strings Require Import Byte.
Import ListNotations.
Local Open Scope Z_scope.

(** ** Exceptions and results *)

(** The exceptions the modelled code can raise: [IndexError] (list index out of
    range), [TypeError] (arithmetic on [None], [int] of a non-string with a
    base) and [struct.error] (a value that does not fit its format, a buffer
    of the wrong size). *)
Inductive exn : Type :=
| IndexError
| TypeError
| StructError.

Inductive outcome (A : Type) : Type :=
| Return (a : A)
| Raise (e : exn).
Arguments Return {A} a.
Arguments Raise {A} e.

Definition obind {A B : Type} (m : outcome A) (k : A -> outcome B) : outcome B :=
  match m with
  | Return a => k a
  | Raise e => Raise e
  end.

(** A method body: it reads and writes the attributes [S] of [self] and ends
    with a value or with an exception. *)
Definition M (S A : Type) : Type := S -> outcome A * S.

Definition ret {S A : Type} (a : A) : M S A := fun s => (Return a, s).
Definition raise {S A : Type} (e : exn) : M S A := fun s => (Raise e, s).
Definition bind {S A B : Type} (m : M S A) (k : A -> M S B) : M S B :=
  fun s => match m s with
           | (Return a, s') => k a s'
           | (Raise e, s') => (Raise e, s')
           end.
Definition get {S : Type} : M S S := fun s => (Return s, s).
Definition modify {S : Type} (f : S -> S) : M S unit := fun s => (Return tt, f s).
Definition lift {S A : Type} (o : outcome A) : M S A := fun s => (o, s).

Declare Scope py_scope.
Delimit Scope py_scope with py.
Notation "x <- m ;; k" := (bind m (fun x => k))
  (at level 61, m at next level, right associativity) : py_scope.
Notation "' pat <- m ;; k" := (bind m (fun x => match x with pat => k end))
  (at level 61, pat pattern, m at next level, right associativity) : py_scope.
Notation "m ;; k" := (bind m (fun _ => k))
  (at level 61, right associativity) : py_scope.

(** ** Bytes *)

Definition bytes : Type := list byte.

(** The ranges of the header's fields: ["H"] and ["B"] of [struct]. *)
Definition uint16 (v : Z) : Prop := 0 <= v <= 0xFFFF.
Definition uint8 (v : Z) : Prop := 0 <= v <= 0xFF.

Definition Z_of_byte (b : byte) : Z := Z.of_N (Byte.to_N b).

Definition byte_of_Z (z : Z) : byte :=
  match Byte.of_N (Z.to_N z) with
  | Some b => b
  | None => x00
  end.

(** ** Constants *)

(** Modelled from the spec: [HEADER_SIZE] and [PAYLOAD_SIZE] of
    [btcp/constants.py], which is not among the sources.  The wire format of
    the spec (section 6) puts the payload at offset 10 and gives it 1008
    bytes; 10 is also the size of [struct]'s ["!HHBBHH"], and 1008 the payload
    length the sockets write out literally. *)
Definition HEADER_SIZE : nat := 10.
Definition PAYLOAD_SIZE : nat := 1008.

(** ** btcp_socket.py *)

Inductive BTCPStates : Type :=
| CLOSED
| ACCEPTING
| SYN_SENT
| SYN_RCVD
| ESTABLISHED
| FIN_SENT
| CLOSING.

Definition BTCPStates_eqb (a b : BTCPStates) : bool :=
  match a, b with
  | CLOSED, CLOSED | ACCEPTING, ACCEPTING | SYN_SENT, SYN_SENT
  | SYN_RCVD, SYN_RCVD | ESTABLISHED, ESTABLISHED | FIN_SENT, FIN_SENT
  | CLOSING, CLOSING => true
  | _, _ => false
  end.

(** [struct.pack] of one ["H"] field (big-endian unsigned 16 bits) and of one
    ["B"] field; a value outside the field's range raises [struct.error]. *)
Definition pack_H (v : Z) : outcome bytes :=
  if (0 <=? v) && (v <=? 0xFFFF)
  then Return [byte_of_Z (Z.shiftr v 8); byte_of_Z (Z.land v 0xFF)]
  else Raise StructError.

Definition pack_B (v : Z) : outcome bytes :=
  if (0 <=? v) && (v <=? 0xFF)
  then Return [byte_of_Z v]
  else Raise StructError.

Definition unpack_H (hi lo : byte) : Z :=
  Z.lor (Z.shiftl (Z_of_byte hi) 8) (Z_of_byte lo).

(** [struct.iter_unpack('!H', segment)]: the 16-bit big-endian words of the
    buffer; [None] stands for the [struct.error] of a buffer whose size is not
    a multiple of 2. *)
Fixpoint iter_unpack_H (segment : bytes) : option (list Z) :=
  match segment with
  | [] => Some []
  | hi :: lo :: rest =>
      match iter_unpack_H rest with
      | Some ws => Some (unpack_H hi lo :: ws)
      | None => None
      end
  | [_] => None
  end.

(** One turn of the loop of [in_cksum]:
    [checksum += b[0]; if checksum > 2 ** 16: checksum -= 2 ** 16 - 1]. *)
Definition cksum_step (checksum w : Z) : Z :=
  let checksum := checksum + w in
  if checksum >? 2 ^ 16 then checksum - (2 ^ 16 - 1) else checksum.

(** [BTCPSocket.in_cksum].  On an empty segment the code evaluates
    [int(0x0000,16)], which is a [TypeError] (an [int] given with a base). *)
Definition in_cksum (segment : bytes) : outcome Z :=
  match segment with
  | [] => Raise TypeError
  | _ =>
      match iter_unpack_H segment with
      | None => Raise StructError
      | Some ws => Return (2 ^ 16 - fold_left cksum_step ws 0)
      end
  end.

Definition Z_of_bool (b : bool) : Z := if b then 1 else 0.

(** [BTCPSocket.build_segment_header]; the defaults of the Python signature
    are [default_window] for [window], and [false] and [0] elsewhere. *)
Definition default_window : Z := 0x01.

(** [flag_byte = syn_set << 2 | ack_set << 1 | fin_set]. *)
Definition flag_byte (syn_set ack_set fin_set : bool) : Z :=
  Z.lor (Z.lor (Z.shiftl (Z_of_bool syn_set) 2) (Z.shiftl (Z_of_bool ack_set) 1))
        (Z_of_bool fin_set).

Definition build_segment_header (seqnum acknum : Z) (syn_set ack_set fin_set : bool)
    (window length checksum : Z) : outcome bytes :=
  obind (pack_H seqnum) (fun b_seq =>
  obind (pack_H acknum) (fun b_ack =>
  obind (pack_B (flag_byte syn_set ack_set fin_set)) (fun b_flags =>
  obind (pack_B window) (fun b_win =>
  obind (pack_H length) (fun b_len =>
  obind (pack_H checksum) (fun b_sum =>
  Return (b_seq ++ b_ack ++ b_flags ++ b_win ++ b_len ++ b_sum))))))).

(** The ten bytes [struct.pack("!HHBBHH", ...)] lays out when every field
    fits, and the sum [in_cksum] accumulates over their five words. *)
Definition header_bytes (seqnum acknum : Z) (syn_set ack_set fin_set : bool)
    (window length checksum : Z) : bytes :=
  [byte_of_Z (Z.shiftr seqnum 8); byte_of_Z (Z.land seqnum 0xFF);
   byte_of_Z (Z.shiftr acknum 8); byte_of_Z (Z.land acknum 0xFF);
   byte_of_Z (flag_byte syn_set ack_set fin_set);
   byte_of_Z window;
   byte_of_Z (Z.shiftr length 8); byte_of_Z (Z.land length 0xFF);
   byte_of_Z (Z.shiftr checksum 8); byte_of_Z (Z.land checksum 0xFF)].

Definition header_sum (seqnum acknum : Z) (syn_set ack_set fin_set : bool)
    (window length checksum : Z) : Z :=
  fold_left cksum_step
    [seqnum; acknum; flag_byte syn_set ack_set fin_set * 256 + window; length; checksum]
    0.

(** The tuple [unpack_segment_header] returns:
    [(seqnum, acknum, syn_set, ack_set, fin_set, window, datalen, checksum)]. *)
Definition header_fields : Type := (Z * Z * bool * bool * bool * Z * Z * Z)%type.

(** The [checksum] field among the unpacked fields. *)
Definition checksum_of (fields : header_fields) : Z :=
  let '(_, _, _, _, _, _, _, checksum) := fields in checksum.

(** [BTCPSocket.unpack_segment_header]; [struct.unpack] raises [struct.error]
    unless the buffer has exactly 10 bytes. *)
Definition unpack_segment_header (header : bytes) : outcome header_fields :=
  match header with
  | [s1; s0; a1; a0; f; w; l1; l0; c1; c0] =>
      let seqnum := unpack_H s1 s0 in
      let acknum := unpack_H a1 a0 in
      let flags := Z_of_byte f in
      let window := Z_of_byte w in
      let datalen := unpack_H l1 l0 in
      let checksum := unpack_H c1 c0 in
      let syn_set := flags >? 3 in
      let flags := flags mod 4 in
      let ack_set := flags >? 1 in
      let flags := flags mod 2 in
      let fin_set := flags >? 0 in
      Return (seqnum, acknum, syn_set, ack_set, fin_set, window, datalen, checksum)
  | _ => Raise StructError
  end.

(** The payload both sockets append to a bare header: 1008 zero bytes, joined
    from a list comprehension over [range(1008)]. *)
Definition zero_payload : bytes := repeat x00 1008.

(** The clock: [time.time()] readings.  The handlers only add constants to a
    reading and compare two readings, so a reading is modelled as an integer
    number of clock units; one handler invocation sees one reading [now]. *)
Definition time : Type := Z.

(** What a method without a [return] statement, or with a bare [return],
    hands back to its caller. *)
Inductive pyvalue : Type :=
| PyNone
| PyBool (b : bool)
| PyInt (z : Z).

(** Arithmetic on an attribute that may still be [None]: [None + 1] and
    [None - n] raise [TypeError]. *)
Definition int_of (v : option Z) : outcome Z :=
  match v with
  | Some z => Return z
  | None => Raise TypeError
  end.

(** [build_segment_header(self.seqnum, ...)]: [struct.pack] refuses [None]
    with [struct.error]. *)
Definition build_segment_header_opt (seqnum : option Z) (acknum : Z)
    (syn_set ack_set fin_set : bool) (window length checksum : Z) : outcome bytes :=
  match seqnum with
  | Some s => build_segment_header s acknum syn_set ack_set fin_set window length checksum
  | None => Raise StructError
  end.

(** ** client_socket.py *)

Module Client.

(** One entry of [segments_in_transit]: [(time sent, seqnum, segment)]. *)
Definition in_transit : Type := (time * Z * bytes)%type.

Definition entry_seqnum (e : in_transit) : Z := snd (fst e).

(** The attributes of a [BTCPClientSocket].  [sendbuf] is the content of the
    queue [_sendbuf] (head first, at most 1000 chunks); [lossy_layer] is the
    list of the segments handed to [_lossy_layer.send_segment], oldest first. *)
Record t : Type := mk {
  state : BTCPStates;
  seqnum : option Z;
  acknum : Z;
  client_window : Z;
  server_window : Z;
  last_rec_ack : Z;
  synack_recv : bool;
  finack_recv : bool;
  segments_in_transit : list in_transit;
  sendbuf : list bytes;
  lossy_layer : list bytes
}.

Definition set_state (v : BTCPStates) (c : t) : t :=
  mk v (seqnum c) (acknum c) (client_window c) (server_window c) (last_rec_ack c)
     (synack_recv c) (finack_recv c) (segments_in_transit c) (sendbuf c) (lossy_layer c).
Definition set_seqnum (v : option Z) (c : t) : t :=
  mk (state c) v (acknum c) (client_window c) (server_window c) (last_rec_ack c)
     (synack_recv c) (finack_recv c) (segments_in_transit c) (sendbuf c) (lossy_layer c).
Definition set_acknum (v : Z) (c : t) : t :=
  mk (state c) (seqnum c) v (client_window c) (server_window c) (last_rec_ack c)
     (synack_recv c) (finack_recv c) (segments_in_transit c) (sendbuf c) (lossy_layer c).
Definition set_server_window (v : Z) (c : t) : t :=
  mk (state c) (seqnum c) (acknum c) (client_window c) v (last_rec_ack c)
     (synack_recv c) (finack_recv c) (segments_in_transit c) (sendbuf c) (lossy_layer c).
Definition set_last_rec_ack (v : Z) (c : t) : t :=
  mk (state c) (seqnum c) (acknum c) (client_window c) (server_window c) v
     (synack_recv c) (finack_recv c) (segments_in_transit c) (sendbuf c) (lossy_layer c).
Definition set_synack_recv (v : bool) (c : t) : t :=
  mk (state c) (seqnum c) (acknum c) (client_window c) (server_window c) (last_rec_ack c)
     v (finack_recv c) (segments_in_transit c) (sendbuf c) (lossy_layer c).
Definition set_finack_recv (v : bool) (c : t) : t :=
  mk (state c) (seqnum c) (acknum c) (client_window c) (server_window c) (last_rec_ack c)
     (synack_recv c) v (segments_in_transit c) (sendbuf c) (lossy_layer c).
Definition set_segments_in_transit (v : list in_transit) (c : t) : t :=
  mk (state c) (seqnum c) (acknum c) (client_window c) (server_window c) (last_rec_ack c)
     (synack_recv c) (finack_recv c) v (sendbuf c) (lossy_layer c).
Definition set_sendbuf (v : list bytes) (c : t) : t :=
  mk (state c) (seqnum c) (acknum c) (client_window c) (server_window c) (last_rec_ack c)
     (synack_recv c) (finack_recv c) (segments_in_transit c) v (lossy_layer c).

(** [self._lossy_layer.send_segment(segment)]. *)
Definition send_segment (segment : bytes) (c : t) : t :=
  mk (state c) (seqnum c) (acknum c) (client_window c) (server_window c) (last_rec_ack c)
     (synack_recv c) (finack_recv c) (segments_in_transit c) (sendbuf c)
     (lossy_layer c ++ [segment]).

Section WithConstants.

(** [WINDOW], [TIMEOUT] and [RETRIES] of [btcp/constants.py], which is not
    among the sources. *)
Variable WINDOW : Z.
Variable TIMEOUT : Z.
Variable RETRIES : nat.

(** [BTCPClientSocket.__init__]. *)
Definition init : t :=
  {| state := CLOSED;
     seqnum := None;
     acknum := 0;
     client_window := WINDOW;
     server_window := WINDOW;
     last_rec_ack := 0;
     synack_recv := false;
     finack_recv := false;
     segments_in_transit := [];
     sendbuf := [];
     lossy_layer := [] |}.

(** The clean-up loop of the [ESTABLISHED] branch:
    [[
      i = 0
      timeout, acknum, segment = self.segments_in_transit[i]
      while self.last_rec_ack > acknum:
          i += 1
          timeout, acknum, segment = self.segments_in_transit[i]
    ]]
    [rest] is [segments_in_transit[i:]]; reading [segments_in_transit[i]] when
    [rest] is empty is the [IndexError] of an index equal to the length.  The
    result is the final [i]. *)
Fixpoint scan_in_transit (last_rec_ack : Z) (rest : list in_transit) (i : nat)
  : outcome nat :=
  match rest with
  | [] => Raise IndexError
  | (_, acknum, _) :: rest' =>
      if last_rec_ack >? acknum
      then scan_in_transit last_rec_ack rest' (S i)
      else Return i
  end.

Local Open Scope py_scope.

(** [BTCPClientSocket.lossy_layer_segment_received]. *)
Definition lossy_layer_segment_received (segment : bytes) : M t unit :=
  self <- get ;;
  if BTCPStates_eqb (state self) CLOSED then ret tt else
  '(seqnum_, acknum_, syn_set, ack_set, fin_set, window, datalen, checksum)
     <- lift (unpack_segment_header (firstn HEADER_SIZE segment)) ;;
  header <- lift (build_segment_header seqnum_ acknum_ syn_set ack_set fin_set
                                       window datalen 0) ;;
  check <- lift (in_cksum header) ;;
  if negb (check =? checksum) then ret tt else
  match state self with
  | SYN_SENT =>
      if syn_set && ack_set then
        s <- lift (int_of (seqnum self)) ;;
        if s + 1 =? acknum_ then
          modify (set_acknum seqnum_) ;;
          modify (set_server_window window) ;;
          modify (set_synack_recv true)
        else ret tt
      else ret tt
  | FIN_SENT =>
      if ack_set && fin_set then
        s <- lift (int_of (seqnum self)) ;;
        if s + 1 =? acknum_ then modify (set_finack_recv true) else ret tt
      else ret tt
  | ESTABLISHED =>
      modify (set_server_window window) ;;
      if (last_rec_ack self <? acknum_) && ack_set then
        modify (set_last_rec_ack acknum_) ;;
        i <- lift (scan_in_transit acknum_ (segments_in_transit self) 0) ;;
        modify (set_segments_in_transit (skipn i (segments_in_transit self)))
      else ret tt
  | _ => ret tt
  end.

(** The verification the handler starts with, on its own: the fields it
    unpacks, and the checksum [check] it recomputes over the header rebuilt
    from them with the checksum field left at its default 0. *)
Definition verify (segment : bytes) : outcome (header_fields * Z) :=
  obind (unpack_segment_header (firstn HEADER_SIZE segment)) (fun fields =>
  let '(seqnum_, acknum_, syn_set, ack_set, fin_set, window, datalen, _) := fields in
  obind (build_segment_header seqnum_ acknum_ syn_set ack_set fin_set
                              window datalen 0) (fun header =>
  obind (in_cksum header) (fun check =>
  Return (fields, check)))).

(** The segment passes when [check] is the received [checksum]. *)
Definition checksum_valid (segment : bytes) (fields : header_fields) : Prop :=
  let '(_, _, _, _, _, _, _, checksum) := fields in
  verify segment = Return (fields, checksum).

(** The first loop of [lossy_layer_tick]: every entry whose timer has run out
    gets a fresh time stamp and its segment is sent again.  The result is the
    new list and the segments sent, in order. *)
Fixpoint resend_timed_out (now : time) (l : list in_transit)
  : list in_transit * list bytes :=
  match l with
  | [] => ([], [])
  | (timeout, seqnum_, segment) :: l' =>
      let '(l'', sent) := resend_timed_out now l' in
      if timeout + TIMEOUT <? now
      then ((now, seqnum_, segment) :: l'', segment :: sent)
      else ((timeout, seqnum_, segment) :: l'', sent)
  end.

(** The segment the second loop builds for one [chunk] it took from the queue:
    the chunk is padded with zero bytes to [PAYLOAD_SIZE], the header is
    built with [length=datalen] and checksum 0, the checksum is computed over
    header and padded chunk, and the header is built again with it. *)
Definition data_segment (seqnum_ acknum_ client_window_ : Z) (chunk : bytes)
  : outcome bytes :=
  let datalen := List.length chunk in
  let chunk := if (datalen <? PAYLOAD_SIZE)%nat
               then chunk ++ repeat x00 (PAYLOAD_SIZE - datalen)
               else chunk in
  obind (build_segment_header seqnum_ acknum_ false false false
           client_window_ (Z.of_nat datalen) 0) (fun header =>
  let segment := header ++ chunk in
  obind (in_cksum segment) (fun checksum =>
  obind (build_segment_header seqnum_ acknum_ false false false
           client_window_ (Z.of_nat datalen) checksum) (fun header =>
  let segment := header ++ chunk in
  Return segment))).

(** The second loop of [lossy_layer_tick], [while self.seqnum -
    self.last_rec_ack < self.server_window], over the content [queue] of
    [_sendbuf]: [get_nowait] on an empty queue raises [queue.Empty], which the
    loop catches to [break]; any other exception leaves the method. *)
Fixpoint send_window (now : time) (queue : list bytes) : M t unit :=
  self <- get ;;
  s <- lift (int_of (seqnum self)) ;;
  if s - last_rec_ack self <? server_window self then
    match queue with
    | [] => ret tt
    | chunk :: queue' =>
        modify (set_sendbuf queue') ;;
        segment <- lift (data_segment s (acknum self) (client_window self) chunk) ;;
        modify (fun c => set_segments_in_transit
                           (segments_in_transit c ++ [(now, s, segment)]) c) ;;
        modify (send_segment segment) ;;
        modify (set_seqnum (Some (s + 1))) ;;
        send_window now queue'
    end
  else ret tt.

(** The effect of the first loop on the socket. *)
Definition retransmit (now : time) (c : t) : t :=
  let '(l, sent) := resend_timed_out now (segments_in_transit c) in
  fold_left (fun c segment => send_segment segment c) sent
            (set_segments_in_transit l c).

(** [BTCPClientSocket.lossy_layer_tick]. *)
Definition lossy_layer_tick (now : time) : M t unit :=
  modify (retransmit now) ;;
  self <- get ;;
  send_window now (sendbuf self).

(** What the network thread does while the application thread sleeps in a
    polling loop: the lossy layer calls back with a segment that arrived, or
    with a tick. *)
Inductive callback : Type :=
| Arrives (segment : bytes)
| Ticks (now : time).

(** The network thread running a list of callbacks.  An exception a callback
    raises stays in the network thread; the attribute writes it made before
    are kept. *)
Fixpoint network_thread (cbs : list callback) (c : t) : t :=
  match cbs with
  | [] => c
  | Arrives segment :: cbs' =>
      network_thread cbs' (snd (lossy_layer_segment_received segment c))
  | Ticks now :: cbs' =>
      network_thread cbs' (snd (lossy_layer_tick now c))
  end.

(** The retry loop of [connect], [for i in range(RETRIES)].  The inner polling
    loop [while time.time() < timeout and not self.synack_recv: time.sleep(..)]
    changes no attribute itself; [hd [] rounds] is what the network thread
    does in the meantime. *)
Fixpoint await_synack (retries : nat) (rounds : list (list callback))
    (segment : bytes) : M t unit :=
  match retries with
  | O => ret tt
  | S retries' =>
      modify (network_thread (hd [] rounds)) ;;
      self <- get ;;
      if negb (synack_recv self) then
        modify (send_segment segment) ;;
        await_synack retries' (tl rounds) segment
      else ret tt
  end.

(** [BTCPClientSocket.connect]; [isn] is the value of
    [int.from_bytes(urandom(2), byteorder='big')].  The method has no [return]
    statement: it hands back [None] on every path that ends normally. *)
Definition connect (isn : Z) (rounds : list (list callback)) : M t pyvalue :=
  modify (set_seqnum (Some isn)) ;;
  self <- get ;;
  header <- lift (build_segment_header_opt (seqnum self) (acknum self)
                    true false false (client_window self) 0 0) ;;
  checksum <- lift (in_cksum header) ;;
  header <- lift (build_segment_header_opt (seqnum self) (acknum self)
                    true false false (client_window self) 0 checksum) ;;
  let payload := zero_payload in
  let segment := header ++ payload in
  modify (send_segment segment) ;;
  modify (set_state SYN_SENT) ;;
  await_synack RETRIES rounds segment ;;
  self <- get ;;
  if negb (synack_recv self) then
    modify (set_state CLOSED) ;;
    ret PyNone
  else
    modify (set_acknum (acknum self + 1)) ;;
    s <- lift (int_of (seqnum self)) ;;
    modify (set_seqnum (Some (s + 1))) ;;
    self <- get ;;
    header <- lift (build_segment_header_opt (seqnum self) (acknum self)
                      false true false (client_window self) 0 0) ;;
    checksum <- lift (in_cksum header) ;;
    header <- lift (build_segment_header_opt (seqnum self) (acknum self)
                      false true false (client_window self) 0 checksum) ;;
    let segment := header ++ payload in
    modify (send_segment segment) ;;
    modify (set_state ESTABLISHED) ;;
    ret PyNone.

(** [queue.Queue(maxsize=1000)] of [__init__]. *)
Definition sendbuf_maxsize : nat := 1000.

(** The loop of [send], [while sent_bytes < datalen].  [put_nowait] on a queue
    that already holds [sendbuf_maxsize] chunks raises [queue.Full], which
    the loop catches to [break].  [fuel] bounds the number of turns; the
    result [None] stands for a loop cut short by that bound. *)
Fixpoint send_loop (fuel : nat) (data : bytes) (sent_bytes : nat) : M t (option nat) :=
  let datalen := List.length data in
  if (sent_bytes <? datalen)%nat then
    match fuel with
    | O => ret None
    | S fuel' =>
        let chunk := firstn PAYLOAD_SIZE (skipn sent_bytes data) in
        self <- get ;;
        if (List.length (sendbuf self) <? sendbuf_maxsize)%nat then
          modify (set_sendbuf (sendbuf self ++ [chunk])) ;;
          send_loop fuel' data (sent_bytes + List.length chunk)
        else ret (Some sent_bytes)
    end
  else ret (Some sent_bytes).

(** [BTCPClientSocket.send]: the loop is given one turn per byte of [data],
    which is more than it ever takes. *)
Definition send (data : bytes) : M t (option nat) :=
  send_loop (List.length data) data 0.

(** The retry loop of [shutdown], [for i in range(RETRIES)], with its polling
    loop on [self.finack_recv]; as in [await_synack], [hd [] rounds] is what
    the network thread does during one wait. *)
Fixpoint await_finack (retries : nat) (rounds : list (list callback))
    (segment : bytes) : M t unit :=
  match retries with
  | O => ret tt
  | S retries' =>
      modify (network_thread (hd [] rounds)) ;;
      self <- get ;;
      if negb (finack_recv self) then
        modify (send_segment segment) ;;
        await_finack retries' (tl rounds) segment
      else ret tt
  end.

(** [BTCPClientSocket.shutdown].  Like [connect] it has no [return]
    statement. *)
Definition shutdown (rounds : list (list callback)) : M t pyvalue :=
  let payload := zero_payload in
  modify (fun c => set_acknum (acknum c + 1) c) ;;
  self <- get ;;
  s <- lift (int_of (seqnum self)) ;;
  modify (set_seqnum (Some (s + 1))) ;;
  self <- get ;;
  header <- lift (build_segment_header_opt (seqnum self) (acknum self)
                    false false true (client_window self) 0 0) ;;
  checksum <- lift (in_cksum header) ;;
  header <- lift (build_segment_header_opt (seqnum self) (acknum self)
                    false false true (client_window self) 0 checksum) ;;
  let segment := header ++ payload in
  modify (send_segment segment) ;;
  modify (set_state FIN_SENT) ;;
  await_finack RETRIES rounds segment ;;
  self <- get ;;
  if negb (finack_recv self) then
    modify (set_state CLOSED) ;;
    ret PyNone
  else
    modify (set_acknum (acknum self + 1)) ;;
    s <- lift (int_of (seqnum self)) ;;
    modify (set_seqnum (Some (s + 1))) ;;
    self <- get ;;
    header <- lift (build_segment_header_opt (seqnum self) (acknum self)
                      false true false default_window 0 0) ;;
    checksum <- lift (in_cksum header) ;;
    header <- lift (build_segment_header_opt (seqnum self) (acknum self)
                      false true false default_window 0 checksum) ;;
    let segment := header ++ payload in
    modify (send_segment segment) ;;
    modify (set_state CLOSED) ;;
    ret PyNone.

End WithConstants.
End Client.

(** ** server_socket.py *)

Module Server.

(** The attributes of a [BTCPServerSocket].  [recvbuf] is the content of the
    queue [_recvbuf] (head first); [lossy_layer] is the list of the segments
    handed to [_lossy_layer.send_segment], oldest first. *)
Record t : Type := mk {
  state : BTCPStates;
  seqnum : option Z;
  acknum : Z;
  recvbuf : list bytes;
  fin_retries : option Z;
  fin_timeout : option time;
  ack_timeout : option time;
  window : Z;
  lossy_layer : list bytes
}.

(** [queue.Queue(maxsize=1000)]. *)
Definition recvbuf_maxsize : nat := 1000.

Definition set_state (v : BTCPStates) (c : t) : t :=
  mk v (seqnum c) (acknum c) (recvbuf c) (fin_retries c) (fin_timeout c)
     (ack_timeout c) (window c) (lossy_layer c).
Definition set_acknum (v : Z) (c : t) : t :=
  mk (state c) (seqnum c) v (recvbuf c) (fin_retries c) (fin_timeout c)
     (ack_timeout c) (window c) (lossy_layer c).
Definition set_recvbuf (v : list bytes) (c : t) : t :=
  mk (state c) (seqnum c) (acknum c) v (fin_retries c) (fin_timeout c)
     (ack_timeout c) (window c) (lossy_layer c).
Definition set_fin_retries (v : option Z) (c : t) : t :=
  mk (state c) (seqnum c) (acknum c) (recvbuf c) v (fin_timeout c)
     (ack_timeout c) (window c) (lossy_layer c).
Definition set_fin_timeout (v : option time) (c : t) : t :=
  mk (state c) (seqnum c) (acknum c) (recvbuf c) (fin_retries c) v
     (ack_timeout c) (window c) (lossy_layer c).
Definition set_ack_timeout (v : option time) (c : t) : t :=
  mk (state c) (seqnum c) (acknum c) (recvbuf c) (fin_retries c) (fin_timeout c)
     v (window c) (lossy_layer c).

(** [self._lossy_layer.send_segment(segment)]. *)
Definition send_segment (segment : bytes) (c : t) : t :=
  mk (state c) (seqnum c) (acknum c) (recvbuf c) (fin_retries c) (fin_timeout c)
     (ack_timeout c) (window c) (lossy_layer c ++ [segment]).

(** [self._recvbuf.put_nowait(chunk)] inside [try: ... except queue.Full: pass]:
    a chunk offered to a full queue is dropped. *)
Definition put_nowait (chunk : bytes) (c : t) : t :=
  if (length (recvbuf c) <? recvbuf_maxsize)%nat
  then set_recvbuf (recvbuf c ++ [chunk]) c
  else c.

(** How many of a list of categories hold. *)
Definition count_true (l : list bool) : nat := List.length (filter (fun b => b) l).

(** The flag combinations the handler derives:
    [(SYNACK, SYN, ACK, FIN, NOFLAG)]. *)
Definition flag_classes (syn_set ack_set fin_set : bool)
  : bool * bool * bool * bool * bool :=
  let SYNACK := syn_set && ack_set in
  let SYN := syn_set && negb SYNACK in
  let ACK := ack_set && negb SYNACK in
  let FIN := fin_set && negb SYN && negb ACK in
  let NOFLAG := negb (SYN || ACK || FIN || SYNACK) in
  (SYNACK, SYN, ACK, FIN, NOFLAG).

Section WithConstants.

(** [WINDOW] and [TIMEOUT] of [btcp/constants.py], which is not among the
    sources. *)
Variable WINDOW : Z.
Variable TIMEOUT : Z.

(** [BTCPServerSocket.__init__]. *)
Definition init : t :=
  {| state := CLOSED;
     seqnum := None;
     acknum := 0;
     recvbuf := [];
     fin_retries := None;
     fin_timeout := None;
     ack_timeout := None;
     window := WINDOW;
     lossy_layer := [] |}.

Local Open Scope py_scope.

(** [BTCPServerSocket.generate_ack]: the first header is built with the
    default [window], the second with [self.window]. *)
Definition generate_ack : M t bytes :=
  self <- get ;;
  header <- lift (build_segment_header_opt (seqnum self) (acknum self)
                    false true false default_window 0 0) ;;
  let payload := zero_payload in
  checksum <- lift (in_cksum header) ;;
  header <- lift (build_segment_header_opt (seqnum self) (acknum self)
                    false true false (window self) 0 checksum) ;;
  let ack := header ++ payload in
  ret ack.

(** The FIN+ACK both teardown branches build and send. *)
Definition send_fin_ack : M t unit :=
  self <- get ;;
  header <- lift (build_segment_header_opt (seqnum self) (acknum self)
                    false true true default_window 0 0) ;;
  let payload := zero_payload in
  checksum <- lift (in_cksum header) ;;
  header <- lift (build_segment_header_opt (seqnum self) (acknum self)
                    false true true default_window 0 checksum) ;;
  let fin_ack := header ++ payload in
  modify (send_segment fin_ack).

(** The verification the handler starts with, on its own: the fields it
    unpacks, and the checksum [check] it recomputes over the rebuilt header
    (checksum field 0) followed by the first [datalen] payload bytes. *)
Definition verify (segment : bytes) : outcome (header_fields * Z) :=
  obind (unpack_segment_header (firstn HEADER_SIZE segment)) (fun fields =>
  let '(seqnum_, acknum_, syn_set, ack_set, fin_set, window_, datalen, _) := fields in
  let chunk := firstn (Z.to_nat datalen) (skipn HEADER_SIZE segment) in
  obind (build_segment_header seqnum_ acknum_ syn_set ack_set fin_set
                              window_ datalen 0) (fun header =>
  obind (in_cksum (header ++ chunk)) (fun check =>
  Return (fields, check)))).

(** The segment passes when [check] is the received [checksum]. *)
Definition checksum_valid (segment : bytes) (fields : header_fields) : Prop :=
  let '(_, _, _, _, _, _, _, checksum) := fields in
  verify segment = Return (fields, checksum).

(** [BTCPServerSocket.lossy_layer_segment_received]; [now] is the reading of
    [time.time()]. *)
Definition lossy_layer_segment_received (now : time) (segment : bytes) : M t unit :=
  self <- get ;;
  if BTCPStates_eqb (state self) CLOSED then ret tt else
  '(seqnum_, acknum_, syn_set, ack_set, fin_set, window_, datalen, checksum)
     <- lift (unpack_segment_header (firstn HEADER_SIZE segment)) ;;
  let chunk := firstn (Z.to_nat datalen) (skipn HEADER_SIZE segment) in
  header <- lift (build_segment_header seqnum_ acknum_ syn_set ack_set fin_set
                                       window_ datalen 0) ;;
  check <- lift (in_cksum (header ++ chunk)) ;;
  if negb (check =? checksum) then ret tt else
  let '(SYNACK, SYN, ACK, FIN, NOFLAG) := flag_classes syn_set ack_set fin_set in
  if negb (BTCPStates_eqb (state self) ESTABLISHED) then
    if BTCPStates_eqb (state self) ACCEPTING && SYN then
      modify (set_acknum (seqnum_ + 1)) ;;
      modify (set_state SYN_RCVD)
    else if BTCPStates_eqb (state self) SYN_RCVD && ACK then
      modify (set_state ESTABLISHED)
    else if BTCPStates_eqb (state self) CLOSING && ACK then
      modify (set_state CLOSED)
    else if BTCPStates_eqb (state self) CLOSING && FIN then
      retries <- lift (int_of (fin_retries self)) ;;
      if retries >=? 10 then modify (set_state CLOSED)
      else
        send_fin_ack ;;
        modify (set_fin_retries (Some (retries + 1)))
    else ret tt
  else
    if FIN then
      modify (set_state CLOSING) ;;
      modify (set_fin_retries (Some 0)) ;;
      modify (set_fin_timeout (Some (now + 30))) ;;
      send_fin_ack
    else if NOFLAG then
      modify (set_ack_timeout None) ;;
      if seqnum_ =? acknum self + 1 then
        ack <- generate_ack ;;
        modify (send_segment ack) ;;
        modify (fun c => set_acknum (acknum c + 1) c) ;;
        modify (put_nowait chunk)
      else
        ack <- generate_ack ;;
        modify (send_segment ack)
    else ret tt.

(** [BTCPServerSocket.lossy_layer_tick]. *)
Definition lossy_layer_tick (now : time) : M t unit :=
  self <- get ;;
  match state self with
  | CLOSING =>
      match fin_timeout self with
      | None => raise TypeError
      | Some deadline =>
          if now >=? deadline then modify (set_state CLOSED) else ret tt
      end
  | ESTABLISHED =>
      match ack_timeout self with
      | None => modify (set_ack_timeout (Some (now + TIMEOUT)))
      | Some deadline =>
          if now >=? deadline then
            ack <- generate_ack ;;
            modify (send_segment ack)
          else ret tt
      end
  | _ => ret tt
  end.

Definition set_seqnum (v : option Z) (c : t) : t :=
  mk (state c) v (acknum c) (recvbuf c) (fin_retries c) (fin_timeout c)
     (ack_timeout c) (window c) (lossy_layer c).
Definition set_window (v : Z) (c : t) : t :=
  mk (state c) (seqnum c) (acknum c) (recvbuf c) (fin_retries c) (fin_timeout c)
     (ack_timeout c) v (lossy_layer c).

(** What the network thread does while the application thread waits: the
    lossy layer calls back with a segment that arrived, or with a tick; [now]
    is the reading of [time.time()] the callback sees. *)
Inductive callback : Type :=
| Arrives (now : time) (segment : bytes)
| Ticks (now : time).

(** The network thread running a list of callbacks.  An exception a callback
    raises stays in the network thread; the attribute writes it made before
    are kept. *)
Fixpoint network_thread (cbs : list callback) (c : t) : t :=
  match cbs with
  | [] => c
  | Arrives now segment :: cbs' =>
      network_thread cbs' (snd (lossy_layer_segment_received now segment c))
  | Ticks now :: cbs' =>
      network_thread cbs' (snd (lossy_layer_tick now c))
  end.

(** The inner retry loop of [accept],
    [while self.state != BTCPStates.ESTABLISHED and retries < 10], counted
    down: [left] is [10 - retries].  [hd [] sleeps] is what the network
    thread does during one [time.sleep(10)]. *)
Fixpoint send_syn_ack (left : nat) (sleeps : list (list callback)) (syn_ack : bytes)
  : M t unit :=
  match left with
  | O => ret tt
  | S left' =>
      self <- get ;;
      if negb (BTCPStates_eqb (state self) ESTABLISHED) then
        modify (send_segment syn_ack) ;;
        modify (network_thread (hd [] sleeps)) ;;
        send_syn_ack left' (tl sleeps) syn_ack
      else ret tt
  end.

(** What the surroundings contribute to one turn of the outer loop of
    [accept]: the callbacks the network thread runs while [accept] waits for
    [SYN_RCVD] (the wait ends with the state they leave: [SYN_RCVD], or the
    20 seconds have passed), the value [isn] of
    [int.from_bytes(urandom(2), byteorder='big')], and the callbacks during
    each [time.sleep(10)]. *)
Record attempt : Type := {
  syn_wait : list callback;
  isn : Z;
  sleeps : list (list callback)
}.

(** [BTCPServerSocket.accept], a [while True] loop: one turn per [attempt] of
    the script.  The result [None] stands for a call that is still in the
    loop when the script ends; [Some PyNone] is the value of the bare
    [return]s. *)
Fixpoint accept (script : list attempt) : M t (option pyvalue) :=
  match script with
  | [] => ret None
  | a :: script' =>
      modify (set_state ACCEPTING) ;;
      modify (network_thread (syn_wait a)) ;;
      self <- get ;;
      if negb (BTCPStates_eqb (state self) SYN_RCVD) then
        modify (set_state CLOSED) ;;
        ret (Some PyNone)
      else
        modify (set_seqnum (Some (isn a))) ;;
        self <- get ;;
        header <- lift (build_segment_header_opt (seqnum self) (acknum self)
                          true true false (window self) 0 0) ;;
        let payload := zero_payload in
        checksum <- lift (in_cksum header) ;;
        header <- lift (build_segment_header_opt (seqnum self) (acknum self)
                          true true false (window self) 0 checksum) ;;
        let syn_ack := header ++ payload in
        send_syn_ack 10 (sleeps a) syn_ack ;;
        self <- get ;;
        if BTCPStates_eqb (state self) ESTABLISHED then ret (Some PyNone)
        else accept script'
  end.

(** The draining loop of [recv], [while True: data.extend(get_nowait()); ...],
    over the content [queue] of [_recvbuf]: [get_nowait] on the empty queue
    raises [queue.Empty], which ends the loop. *)
Fixpoint drain (queue : list bytes) (data : bytes) : M t bytes :=
  match queue with
  | [] => ret data
  | chunk :: queue' =>
      modify (set_recvbuf queue') ;;
      modify (set_window (Z.of_nat recvbuf_maxsize - Z.of_nat (List.length queue'))) ;;
      drain queue' (data ++ chunk)
  end.

(** [BTCPServerSocket.recv].  The first [get(block=True, timeout=10)] returns
    at once when the queue holds a chunk; on an empty queue it waits, [wait]
    being what the network thread does in the meantime, and raises
    [queue.Empty] when the queue is still empty after that. *)
Definition recv (wait : list callback) : M t bytes :=
  self <- get ;;
  (match recvbuf self with
   | [] => modify (network_thread wait)
   | _ :: _ => ret tt
   end) ;;
  self <- get ;;
  match recvbuf self with
  | [] => ret []
  | chunk :: queue =>
      modify (set_recvbuf queue) ;;
      drain queue chunk
  end.

End WithConstants.
End Server.

(** * The checksum as the spec words it

    Section 4.1: the sum of the consecutive 16-bit big-endian words with
    end-around carry (any overflow past 16 bits is added back into the low
    bits), then the one's complement, [0xFFFF - sum].  This definition follows
    the spec's words, not the code; [in_cksum] above is the code. *)

Definition end_around_carry (sum : Z) : Z :=
  Z.land sum 0xFFFF + Z.shiftr sum 16.

Definition ones_complement_sum (ws : list Z) : Z :=
  fold_left (fun sum w => end_around_carry (sum + w)) ws 0.

Definition checksum_spec (segment : bytes) : option Z :=
  match iter_unpack_H segment with
  | Some ws => Some (0xFFFF - ones_complement_sum ws)
  | None => None
  end.

(** * Vocabulary of the properties

    Notions the statements below are written in; none of them is code of the
    repository. *)

(** The integers [start], [start + 1], ..., [len] of them. *)
Fixpoint Zseq (start : Z) (len : nat) : list Z :=
  match len with
  | O => []
  | S len' => start :: Zseq (start + 1) len'
  end.

(** The segments in transit carry consecutive sequence numbers that end just
    below the client's [seqnum]. *)
Definition in_flight_consecutive (c : Client.t) : Prop :=
  exists s,
    Client.seqnum c = Some s
    /\ map Client.entry_seqnum (Client.segments_in_transit c)
       = Zseq (s - Z.of_nat (List.length (Client.segments_in_transit c)))
           (List.length (Client.segments_in_transit c)).

(** The test of the first loop of the client's tick,
    [timeout+TIMEOUT < time.time()], on one entry, and the entry that loop
    leaves in its place. *)
Definition timed_out (TIMEOUT : Z) (now : time) (e : Client.in_transit) : bool :=
  fst (fst e) + TIMEOUT <? now.

Definition refresh (TIMEOUT : Z) (now : time) (e : Client.in_transit)
  : Client.in_transit :=
  if timed_out TIMEOUT now e then (now, snd (fst e), snd e) else e.

(** The entry the second loop of the client's tick records for a chunk it
    took from the queue of client [c] at the reading [now]: the time stamp is
    [now], and the segment is the data segment built for the chunk under the
    entry's sequence number. *)
Definition sent_as (now : time) (c : Client.t) (chunk : bytes) (e : Client.in_transit)
  : Prop :=
  fst (fst e) = now
  /\ Client.data_segment (Client.entry_seqnum e) (Client.acknum c)
       (Client.client_window c) chunk = Return (snd e).

(** A client with a sequence number, nothing queued and nothing in transit. *)
Definition idle (c : Client.t) : Prop :=
  Client.sendbuf c = [] /\ Client.segments_in_transit c = []
  /\ exists s, Client.seqnum c = Some s.

(** The edges of the server's state machine. *)
Definition server_step (s s' : BTCPStates) : Prop :=
  s' = s
  \/ (s = ACCEPTING /\ s' = SYN_RCVD)
  \/ (s = SYN_RCVD /\ s' = ESTABLISHED)
  \/ (s = ESTABLISHED /\ s' = CLOSING)
  \/ (s = CLOSING /\ s' = CLOSED).

(** A bare segment: the header over these fields with [length] 0, carrying
    the checksum [in_cksum] gives for the same header with checksum 0,
    followed by the zero payload.  [connect], [shutdown], [accept] and the
    server's FIN+ACK build such segments in two passes. *)
Definition bare_checksum (seqnum acknum : Z) (syn_set ack_set fin_set : bool)
    (window : Z) : Z :=
  2 ^ 16 - header_sum seqnum acknum syn_set ack_set fin_set window 0 0.

Definition bare_segment (seqnum acknum : Z) (syn_set ack_set fin_set : bool)
    (window : Z) : bytes :=
  header_bytes seqnum acknum syn_set ack_set fin_set window 0
    (bare_checksum seqnum acknum syn_set ack_set fin_set window)
  ++ zero_payload.


(** * Scenarios

    Concrete sockets and segments the examples below run the handlers on.  A
    segment is what the peer's code sends, or such a segment with one byte
    overwritten. *)

Module Scenario.

Definition TIMEOUT : Z := 5.
Definition RETRIES : nat := 3.

Definition segment_of (o : outcome bytes) : bytes :=
  match o with
  | Return segment => segment
  | Raise _ => []
  end.

(** An established server with [seqnum] 100 that has accepted everything up
    to position [acknum] and advertises [window]. *)
Definition server_at (acknum window : Z) : Server.t :=
  Server.mk ESTABLISHED (Some 100) acknum [] None None None window [].

(** The ACK such a server generates. *)
Definition server_ack (acknum window : Z) : bytes :=
  segment_of (fst (Server.generate_ack (server_at acknum window))).

(** An established client at [seqnum] 5 with the chunk [b"hi"] queued and the
    peer's window open for one segment; then the same client after one tick,
    with the chunk in transit under sequence number 5. *)
Definition client_queued : Client.t :=
  Client.mk ESTABLISHED (Some 5) 100 1 1 5 false false [] [[x68; x69]] [].

Definition client_in_flight : Client.t :=
  snd (Client.lossy_layer_tick TIMEOUT 0 client_queued).

(** The data segment that client sent. *)
Definition data_segment_5 : bytes := hd [] (Client.lossy_layer client_in_flight).


Definition syn_ack_42 : bytes :=
  segment_of
    (obind (build_segment_header 100 42 true true false 1 0 0) (fun header =>
     obind (in_cksum header) (fun checksum =>
     obind (build_segment_header 100 42 true true false 1 0 checksum) (fun header =>
     Return (header ++ zero_payload))))).

(** A segment with all three flags set, built in two passes, as a peer that
    sets SYN, ACK and FIN together would send it. *)
Definition syn_ack_fin_segment : bytes :=
  segment_of
    (obind (build_segment_header 7 100 true true true 1 0 0) (fun header =>
     obind (in_cksum header) (fun checksum =>
     obind (build_segment_header 7 100 true true true 1 0 checksum) (fun header =>
     Return (header ++ zero_payload))))).

(** A client in the state of [client_queued] whose queued chunk is the single
    byte [b"h"], after one tick; and the data segment it sent, whose [length]
    field is 1. *)
Definition client_odd_in_flight : Client.t :=
  snd (Client.lossy_layer_tick TIMEOUT 0
         (Client.mk ESTABLISHED (Some 5) 100 1 1 5 false false [] [[x68]] [])).

Definition data_segment_odd : bytes := hd [] (Client.lossy_layer client_odd_in_flight).

(** The same segment with the low byte of its checksum field overwritten on
    the way. *)
Definition corrupted_segment_odd : bytes :=
  firstn 9 data_segment_odd ++ x00 :: skipn 10 data_segment_odd.

(** Two runs of [connect] on a fresh client that draws 41 as its initial
    sequence number: in the first nothing ever arrives; in the second the
    SYN+ACK [syn_ack_42] arrives during the first wait. *)
Definition connect_exhausted : outcome pyvalue * Client.t :=
  Client.connect TIMEOUT RETRIES 41 [] (Client.init 1).

Definition connect_established : outcome pyvalue * Client.t :=
  Client.connect TIMEOUT RETRIES 41 [[Client.Arrives syn_ack_42]] (Client.init 1).

(** An established client with two chunks queued and the peer's window open
    for two segments, after one tick: sequence numbers 5 and 6 are in
    transit. *)
Definition client_two_in_flight : Client.t :=
  snd (Client.lossy_layer_tick TIMEOUT 0
         (Client.mk ESTABLISHED (Some 5) 100 1 2 5 false false []
            [[x68; x69]; [x79; x6f]] [])).

(** A client that has sent its FIN under sequence number 42 and waits in
    FIN_SENT, and the FIN+ACK of a server whose [acknum] is 43. *)
Definition client_fin_sent : Client.t :=
  Client.mk FIN_SENT (Some 42) 101 1 1 0 true false [] [] [].

Definition fin_ack_43 : bytes :=
  hd [] (Server.lossy_layer (snd (Server.send_fin_ack (server_at 43 1)))).

(** An established client at [seqnum] 42 with nothing queued, as a handshake
    with initial sequence number 41 leaves it. *)
Definition client_established : Client.t :=
  Client.mk ESTABLISHED (Some 42) 101 1 1 0 true false [] [] [].


(** The FIN [shutdown] sends from [client_established]. *)
Definition fin_43 : bytes := bare_segment 43 102 false false true 1.

(** A server in CLOSING that has answered the first FIN, and an established
    server whose receive queue is full. *)
Definition server_closing : Server.t :=
  Server.mk CLOSING (Some 100) 42 [] (Some 0) (Some 30) None 1 [].

Definition server_full : Server.t :=
  Server.mk ESTABLISHED (Some 100) 4 (repeat [] 1000) None None None 1 [].

(** An established server with two chunks waiting in the receive queue. *)
Definition server_two_chunks : Server.t :=
  Server.mk ESTABLISHED (Some 100) 4 [[x68; x69]; [x79; x6f]] None None None 1 [].

(** One turn of [accept]: the SYN of a client with initial sequence number
    [isn_c] arrives, the server draws 100, and nothing arrives during the
    sleeps. *)
Definition attempt_unanswered (isn_c : Z) : Server.attempt :=
  {| Server.syn_wait := [Server.Arrives 0 (bare_segment isn_c 0 true false false 1)];
     Server.isn := 100;
     Server.sleeps := [] |}.




End Scenario.

(** * Properties *)

(** ** Bytes and 16-bit words *)

Lemma uint16_0 : uint16 0.
Proof. unfold uint16. lia. Qed.

Lemma uint8_default_window : uint8 default_window.
Proof. unfold uint8, default_window. lia. Qed.

(** The side conditions of the header lemmas: the fields fit. *)
Create HintDb btcp.
#[global] Hint Resolve uint16_0 uint8_default_window : btcp.

Lemma Z_of_byte_range (b : byte) : 0 <= Z_of_byte b <= 255.
Proof.
  unfold Z_of_byte. pose proof (Byte.to_N_bounded b). lia.
Qed.

Lemma Z_of_byte_of_Z (z : Z) : 0 <= z <= 255 -> Z_of_byte (byte_of_Z z) = z.
Proof.
  intros Hz. unfold Z_of_byte, byte_of_Z.
  destruct (Byte.of_N (Z.to_N z)) as [b|] eqn:E.
  - apply Byte.to_of_N in E. rewrite E. lia.
  - apply Byte.of_N_None_iff in E. lia.
Qed.

Lemma unpack_H_eq (hi lo : byte) : unpack_H hi lo = Z_of_byte hi * 256 + Z_of_byte lo.
Proof.
  unfold unpack_H.
  pose proof (Z_of_byte_range hi) as Hhi. pose proof (Z_of_byte_range lo) as Hlo.
  rewrite Z.shiftl_mul_pow2 by lia.
  assert (Hland : Z.land (Z_of_byte hi * 2 ^ 8) (Z_of_byte lo) = 0).
  { apply Z.bits_inj'; intros n Hn. rewrite Z.land_spec, Z.bits_0.
    destruct (Z.ltb_spec n 8).
    - rewrite Z.mul_pow2_bits_low by lia. reflexivity.
    - destruct (Z.eq_dec (Z_of_byte lo) 0) as [->|Hne].
      + rewrite Z.bits_0, andb_false_r. reflexivity.
      + rewrite (Z.bits_above_log2 (Z_of_byte lo)), andb_false_r by
          first [ lia | apply Z.lt_le_trans with 8; [ apply Z.log2_lt_pow2; lia | lia ] ].
        reflexivity. }
  rewrite <- Z.lxor_lor by exact Hland.
  rewrite <- Z.add_nocarry_lxor by exact Hland.
  reflexivity.
Qed.

Lemma unpack_H_range (hi lo : byte) : 0 <= unpack_H hi lo <= 0xFFFF.
Proof.
  rewrite unpack_H_eq.
  pose proof (Z_of_byte_range hi). pose proof (Z_of_byte_range lo). lia.
Qed.

Lemma pack_H_ok (v : Z) :
  0 <= v <= 0xFFFF ->
  pack_H v = Return [byte_of_Z (Z.shiftr v 8); byte_of_Z (Z.land v 0xFF)].
Proof.
  intros Hv. unfold pack_H.
  destruct (Z.leb_spec 0 v), (Z.leb_spec v 0xFFFF); try lia. reflexivity.
Qed.

Lemma pack_B_ok (v : Z) : 0 <= v <= 0xFF -> pack_B v = Return [byte_of_Z v].
Proof.
  intros Hv. unfold pack_B.
  destruct (Z.leb_spec 0 v), (Z.leb_spec v 0xFF); try lia. reflexivity.
Qed.

Lemma unpack_pack_H (v : Z) :
  0 <= v <= 0xFFFF ->
  unpack_H (byte_of_Z (Z.shiftr v 8)) (byte_of_Z (Z.land v 0xFF)) = v.
Proof.
  intros Hv. rewrite unpack_H_eq.
  rewrite Z.shiftr_div_pow2 by lia. change (2 ^ 8) with 256.
  change 0xFF with (Z.ones 8). rewrite Z.land_ones by lia. change (2 ^ 8) with 256.
  rewrite !Z_of_byte_of_Z.
  - pose proof (Z.div_mod v 256). lia.
  - pose proof (Z.mod_pos_bound v 256). lia.
  - split; [ apply Z.div_pos; lia | ].
    assert (v / 256 < 256) by (apply Z.div_lt_upper_bound; lia). lia.
Qed.

(** ** The header codec *)

Lemma flag_byte_range (syn_set ack_set fin_set : bool) :
  0 <= flag_byte syn_set ack_set fin_set <= 7.
Proof. destruct syn_set, ack_set, fin_set; vm_compute; split; discriminate. Qed.

Lemma build_segment_header_ok seqnum acknum syn_set ack_set fin_set window length checksum :
  uint16 seqnum -> uint16 acknum -> uint8 window -> uint16 length -> uint16 checksum ->
  build_segment_header seqnum acknum syn_set ack_set fin_set window length checksum
  = Return (header_bytes seqnum acknum syn_set ack_set fin_set window length checksum).
Proof.
  unfold uint16, uint8. intros Hs Ha Hw Hl Hc.
  unfold build_segment_header.
  pose proof (flag_byte_range syn_set ack_set fin_set).
  rewrite !pack_H_ok, !pack_B_ok by lia. reflexivity.
Qed.

Lemma build_segment_header_inv
    seqnum acknum syn_set ack_set fin_set window length checksum header :
  build_segment_header seqnum acknum syn_set ack_set fin_set window length checksum
  = Return header ->
  uint16 seqnum /\ uint16 acknum /\ uint8 window /\ uint16 length /\ uint16 checksum
  /\ header = header_bytes seqnum acknum syn_set ack_set fin_set window length checksum.
Proof.
  intros Hb.
  assert (uint16 seqnum /\ uint16 acknum /\ uint8 window /\ uint16 length
          /\ uint16 checksum) as (Hs & Ha & Hw & Hl & Hc).
  { unfold build_segment_header, pack_H, pack_B, uint16, uint8 in *.
    repeat match type of Hb with
           | context [if ?c then _ else _] =>
               let E := fresh "E" in destruct c eqn:E; simpl in Hb; [ | discriminate ]
           end.
    lia. }
  rewrite build_segment_header_ok in Hb by assumption.
  injection Hb as <-. repeat split; assumption || apply Hs || apply Ha || apply Hw
                                    || apply Hl || apply Hc.
Qed.

Lemma unpack_flags (syn_set ack_set fin_set : bool) :
  let flags := flag_byte syn_set ack_set fin_set in
  (flags >? 3) = syn_set /\ (flags mod 4 >? 1) = ack_set
  /\ ((flags mod 4) mod 2 >? 0) = fin_set.
Proof. destruct syn_set, ack_set, fin_set; vm_compute; auto. Qed.

Lemma unpack_build_segment_header
    seqnum acknum syn_set ack_set fin_set window length checksum header :
  build_segment_header seqnum acknum syn_set ack_set fin_set window length checksum
  = Return header ->
  List.length header = HEADER_SIZE /\
  unpack_segment_header header
  = Return (seqnum, acknum, syn_set, ack_set, fin_set, window, length, checksum).
Proof.
  intros Hb.
  apply build_segment_header_inv in Hb as (Hs & Ha & Hw & Hl & Hc & ->).
  split; [ reflexivity | ].
  unfold unpack_segment_header, header_bytes.
  pose proof (flag_byte_range syn_set ack_set fin_set).
  rewrite !unpack_pack_H by assumption.
  rewrite !Z_of_byte_of_Z by (unfold uint8 in *; lia).
  destruct (unpack_flags syn_set ack_set fin_set) as (-> & -> & ->).
  reflexivity.
Qed.

(** C9. For all field values in range (16 bits for [seqnum], [acknum], [length]
    and [checksum], 8 bits for [window], booleans for the flags),
    [build_segment_header] returns a 10-byte header from which
    [unpack_segment_header] returns exactly the values given; and whatever
    byte [f] stands at the flags offset of that header, unpacking still
    returns: SYN is read as [f > 3], ACK as [f % 4 > 1], FIN as [f % 2 > 0],
    and the other fields are untouched. *)
Theorem header_codec_roundtrip :
  forall seqnum acknum syn_set ack_set fin_set window length checksum,
    0 <= seqnum <= 65535 -> 0 <= acknum <= 65535 -> 0 <= window <= 255 ->
    0 <= length <= 65535 -> 0 <= checksum <= 65535 ->
    exists header,
      build_segment_header seqnum acknum syn_set ack_set fin_set window length checksum
      = Return header
      /\ unpack_segment_header header
         = Return (seqnum, acknum, syn_set, ack_set, fin_set, window, length, checksum)
      /\ forall f : byte,
           unpack_segment_header (firstn 4 header ++ f :: skipn 5 header)
           = Return (seqnum, acknum,
                     Z_of_byte f >? 3,
                     Z_of_byte f mod 4 >? 1,
                     (Z_of_byte f mod 4) mod 2 >? 0,
                     window, length, checksum).
Proof.
  intros seqnum acknum syn_set ack_set fin_set window length checksum Hs Ha Hw Hl Hc.
  eexists. split; [ apply build_segment_header_ok; assumption | ].
  split.
  - eapply unpack_build_segment_header, build_segment_header_ok; assumption.
  - intros f. unfold header_bytes. cbn [firstn skipn app].
    unfold unpack_segment_header.
    rewrite !unpack_pack_H by assumption.
    rewrite Z_of_byte_of_Z by assumption. reflexivity.
Qed.

Lemma header_codec_roundtrip_witness :
  exists header,
    build_segment_header 4660 22136 true false true 7 513 65535 = Return header
    /\ unpack_segment_header header
       = Return (4660, 22136, true, false, true, 7, 513, 65535)
    /\ forall f : byte,
         unpack_segment_header (firstn 4 header ++ f :: skipn 5 header)
         = Return (4660, 22136,
                   Z_of_byte f >? 3,
                   Z_of_byte f mod 4 >? 1,
                   (Z_of_byte f mod 4) mod 2 >? 0,
                   7, 513, 65535).
Proof.
  apply (header_codec_roundtrip 4660 22136 true false true 7 513 65535); lia.
Defined.

(** ** The checksum *)

(** Induction over a buffer two bytes at a time, as [iter_unpack_H] reads it. *)
Lemma bytes_pair_ind (P : bytes -> Prop) :
  P [] -> (forall b, P [b]) -> (forall hi lo rest, P rest -> P (hi :: lo :: rest)) ->
  forall segment, P segment.
Proof.
  intros H0 H1 H2 segment.
  enough (P segment /\ forall b, P (b :: segment)) as [H _] by exact H.
  induction segment as [|b segment [IH1 IH2]].
  - split; [ exact H0 | exact H1 ].
  - split; [ apply IH2 | intros b'; apply H2, IH1 ].
Qed.

Lemma iter_unpack_H_words (segment : bytes) :
  forall ws, iter_unpack_H segment = Some ws -> Forall uint16 ws.
Proof.
  induction segment as [|b|hi lo rest IH] using bytes_pair_ind; intros ws Hws;
    simpl in Hws.
  - injection Hws as <-. constructor.
  - discriminate.
  - destruct (iter_unpack_H rest) as [ws'|] eqn:E; [ | discriminate ].
    injection Hws as <-. constructor.
    + apply unpack_H_range.
    + apply IH. reflexivity.
Qed.

Lemma iter_unpack_H_odd (segment : bytes) :
  Nat.odd (List.length segment) = true -> iter_unpack_H segment = None.
Proof.
  induction segment as [|b|hi lo rest IH] using bytes_pair_ind; intros Hodd.
  - discriminate.
  - reflexivity.
  - cbn [iter_unpack_H]. rewrite IH; [ reflexivity | ].
    simpl List.length in Hodd. rewrite Nat.odd_succ_succ in Hodd. exact Hodd.
Qed.

Lemma cksum_step_range (c w : Z) :
  0 <= c <= 65536 -> uint16 w -> 0 <= cksum_step c w <= 65536.
Proof.
  unfold uint16, cksum_step. intros Hc Hw. change (2 ^ 16) with 65536.
  destruct (Z.gtb_spec (c + w) 65536); lia.
Qed.

Lemma cksum_step_pos (c w : Z) :
  1 <= c <= 65536 -> uint16 w -> 1 <= cksum_step c w.
Proof.
  unfold uint16, cksum_step. intros Hc Hw. change (2 ^ 16) with 65536.
  destruct (Z.gtb_spec (c + w) 65536); lia.
Qed.

Lemma cksum_fold_range (ws : list Z) :
  forall c, 0 <= c <= 65536 -> Forall uint16 ws ->
            0 <= fold_left cksum_step ws c <= 65536.
Proof.
  induction ws as [|w ws IH]; intros c Hc Hws; simpl.
  - exact Hc.
  - inversion Hws; subst. apply IH; [ apply cksum_step_range | ]; assumption.
Qed.

Lemma cksum_fold_pos (ws : list Z) :
  forall c, 1 <= c <= 65536 -> Forall uint16 ws ->
            1 <= fold_left cksum_step ws c.
Proof.
  induction ws as [|w ws IH]; intros c Hc Hws; simpl.
  - lia.
  - inversion Hws; subst. apply IH; [ | assumption ].
    split; [ apply cksum_step_pos | apply cksum_step_range ]; assumption || lia.
Qed.

(** X4. What [in_cksum] can return at all: a value between 0 and 65536, both
    included. *)
Lemma in_cksum_range (segment : bytes) (v : Z) :
  in_cksum segment = Return v -> 0 <= v <= 65536.
Proof.
  unfold in_cksum. intros H.
  destruct segment as [|b segment]; [ discriminate | ].
  destruct (iter_unpack_H (b :: segment)) as [ws|] eqn:E; [ | discriminate ].
  replace v with (2 ^ 16 - fold_left cksum_step ws 0) by congruence.
  change (2 ^ 16) with 65536.
  assert (H0 : 0 <= 0 <= 65536) by lia.
  pose proof (cksum_fold_range ws 0 H0 (iter_unpack_H_words _ _ E)). lia.
Qed.

Lemma in_cksum_range_witness : 0 <= 65536 <= 65536.
Proof.
  apply (in_cksum_range (repeat x00 10) 65536). reflexivity.
Defined.

Lemma unpack_H_flags_window (syn_set ack_set fin_set : bool) (window : Z) :
  uint8 window ->
  unpack_H (byte_of_Z (flag_byte syn_set ack_set fin_set)) (byte_of_Z window)
  = flag_byte syn_set ack_set fin_set * 256 + window.
Proof.
  unfold uint8. intros Hw. pose proof (flag_byte_range syn_set ack_set fin_set).
  rewrite unpack_H_eq, !Z_of_byte_of_Z by lia. reflexivity.
Qed.

(** The words of a header followed by a payload. *)
Lemma iter_unpack_H_header seqnum acknum syn_set ack_set fin_set window length
    checksum (payload : bytes) :
  uint16 seqnum -> uint16 acknum -> uint8 window -> uint16 length -> uint16 checksum ->
  iter_unpack_H
    (header_bytes seqnum acknum syn_set ack_set fin_set window length checksum
     ++ payload)
  = match iter_unpack_H payload with
    | Some ws => Some (seqnum :: acknum
                       :: flag_byte syn_set ack_set fin_set * 256 + window
                       :: length :: checksum :: ws)
    | None => None
    end.
Proof.
  intros Hs Ha Hw Hl Hc. unfold header_bytes. cbn [app iter_unpack_H].
  rewrite !unpack_pack_H, unpack_H_flags_window by assumption.
  destruct (iter_unpack_H payload); reflexivity.
Qed.

Lemma in_cksum_header seqnum acknum syn_set ack_set fin_set window length checksum :
  uint16 seqnum -> uint16 acknum -> uint8 window -> uint16 length -> uint16 checksum ->
  in_cksum (header_bytes seqnum acknum syn_set ack_set fin_set window length checksum)
  = Return (2 ^ 16
            - header_sum seqnum acknum syn_set ack_set fin_set window length checksum).
Proof.
  intros Hs Ha Hw Hl Hc.
  pose proof (iter_unpack_H_header seqnum acknum syn_set ack_set fin_set window
                length checksum [] Hs Ha Hw Hl Hc) as Hws.
  rewrite app_nil_r in Hws. cbn [iter_unpack_H] in Hws.
  unfold in_cksum. rewrite Hws. reflexivity.
Qed.

Ltac cksum_cases :=
  unfold header_sum, cksum_step, uint16, uint8 in *; cbn [fold_left];
  change (2 ^ 16) with 65536 in *;
  repeat match goal with
         | |- context [?a >? 65536] => destruct (Z.gtb_spec a 65536)
         end.

(** A header with a flag set never sums to 0, so its checksum fits 16 bits. *)
Lemma header_sum_flagged seqnum acknum syn_set ack_set fin_set window length :
  uint16 seqnum -> uint16 acknum -> uint8 window -> uint16 length ->
  1 <= flag_byte syn_set ack_set fin_set ->
  uint16 (2 ^ 16 - header_sum seqnum acknum syn_set ack_set fin_set window length 0).
Proof.
  intros Hs Ha Hw Hl Hf.
  pose proof (flag_byte_range syn_set ack_set fin_set).
  unfold header_sum.
  generalize dependent (flag_byte syn_set ack_set fin_set). intros f Hf Hr.
  cksum_cases; lia.
Qed.

(** Two headers that differ in the window only never have the same checksum. *)
Lemma header_sum_window seqnum acknum syn_set ack_set fin_set window window' length :
  uint16 seqnum -> uint16 acknum -> uint8 window -> uint8 window' -> uint16 length ->
  window <> window' ->
  header_sum seqnum acknum syn_set ack_set fin_set window length 0
  <> header_sum seqnum acknum syn_set ack_set fin_set window' length 0.
Proof.
  intros Hs Ha Hw Hw' Hl Hne.
  pose proof (flag_byte_range syn_set ack_set fin_set).
  unfold header_sum.
  generalize dependent (flag_byte syn_set ack_set fin_set). intros f Hr.
  cksum_cases; lia.
Qed.

(** C3. [in_cksum] is not the one's complement of the end-around-carry sum, and
    its result is not always a 16-bit value: on a header of ten zero bytes it
    returns 65536 where the one's complement is 0xFFFF; on the single word
    0x0001 it returns 0xFFFF where the one's complement is 0xFFFE; on the
    words 0xFFFF, 0x0001 it returns 0 where the one's complement is 0xFFFE. *)
Theorem in_cksum_not_ones_complement :
  in_cksum (repeat x00 10) = Return 65536
  /\ checksum_spec (repeat x00 10) = Some 0xFFFF
  /\ ~ uint16 65536
  /\ in_cksum [x00; x01] = Return 0xFFFF
  /\ checksum_spec [x00; x01] = Some 0xFFFE
  /\ in_cksum [xff; xff; x00; x01] = Return 0
  /\ checksum_spec [xff; xff; x00; x01] = Some 0xFFFE.
Proof.
  repeat split; try reflexivity.
  unfold uint16. lia.
Qed.

(** ** The client's handlers *)

Ltac run_py := unfold bind, get, lift, ret, modify, raise; cbn beta iota.

(** Reading a successful [obind] chain backwards. *)
Lemma obind_Return {A B : Type} (m : outcome A) (k : A -> outcome B) (b : B) :
  obind m k = Return b -> exists a, m = Return a /\ k a = Return b.
Proof.
  destruct m as [a|e]; simpl; intros H; [ exists a; auto | discriminate ].
Qed.

Lemma client_verify_inv segment seqnum_ acknum_ syn_set ack_set fin_set window
    datalen checksum check :
  Client.verify segment
  = Return ((seqnum_, acknum_, syn_set, ack_set, fin_set, window, datalen, checksum),
            check) ->
  unpack_segment_header (firstn HEADER_SIZE segment)
  = Return (seqnum_, acknum_, syn_set, ack_set, fin_set, window, datalen, checksum)
  /\ exists header,
       build_segment_header seqnum_ acknum_ syn_set ack_set fin_set window datalen 0
       = Return header
       /\ in_cksum header = Return check.
Proof.
  unfold Client.verify. intros H.
  apply obind_Return in H as ([[[[[[[s a] sy] ac] fi] w] d] ck] & Hu & H).
  apply obind_Return in H as (header & Hb & H).
  apply obind_Return in H as (check' & Hc & H).
  injection H as -> -> -> -> -> -> -> -> ->.
  split; [ exact Hu | exists header; split; assumption ].
Qed.

Lemma scan_in_transit_all_acked (n : Z) (rest : list Client.in_transit) :
  forall i, Forall (fun e => Client.entry_seqnum e < n) rest ->
            Client.scan_in_transit n rest i = Raise IndexError.
Proof.
  induction rest as [|[[t s] seg] rest IH]; intros i Hall; simpl.
  - reflexivity.
  - inversion Hall as [|? ? Hs Hrest]; subst. cbv [Client.entry_seqnum fst snd] in Hs.
    destruct (Z.gtb_spec n s); [ apply IH; assumption | lia ].
Qed.

Lemma scan_in_transit_found (n : Z) (acked : list Client.in_transit) e rest :
  forall i, Forall (fun e => Client.entry_seqnum e < n) acked -> n <= Client.entry_seqnum e ->
            Client.scan_in_transit n (acked ++ e :: rest) i
            = Return (i + List.length acked)%nat.
Proof.
  induction acked as [|[[t s] seg] acked IH]; intros i Hall He; simpl.
  - destruct e as [[t s] seg]. cbv [Client.entry_seqnum fst snd] in He.
    destruct (Z.gtb_spec n s); [ lia | f_equal; lia ].
  - inversion Hall as [|? ? Hs Hrest]; subst. cbv [Client.entry_seqnum fst snd] in Hs.
    destruct (Z.gtb_spec n s); [ | lia ].
    rewrite IH by assumption. f_equal. lia.
Qed.

(** C1. In ESTABLISHED, when a checksum-valid segment with the ACK flag and an
    [acknum] N above the recorded cumulative ack arrives while every entry in
    flight has a sequence number below N (the empty list included), the
    handler records N and the peer's window and then raises [IndexError]: the
    clean-up loop reads past the end of [segments_in_transit], and the list is
    left as it was, nothing trimmed. *)
Theorem cumulative_ack_index_error :
  forall (c : Client.t) segment seqnum_ acknum_ syn_set fin_set window datalen checksum,
    Client.state c = ESTABLISHED ->
    Client.checksum_valid segment
      (seqnum_, acknum_, syn_set, true, fin_set, window, datalen, checksum) ->
    Client.last_rec_ack c < acknum_ ->
    Forall (fun e => Client.entry_seqnum e < acknum_) (Client.segments_in_transit c) ->
    Client.lossy_layer_segment_received segment c
    = (Raise IndexError,
       Client.set_last_rec_ack acknum_ (Client.set_server_window window c)).
Proof.
  intros c segment seqnum_ acknum_ syn_set fin_set window datalen checksum
         Hst Hvalid Hlt Hall.
  apply client_verify_inv in Hvalid as (Hunpack & header & Hbuild & Hck).
  unfold Client.lossy_layer_segment_received. run_py.
  rewrite Hst. cbn [BTCPStates_eqb].
  rewrite Hunpack, Hbuild, Hck, Z.eqb_refl. cbn [negb].
  destruct (Z.ltb_spec (Client.last_rec_ack c) acknum_); [ | lia ].
  cbn [andb]. rewrite scan_in_transit_all_acked by assumption. reflexivity.
Qed.

Lemma cumulative_ack_index_error_witness :
  Client.lossy_layer_segment_received (Scenario.server_ack 6 1) Scenario.client_in_flight
  = (Raise IndexError,
     Client.set_last_rec_ack 6 (Client.set_server_window 1 Scenario.client_in_flight)).
Proof.
  apply (cumulative_ack_index_error Scenario.client_in_flight (Scenario.server_ack 6 1)
           100 6 false false 1 0 64917).
  - vm_compute. reflexivity.
  - vm_compute. reflexivity.
  - vm_compute. reflexivity.
  - vm_compute. repeat constructor.
Defined.

(** X1. The clean-up does what a cumulative ACK should whenever some entry in
    flight is not yet covered: with the entries [acked ++ e :: rest], all of
    [acked] below N and [e] at or above N, exactly [acked] is removed. *)
Lemma cumulative_ack_trims_head :
  forall (c : Client.t) segment seqnum_ acknum_ syn_set fin_set window datalen checksum
         acked e rest,
    Client.state c = ESTABLISHED ->
    Client.checksum_valid segment
      (seqnum_, acknum_, syn_set, true, fin_set, window, datalen, checksum) ->
    Client.last_rec_ack c < acknum_ ->
    Client.segments_in_transit c = acked ++ e :: rest ->
    Forall (fun e => Client.entry_seqnum e < acknum_) acked ->
    acknum_ <= Client.entry_seqnum e ->
    Client.lossy_layer_segment_received segment c
    = (Return tt,
       Client.set_segments_in_transit (e :: rest)
         (Client.set_last_rec_ack acknum_ (Client.set_server_window window c))).
Proof.
  intros c segment seqnum_ acknum_ syn_set fin_set window datalen checksum
         acked e rest Hst Hvalid Hlt Hl Hall He.
  apply client_verify_inv in Hvalid as (Hunpack & header & Hbuild & Hck).
  unfold Client.lossy_layer_segment_received. run_py.
  rewrite Hst. cbn [BTCPStates_eqb].
  rewrite Hunpack, Hbuild, Hck, Z.eqb_refl. cbn [negb].
  destruct (Z.ltb_spec (Client.last_rec_ack c) acknum_); [ | lia ].
  cbn [andb]. rewrite Hl, scan_in_transit_found by assumption.
  cbn [Nat.add]. rewrite skipn_app, skipn_all, Nat.sub_diag. reflexivity.
Qed.

Lemma cumulative_ack_trims_head_witness :
  Client.lossy_layer_segment_received (Scenario.server_ack 6 1)
    Scenario.client_two_in_flight
  = (Return tt,
     Client.set_segments_in_transit
       ((0, 6, nth 1 (Client.lossy_layer Scenario.client_two_in_flight) []) :: [])
       (Client.set_last_rec_ack 6
          (Client.set_server_window 1 Scenario.client_two_in_flight))).
Proof.
  apply (cumulative_ack_trims_head Scenario.client_two_in_flight
           (Scenario.server_ack 6 1) 100 6 false false 1 0 64917
           [(0, 5, nth 0 (Client.lossy_layer Scenario.client_two_in_flight) [])]
           (0, 6, nth 1 (Client.lossy_layer Scenario.client_two_in_flight) []) []).
  - vm_compute. reflexivity.
  - vm_compute. reflexivity.
  - vm_compute. reflexivity.
  - vm_compute. reflexivity.
  - vm_compute. repeat constructor.
  - vm_compute. discriminate.
Defined.




Lemma retransmit_seqnum TIMEOUT now (c : Client.t) :
  Client.seqnum (Client.retransmit TIMEOUT now c) = Client.seqnum c.
Proof.
  unfold Client.retransmit.
  destruct (Client.resend_timed_out TIMEOUT now (Client.segments_in_transit c))
    as [l sent].
  change (Client.seqnum c) with (Client.seqnum (Client.set_segments_in_transit l c)).
  generalize (Client.set_segments_in_transit l c) as c0.
  induction sent as [|segment sent IH]; intros c0; simpl.
  - reflexivity.
  - rewrite IH. reflexivity.
Qed.

Lemma send_window_no_seqnum now queue (c : Client.t) :
  Client.seqnum c = None -> Client.send_window now queue c = (Raise TypeError, c).
Proof.
  intros Hseq. destruct queue; cbn [Client.send_window]; run_py;
    rewrite Hseq; reflexivity.
Qed.

(** C10. [lossy_layer_tick] has no guard on the state: on a socket whose
    [seqnum] is still [None] (as [__init__] leaves it, in CLOSED, until
    [connect] draws the initial sequence number) the tick runs its
    retransmission loop and then raises [TypeError] when the window condition
    [self.seqnum - self.last_rec_ack] is evaluated. *)
Theorem tick_before_connect_raises_TypeError :
  forall (TIMEOUT : Z) (now : time) (c : Client.t),
    Client.state c = CLOSED ->
    Client.seqnum c = None ->
    Client.lossy_layer_tick TIMEOUT now c
    = (Raise TypeError, Client.retransmit TIMEOUT now c).
Proof.
  intros TIMEOUT now c _ Hseq.
  unfold Client.lossy_layer_tick. run_py.
  apply send_window_no_seqnum. rewrite retransmit_seqnum. exact Hseq.
Qed.

Lemma tick_before_connect_raises_TypeError_witness :
  Client.lossy_layer_tick Scenario.TIMEOUT 0 (Client.init 1)
  = (Raise TypeError, Client.retransmit Scenario.TIMEOUT 0 (Client.init 1)).
Proof.
  apply (tick_before_connect_raises_TypeError Scenario.TIMEOUT 0 (Client.init 1));
    reflexivity.
Defined.

(** ** The server's handlers *)

Lemma server_verify_inv segment seqnum_ acknum_ syn_set ack_set fin_set window_
    datalen checksum check :
  Server.verify segment
  = Return ((seqnum_, acknum_, syn_set, ack_set, fin_set, window_, datalen, checksum),
            check) ->
  unpack_segment_header (firstn HEADER_SIZE segment)
  = Return (seqnum_, acknum_, syn_set, ack_set, fin_set, window_, datalen, checksum)
  /\ exists header,
       build_segment_header seqnum_ acknum_ syn_set ack_set fin_set window_ datalen 0
       = Return header
       /\ in_cksum (header ++ firstn (Z.to_nat datalen) (skipn HEADER_SIZE segment))
          = Return check.
Proof.
  unfold Server.verify. intros H.
  apply obind_Return in H as ([[[[[[[s a] sy] ac] fi] w] d] ck] & Hu & H).
  apply obind_Return in H as (header & Hb & H).
  apply obind_Return in H as (check' & Hc & H).
  injection H as -> -> -> -> -> -> -> -> ->.
  split; [ exact Hu | exists header; split; assumption ].
Qed.

Lemma unpack_segment_header_range header seqnum_ acknum_ syn_set ack_set fin_set
    window datalen checksum :
  unpack_segment_header header
  = Return (seqnum_, acknum_, syn_set, ack_set, fin_set, window, datalen, checksum) ->
  uint16 seqnum_ /\ uint16 acknum_ /\ uint8 window /\ uint16 datalen /\ uint16 checksum.
Proof.
  unfold unpack_segment_header. intros H.
  do 10 (destruct header as [|? header]; [ discriminate | ]).
  destruct header; [ | discriminate ].
  injection H as <- <- _ _ _ <- <- <-.
  repeat split; try apply unpack_H_range; apply Z_of_byte_range.
Qed.

(** C7. The categories the server derives are not mutually exclusive: for a
    segment with SYN, ACK and FIN all set both SYNACK and FIN hold, and an
    established server that receives such a segment (checksum-valid) treats
    it as a FIN and moves to CLOSING. *)
Theorem flag_classes_syn_ack_fin_overlap :
  Server.flag_classes true true true = (true, false, false, true, false)
  /\ Server.checksum_valid Scenario.syn_ack_fin_segment
       (7, 100, true, true, true, 1, 0, 63636)
  /\ Server.state
       (snd (Server.lossy_layer_segment_received 0 Scenario.syn_ack_fin_segment
               (Scenario.server_at 4 1)))
     = CLOSING.
Proof.
  split; [ reflexivity | ]. split; vm_compute; reflexivity.
Qed.

(** X3. On every flag combination other than SYN, ACK and FIN all set, exactly
    one of the five categories holds. *)
Lemma flag_classes_exclusive_otherwise (syn_set ack_set fin_set : bool) :
  syn_set && ack_set && fin_set = false ->
  let '(SYNACK, SYN, ACK, FIN, NOFLAG) := Server.flag_classes syn_set ack_set fin_set in
  Server.count_true [SYNACK; SYN; ACK; FIN; NOFLAG] = 1%nat.
Proof.
  destruct syn_set, ack_set, fin_set; simpl; intros H;
    reflexivity || discriminate.
Qed.

Lemma flag_classes_exclusive_otherwise_witness :
  let '(SYNACK, SYN, ACK, FIN, NOFLAG) := Server.flag_classes false true true in
  Server.count_true [SYNACK; SYN; ACK; FIN; NOFLAG] = 1%nat.
Proof.
  apply (flag_classes_exclusive_otherwise false true true). reflexivity.
Defined.

Lemma odd_to_nat (z : Z) : 0 <= z -> Z.odd z = true -> Nat.odd (Z.to_nat z) = true.
Proof.
  intros Hz Hodd. apply Z.odd_spec in Hodd as [k Hk].
  replace (Z.to_nat z) with (2 * Z.to_nat k + 1)%nat by lia.
  apply Nat.odd_odd.
Qed.

(** C5. A server that is not CLOSED raises [struct.error] on every segment
    whose [length] field is odd and not beyond the payload it carries,
    whatever its checksum field says: the recomputation itself fails, on a
    buffer of odd size, and the exception leaves the handler.  No attribute
    has been written by then. *)
Theorem server_odd_length_raises :
  forall (now : time) (s : Server.t) segment seqnum_ acknum_ syn_set ack_set fin_set
         window_ datalen checksum,
    Server.state s <> CLOSED ->
    unpack_segment_header (firstn HEADER_SIZE segment)
    = Return (seqnum_, acknum_, syn_set, ack_set, fin_set, window_, datalen, checksum) ->
    Z.odd datalen = true ->
    datalen <= Z.of_nat (List.length segment) - 10 ->
    Server.lossy_layer_segment_received now segment s = (Raise StructError, s).
Proof.
  intros now s segment seqnum_ acknum_ syn_set ack_set fin_set window_ datalen
         checksum Hst Hunpack Hodd Hlen.
  destruct (unpack_segment_header_range _ _ _ _ _ _ _ _ _ Hunpack)
    as (Hs & Ha & Hw & Hd & _).
  unfold Server.lossy_layer_segment_received. run_py.
  replace (BTCPStates_eqb (Server.state s) CLOSED) with false
    by (destruct (Server.state s); try reflexivity; congruence).
  rewrite Hunpack.
  rewrite build_segment_header_ok by (assumption || (unfold uint16; lia)).
  match goal with
  | |- context [in_cksum ?b] =>
      assert (Hraise : in_cksum b = Raise StructError)
  end.
  { unfold in_cksum. rewrite iter_unpack_H_odd; [ reflexivity | ].
    rewrite length_app, length_firstn, length_skipn. cbn [List.length].
    unfold HEADER_SIZE, uint16 in *.
    replace (Nat.min (Z.to_nat datalen) (List.length segment - 10))
      with (Z.to_nat datalen) by lia.
    rewrite Nat.odd_add, odd_to_nat by (assumption || lia). reflexivity. }
  rewrite Hraise. reflexivity.
Qed.

Lemma server_odd_length_raises_witness :
  Server.lossy_layer_segment_received 0 Scenario.corrupted_segment_odd
    (Scenario.server_at 4 1)
  = (Raise StructError, Scenario.server_at 4 1).
Proof.
  apply (server_odd_length_raises 0 (Scenario.server_at 4 1)
           Scenario.corrupted_segment_odd 5 100 false false false 1 1 38656).
  - vm_compute. discriminate.
  - vm_compute. reflexivity.
  - reflexivity.
  - vm_compute. discriminate.
Defined.

(** The client discards a segment whose recomputed checksum differs from the
    received one: no exception, no attribute written, nothing sent. *)
Lemma client_discards_on_mismatch (c : Client.t) segment fields check :
  Client.verify segment = Return (fields, check) ->
  check <> checksum_of fields ->
  Client.lossy_layer_segment_received segment c = (Return tt, c).
Proof.
  destruct fields as [[[[[[[s a] sy] ac] fi] w] d] ck]. cbn [checksum_of].
  intros Hv Hne. apply client_verify_inv in Hv as (Hunpack & header & Hbuild & Hck).
  unfold Client.lossy_layer_segment_received. run_py.
  destruct (BTCPStates_eqb (Client.state c) CLOSED); [ reflexivity | ].
  rewrite Hunpack, Hbuild, Hck.
  destruct (Z.eqb_spec check ck); [ contradiction | reflexivity ].
Qed.

(** X6. The server discards a segment whose recomputed checksum differs from
    the received one, whenever its recomputation yields a value at all: no
    exception, no attribute written, nothing sent. *)
Lemma server_discards_on_mismatch (now : time) (s : Server.t) segment fields check :
  Server.verify segment = Return (fields, check) ->
  check <> checksum_of fields ->
  Server.lossy_layer_segment_received now segment s = (Return tt, s).
Proof.
  destruct fields as [[[[[[[sq a] sy] ac] fi] w] d] ck]. cbn [checksum_of].
  intros Hv Hne. apply server_verify_inv in Hv as (Hunpack & header & Hbuild & Hck).
  unfold Server.lossy_layer_segment_received. run_py.
  destruct (BTCPStates_eqb (Server.state s) CLOSED); [ reflexivity | ].
  rewrite Hunpack, Hbuild, Hck.
  destruct (Z.eqb_spec check ck); [ contradiction | reflexivity ].
Qed.

Lemma server_discards_on_mismatch_witness :
  Server.lossy_layer_segment_received 0 (Scenario.server_ack 6 100)
    (Scenario.server_at 4 1)
  = (Return tt, Scenario.server_at 4 1).
Proof.
  apply (server_discards_on_mismatch 0 (Scenario.server_at 4 1)
           (Scenario.server_ack 6 100) (100, 6, false, true, false, 100, 0, 64917)
           64818).
  - vm_compute. reflexivity.
  - vm_compute. discriminate.
Defined.

(** The client's recomputation never fails on a segment of at least ten
    bytes, whatever the header fields are. *)
Lemma client_verify_total (segment : bytes) :
  (HEADER_SIZE <= List.length segment)%nat ->
  exists fields check, Client.verify segment = Return (fields, check).
Proof.
  unfold HEADER_SIZE. intros Hlen.
  do 10 (destruct segment as [|? segment]; [ simpl in Hlen; lia | ]).
  unfold Client.verify, HEADER_SIZE. cbn [firstn].
  match goal with
  | |- context [unpack_segment_header ?h] =>
      destruct (unpack_segment_header h)
        as [[[[[[[[sq a] sy] ac] fi] w] d] ck]|] eqn:Hu; [ | discriminate ]
  end.
  destruct (unpack_segment_header_range _ _ _ _ _ _ _ _ _ Hu) as (Hs & Ha & Hw & Hd & _).
  cbn [obind]. rewrite build_segment_header_ok by (assumption || (unfold uint16; lia)).
  cbn [obind]. rewrite in_cksum_header by (assumption || (unfold uint16; lia)).
  cbn [obind]. eauto.
Qed.

(** X5. The client's handler on a corrupted segment, for every header: it never
    raises during verification (the segment has its ten header bytes), and
    when the recomputed checksum differs from the received one it returns
    without writing an attribute or sending anything. *)
Theorem client_discards_corrupted :
  forall (c : Client.t) (segment : bytes),
    (HEADER_SIZE <= List.length segment)%nat ->
    exists fields check,
      Client.verify segment = Return (fields, check)
      /\ (check <> checksum_of fields ->
          Client.lossy_layer_segment_received segment c = (Return tt, c)).
Proof.
  intros c segment Hlen.
  destruct (client_verify_total segment Hlen) as (fields & check & Hv).
  exists fields, check. split; [ exact Hv | ].
  intros Hne. exact (client_discards_on_mismatch c segment fields check Hv Hne).
Qed.

Lemma client_discards_corrupted_witness :
  exists fields check,
    Client.verify Scenario.corrupted_segment_odd = Return (fields, check)
    /\ (check <> checksum_of fields ->
        Client.lossy_layer_segment_received Scenario.corrupted_segment_odd
          Scenario.client_in_flight
        = (Return tt, Scenario.client_in_flight)).
Proof.
  apply (client_discards_corrupted Scenario.client_in_flight
           Scenario.corrupted_segment_odd).
  vm_compute. repeat constructor.
Defined.

Lemma firstn_header_bytes seqnum acknum syn_set ack_set fin_set window length checksum
    (payload : bytes) :
  firstn HEADER_SIZE
    (header_bytes seqnum acknum syn_set ack_set fin_set window length checksum ++ payload)
  = header_bytes seqnum acknum syn_set ack_set fin_set window length checksum.
Proof. reflexivity. Qed.

Lemma skipn_header_bytes seqnum acknum syn_set ack_set fin_set window length checksum
    (payload : bytes) :
  skipn HEADER_SIZE
    (header_bytes seqnum acknum syn_set ack_set fin_set window length checksum ++ payload)
  = payload.
Proof. reflexivity. Qed.

Lemma unpack_header_bytes seqnum acknum syn_set ack_set fin_set window length checksum :
  uint16 seqnum -> uint16 acknum -> uint8 window -> uint16 length -> uint16 checksum ->
  unpack_segment_header
    (header_bytes seqnum acknum syn_set ack_set fin_set window length checksum)
  = Return (seqnum, acknum, syn_set, ack_set, fin_set, window, length, checksum).
Proof.
  intros Hs Ha Hw Hl Hc.
  eapply unpack_build_segment_header, build_segment_header_ok; assumption.
Qed.

(** What [generate_ack] returns on a server whose counters and window fit
    their fields: the header carries the server's current [acknum] and
    [window], and the checksum computed over a header with the default
    window. *)
Lemma generate_ack_returns (s : Server.t) (sn : Z) :
  Server.seqnum s = Some sn ->
  uint16 sn -> uint16 (Server.acknum s) -> uint8 (Server.window s) ->
  let ck := 2 ^ 16 - header_sum sn (Server.acknum s) false true false default_window 0 0 in
  uint16 ck
  /\ Server.generate_ack s
     = (Return (header_bytes sn (Server.acknum s) false true false (Server.window s) 0 ck
                ++ zero_payload), s).
Proof.
  intros Hseq Hsn Ha Hw ck.
  assert (Hck : uint16 ck).
  { apply header_sum_flagged; auto with btcp.
    vm_compute. discriminate. }
  split; [ exact Hck | ].
  unfold Server.generate_ack. run_py. rewrite Hseq. cbn [build_segment_header_opt].
  rewrite build_segment_header_ok by auto with btcp.
  rewrite in_cksum_header by auto with btcp.
  fold ck. rewrite build_segment_header_ok by auto with btcp.
  reflexivity.
Qed.

(** C4. The ACK [generate_ack] produces does not validate at the client unless
    the server's window is the default 1: the checksum is computed over a
    header with the default window and then written into a header with
    [self.window].  For every server whose counters and window fit their
    fields and whose window is not 1, the client's recomputation over the
    received fields differs from the received checksum, and the client
    discards the ACK. *)
Theorem generate_ack_fails_client_verification :
  forall (s : Server.t) (sn : Z) (c : Client.t),
    Server.seqnum s = Some sn ->
    uint16 sn -> uint16 (Server.acknum s) -> uint8 (Server.window s) ->
    Server.window s <> default_window ->
    exists ack fields check,
      Server.generate_ack s = (Return ack, s)
      /\ Client.verify ack = Return (fields, check)
      /\ check <> checksum_of fields
      /\ Client.lossy_layer_segment_received ack c = (Return tt, c).
Proof.
  intros s sn c Hseq Hsn Ha Hw Hne.
  destruct (generate_ack_returns s sn Hseq Hsn Ha Hw) as (Hck & Hgen).
  set (ck := 2 ^ 16 - header_sum sn (Server.acknum s) false true false default_window 0 0)
    in *.
  set (ack := header_bytes sn (Server.acknum s) false true false (Server.window s) 0 ck
              ++ zero_payload) in *.
  set (check := 2 ^ 16 - header_sum sn (Server.acknum s) false true false
                           (Server.window s) 0 0).
  assert (Hv : Client.verify ack
               = Return ((sn, Server.acknum s, false, true, false, Server.window s, 0, ck),
                         check)).
  { unfold Client.verify, ack. rewrite firstn_header_bytes.
    rewrite unpack_header_bytes by auto with btcp. cbn [obind].
    rewrite build_segment_header_ok by auto with btcp. cbn [obind].
    rewrite in_cksum_header by auto with btcp. reflexivity. }
  assert (Hdiff : check <> ck).
  { unfold check, ck.
    pose proof (header_sum_window sn (Server.acknum s) false true false
                  (Server.window s) default_window 0 Hsn Ha Hw uint8_default_window
                  uint16_0 Hne).
    lia. }
  exists ack, (sn, Server.acknum s, false, true, false, Server.window s, 0, ck), check.
  split; [ exact Hgen | ]. split; [ exact Hv | ]. split; [ exact Hdiff | ].
  apply (client_discards_on_mismatch c ack _ check Hv Hdiff).
Qed.

Lemma generate_ack_fails_client_verification_witness :
  exists ack fields check,
    Server.generate_ack (Scenario.server_at 6 100)
    = (Return ack, Scenario.server_at 6 100)
    /\ Client.verify ack = Return (fields, check)
    /\ check <> checksum_of fields
    /\ Client.lossy_layer_segment_received ack Scenario.client_in_flight
       = (Return tt, Scenario.client_in_flight).
Proof.
  apply (generate_ack_fails_client_verification (Scenario.server_at 6 100) 100
           Scenario.client_in_flight).
  - reflexivity.
  - unfold uint16. lia.
  - unfold uint16. simpl. lia.
  - unfold uint8. simpl. lia.
  - simpl. discriminate.
Defined.

Lemma generate_ack_frame (s : Server.t) (f : Server.t -> Server.t) (sn : Z) ack :
  Server.seqnum (f s) = Server.seqnum s ->
  Server.acknum (f s) = Server.acknum s ->
  Server.window (f s) = Server.window s ->
  Server.seqnum s = Some sn ->
  uint16 sn -> uint16 (Server.acknum s) -> uint8 (Server.window s) ->
  Server.generate_ack s = (Return ack, s) ->
  Server.generate_ack (f s) = (Return ack, f s).
Proof.
  intros Hfs Hfa Hfw Hseq Hsn Ha Hw Hgen.
  destruct (generate_ack_returns s sn Hseq Hsn Ha Hw) as (_ & Hs).
  assert (Hack : Return (A := bytes) ack
                 = Return (header_bytes sn (Server.acknum s) false true false
                             (Server.window s) 0
                             (2 ^ 16 - header_sum sn (Server.acknum s) false true false
                                         default_window 0 0)
                           ++ zero_payload)).
  { rewrite Hs in Hgen. symmetry. exact (f_equal fst Hgen). }
  rewrite <- Hfs in Hseq. rewrite <- Hfa in Ha. rewrite <- Hfw in Hw.
  destruct (generate_ack_returns (f s) sn Hseq Hsn Ha Hw) as (_ & Hfsr).
  rewrite Hfsr, Hfa, Hfw, Hack. reflexivity.
Qed.

(** C2. In ESTABLISHED, on a checksum-valid segment without flags whose
    [seqnum] is [acknum + 1], the server sends a pure ACK, advances [acknum]
    by 1 and offers the first [datalen] payload bytes to the receive queue;
    but the ACK is generated before [acknum] is advanced, so its [acknum]
    field is the old [acknum], one less than the position just accepted. *)
Theorem server_data_ack_carries_old_acknum :
  forall (now : time) (s : Server.t) segment sn seqnum_ acknum_ window_ datalen checksum,
    Server.state s = ESTABLISHED ->
    Server.seqnum s = Some sn ->
    uint16 sn -> uint16 (Server.acknum s) -> uint8 (Server.window s) ->
    Server.checksum_valid segment
      (seqnum_, acknum_, false, false, false, window_, datalen, checksum) ->
    seqnum_ = Server.acknum s + 1 ->
    exists ack ck,
      Server.lossy_layer_segment_received now segment s
      = (Return tt,
         Server.put_nowait (firstn (Z.to_nat datalen) (skipn HEADER_SIZE segment))
           (Server.set_acknum (Server.acknum s + 1)
              (Server.send_segment ack (Server.set_ack_timeout None s))))
      /\ unpack_segment_header (firstn HEADER_SIZE ack)
         = Return (sn, Server.acknum s, false, true, false, Server.window s, 0, ck).
Proof.
  intros now s segment sn seqnum_ acknum_ window_ datalen checksum
         Hst Hseq Hsn Ha Hw Hvalid Hnext.
  apply server_verify_inv in Hvalid as (Hunpack & header & Hbuild & Hck).
  destruct (generate_ack_returns s sn Hseq Hsn Ha Hw) as (Hckr & Hgen).
  set (ck := 2 ^ 16 - header_sum sn (Server.acknum s) false true false default_window 0 0)
    in *.
  set (ack := header_bytes sn (Server.acknum s) false true false (Server.window s) 0 ck
              ++ zero_payload) in *.
  exists ack, ck. split.
  - unfold Server.lossy_layer_segment_received. run_py.
    rewrite Hst. cbn [BTCPStates_eqb].
    rewrite Hunpack, Hbuild, Hck, Z.eqb_refl. cbn [negb Server.flag_classes andb orb].
    destruct (Z.eqb_spec seqnum_ (Server.acknum s + 1)); [ | contradiction ].
    rewrite (generate_ack_frame s (Server.set_ack_timeout None) sn ack)
      by (reflexivity || assumption).
    reflexivity.
  - unfold ack. rewrite firstn_header_bytes.
    apply unpack_header_bytes; auto with btcp.
Qed.

Lemma server_data_ack_carries_old_acknum_witness :
  exists ack ck,
    Server.lossy_layer_segment_received 0 Scenario.data_segment_5 (Scenario.server_at 4 1)
    = (Return tt,
       Server.put_nowait (firstn (Z.to_nat 2) (skipn HEADER_SIZE Scenario.data_segment_5))
         (Server.set_acknum (Server.acknum (Scenario.server_at 4 1) + 1)
            (Server.send_segment ack
               (Server.set_ack_timeout None (Scenario.server_at 4 1)))))
    /\ unpack_segment_header (firstn HEADER_SIZE ack)
       = Return (100, Server.acknum (Scenario.server_at 4 1), false, true, false,
                 Server.window (Scenario.server_at 4 1), 0, ck).
Proof.
  apply (server_data_ack_carries_old_acknum 0 (Scenario.server_at 4 1)
           Scenario.data_segment_5 100 5 100 1 2 38699).
  - reflexivity.
  - reflexivity.
  - unfold uint16. lia.
  - unfold uint16. simpl. lia.
  - unfold uint8. simpl. lia.
  - vm_compute. reflexivity.
  - reflexivity.
Defined.



(** ** connect *)

Lemma await_synack_returns TIMEOUT retries :
  forall rounds segment (c : Client.t),
    fst (Client.await_synack TIMEOUT retries rounds segment c) = Return tt.
Proof.
  induction retries as [|retries IH]; intros rounds segment c.
  - reflexivity.
  - cbn [Client.await_synack]. run_py.
    destruct (Client.synack_recv (Client.network_thread TIMEOUT (hd [] rounds) c)).
    + reflexivity.
    + cbn [negb]. apply IH.
Qed.

Lemma flag_byte_syn : 1 <= flag_byte true false false.
Proof. vm_compute. discriminate. Qed.

(** C8 (amended). [connect] hands back no value: whenever the SYN can be built
    (the initial sequence number, [acknum] and the client's window fit their
    fields), after retry exhaustion (no SYN+ACK recorded) it returns [None]
    with the state CLOSED, and after a recorded SYN+ACK it returns [None] with
    the state ESTABLISHED, provided the advanced counters still fit 16 bits.
    The two outcomes differ in the state, not in the value returned. *)
Theorem connect_returns_None_on_both_paths :
  forall (TIMEOUT : Z) (RETRIES : nat) (isn : Z) (rounds : list (list Client.callback))
         (c : Client.t),
    uint16 isn -> uint16 (Client.acknum c) -> uint8 (Client.client_window c) ->
    let r := Client.connect TIMEOUT RETRIES isn rounds c in
    (Client.synack_recv (snd r) = false ->
     fst r = Return PyNone /\ Client.state (snd r) = CLOSED)
    /\ (Client.synack_recv (snd r) = true ->
        (exists s, Client.seqnum (snd r) = Some s /\ uint16 s) ->
        uint16 (Client.acknum (snd r)) ->
        uint8 (Client.client_window (snd r)) ->
        fst r = Return PyNone /\ Client.state (snd r) = ESTABLISHED).
Proof.
  intros TIMEOUT RETRIES isn rounds c Hisn Ha Hw r.
  assert (Hck := header_sum_flagged isn (Client.acknum c) true false false
                   (Client.client_window c) 0 Hisn Ha Hw uint16_0 flag_byte_syn).
  subst r. unfold Client.connect. run_py.
  cbn [Client.seqnum Client.set_seqnum Client.acknum Client.client_window
       build_segment_header_opt].
  rewrite build_segment_header_ok by auto with btcp.
  rewrite in_cksum_header by auto with btcp.
  rewrite build_segment_header_ok by auto with btcp.
  match goal with
  | |- context [Client.await_synack ?t ?n ?r ?seg ?c0] =>
      pose proof (await_synack_returns t n r seg c0) as Haw;
      destruct (Client.await_synack t n r seg c0) as [o c3]
  end.
  cbn [fst] in Haw. subst o.
  destruct (Client.synack_recv c3) eqn:Hrec; cbn [negb].
  - (* the SYN+ACK was recorded *)
    split.
    + intros Hfalse. exfalso. revert Hfalse.
      destruct (Client.seqnum c3) as [a|]; cbn [int_of].
      * repeat match goal with
               | |- context [match ?o with Return _ => _ | Raise _ => _ end] =>
                   destruct o
               end; cbn [snd Client.synack_recv Client.set_state Client.send_segment
                         Client.set_seqnum Client.set_acknum]; congruence.
      * cbn [snd Client.synack_recv Client.set_acknum]. congruence.
    + intros _.
      destruct (Client.seqnum c3) as [a|] eqn:Hseq3; cbn [int_of].
      * cbn [Client.acknum Client.client_window Client.set_acknum].
        destruct (build_segment_header (a + 1) (Client.acknum c3 + 1) false true false
                    (Client.client_window c3) 0 0) as [h|e] eqn:Hb.
        -- intros _ _ _.
           apply build_segment_header_inv in Hb as (Hs1 & Ha1 & Hw1 & _ & _ & ->).
           rewrite in_cksum_header by auto with btcp.
           rewrite build_segment_header_ok
             by (auto with btcp; apply header_sum_flagged;
                 auto with btcp; vm_compute; discriminate).
           split; reflexivity.
        -- cbn [snd fst Client.seqnum Client.acknum Client.client_window
                Client.set_seqnum Client.set_acknum].
           intros (s & Hs & Hs16) Ha16 Hw8. injection Hs as <-.
           rewrite build_segment_header_ok in Hb by auto with btcp.
           discriminate.
      * cbn [snd Client.seqnum Client.set_acknum].
        intros (s & Hs & _). congruence.
  - (* retry exhaustion *)
    split.
    + intros _. split; reflexivity.
    + cbn [snd Client.synack_recv Client.set_state]. congruence.
Qed.

Lemma connect_returns_None_on_both_paths_witness :
  let r := Client.connect Scenario.TIMEOUT Scenario.RETRIES 41
             [[Client.Arrives Scenario.syn_ack_42]] (Client.init 1) in
  (Client.synack_recv (snd r) = false ->
   fst r = Return PyNone /\ Client.state (snd r) = CLOSED)
  /\ (Client.synack_recv (snd r) = true ->
      (exists s, Client.seqnum (snd r) = Some s /\ uint16 s) ->
      uint16 (Client.acknum (snd r)) ->
      uint8 (Client.client_window (snd r)) ->
      fst r = Return PyNone /\ Client.state (snd r) = ESTABLISHED).
Proof.
  apply (connect_returns_None_on_both_paths Scenario.TIMEOUT Scenario.RETRIES 41
           [[Client.Arrives Scenario.syn_ack_42]] (Client.init 1)).
  - unfold uint16. lia.
  - unfold uint16. simpl. lia.
  - unfold uint8. simpl. lia.
Defined.

(** C8, as stated, fails: the run of [connect] that exhausts its retries ends
    in CLOSED, the run that receives its SYN+ACK ends in ESTABLISHED, and
    both return the same value, [None]. *)
Lemma connect_return_value_same_on_failure :
  Client.state (snd Scenario.connect_exhausted) = CLOSED
  /\ Client.state (snd Scenario.connect_established) = ESTABLISHED
  /\ fst Scenario.connect_exhausted = Return PyNone
  /\ fst Scenario.connect_established = Return PyNone
  /\ ~ (fst Scenario.connect_exhausted <> fst Scenario.connect_established).
Proof.
  assert (H1 : Scenario.connect_exhausted
               = (Return PyNone, snd Scenario.connect_exhausted))
    by (vm_compute; reflexivity).
  assert (H2 : Scenario.connect_established
               = (Return PyNone, snd Scenario.connect_established))
    by (vm_compute; reflexivity).
  split; [ vm_compute; reflexivity | ].
  split; [ vm_compute; reflexivity | ].
  rewrite H1, H2. cbn [fst]. repeat split. intros Hne. apply Hne. reflexivity.
Qed.

(** ** Segments built in two passes *)

Lemma iter_unpack_H_app (a b : bytes) :
  Nat.even (List.length a) = true ->
  iter_unpack_H (a ++ b)
  = match iter_unpack_H a, iter_unpack_H b with
    | Some wa, Some wb => Some (wa ++ wb)
    | _, _ => None
    end.
Proof.
  induction a as [|x|hi lo rest IH] using bytes_pair_ind; intros Heven.
  - simpl. destruct (iter_unpack_H b); reflexivity.
  - discriminate.
  - cbn [app iter_unpack_H]. rewrite IH by exact Heven.
    destruct (iter_unpack_H rest), (iter_unpack_H b); reflexivity.
Qed.

Lemma iter_unpack_H_zeros (k : nat) :
  iter_unpack_H (repeat x00 (2 * k)) = Some (repeat 0 k).
Proof.
  induction k as [|k IH]; [ reflexivity | ].
  replace (2 * S k)%nat with (S (S (2 * k))) by lia.
  cbn [repeat iter_unpack_H]. rewrite IH. reflexivity.
Qed.

Lemma cksum_fold_zeros (k : nat) (c : Z) :
  0 <= c <= 65536 -> fold_left cksum_step (repeat 0 k) c = c.
Proof.
  intros Hc. induction k as [|k IH]; [ reflexivity | ].
  cbn [repeat fold_left]. unfold cksum_step at 2. change (2 ^ 16) with 65536.
  destruct (Z.gtb_spec (c + 0) 65536); [ lia | ].
  rewrite Z.add_0_r. exact IH.
Qed.

Lemma iter_unpack_H_even (a : bytes) :
  Nat.even (List.length a) = true -> exists ws, iter_unpack_H a = Some ws.
Proof.
  induction a as [|x|hi lo rest IH] using bytes_pair_ind; intros Heven.
  - exists []. reflexivity.
  - discriminate.
  - destruct (IH Heven) as [ws Hws]. cbn [iter_unpack_H]. rewrite Hws. eauto.
Qed.

(** [in_cksum] over a header followed by a payload. *)
Lemma in_cksum_header_payload seqnum acknum syn_set ack_set fin_set window length
    checksum (payload : bytes) :
  uint16 seqnum -> uint16 acknum -> uint8 window -> uint16 length -> uint16 checksum ->
  in_cksum (header_bytes seqnum acknum syn_set ack_set fin_set window length checksum
            ++ payload)
  = match iter_unpack_H payload with
    | Some ws =>
        Return (2 ^ 16
                - fold_left cksum_step ws
                    (header_sum seqnum acknum syn_set ack_set fin_set window length
                       checksum))
    | None => Raise StructError
    end.
Proof.
  intros Hs Ha Hw Hl Hc.
  pose proof (iter_unpack_H_header seqnum acknum syn_set ack_set fin_set window
                length checksum payload Hs Ha Hw Hl Hc) as Hws.
  unfold in_cksum.
  replace (header_bytes seqnum acknum syn_set ack_set fin_set window length checksum
           ++ payload)
    with (byte_of_Z (Z.shiftr seqnum 8)
          :: tl (header_bytes seqnum acknum syn_set ack_set fin_set window length
                   checksum ++ payload)) in * by reflexivity.
  rewrite Hws. destruct (iter_unpack_H payload); reflexivity.
Qed.

Lemma header_sum_range seqnum acknum syn_set ack_set fin_set window length checksum :
  uint16 seqnum -> uint16 acknum -> uint8 window -> uint16 length -> uint16 checksum ->
  0 <= header_sum seqnum acknum syn_set ack_set fin_set window length checksum <= 65536.
Proof.
  intros Hs Ha Hw Hl Hc.
  pose proof (flag_byte_range syn_set ack_set fin_set).
  unfold header_sum.
  generalize dependent (flag_byte syn_set ack_set fin_set). intros f Hr.
  cksum_cases; lia.
Qed.

Lemma header_sum_length_pos seqnum acknum syn_set ack_set fin_set window length :
  uint16 seqnum -> uint16 acknum -> uint8 window -> uint16 length -> 1 <= length ->
  1 <= header_sum seqnum acknum syn_set ack_set fin_set window length 0.
Proof.
  intros Hs Ha Hw Hl Hpos.
  pose proof (flag_byte_range syn_set ack_set fin_set).
  unfold header_sum.
  generalize dependent (flag_byte syn_set ack_set fin_set). intros f Hr.
  cksum_cases; lia.
Qed.

(** X7. A data segment the client builds for a non-empty chunk of even length, at
    most [PAYLOAD_SIZE] bytes, passes the server's verification, and the
    server reads the chunk back from it: the zero padding adds nothing to the
    sum. *)
Theorem data_segment_validates_at_server :
  forall (seqnum_ acknum_ client_window_ : Z) (chunk : bytes),
    uint16 seqnum_ -> uint16 acknum_ -> uint8 client_window_ ->
    chunk <> [] ->
    (List.length chunk <= PAYLOAD_SIZE)%nat ->
    Nat.even (List.length chunk) = true ->
    exists segment checksum,
      Client.data_segment seqnum_ acknum_ client_window_ chunk = Return segment
      /\ Server.checksum_valid segment
           (seqnum_, acknum_, false, false, false, client_window_,
            Z.of_nat (List.length chunk), checksum)
      /\ firstn (List.length chunk) (skipn HEADER_SIZE segment) = chunk.
Proof.
  intros seqnum_ acknum_ w chunk Hs Ha Hw Hne Hlen Heven.
  unfold PAYLOAD_SIZE in Hlen.
  set (n := List.length chunk) in *.
  assert (Hn : uint16 (Z.of_nat n)) by (unfold uint16; lia).
  assert (Hpos : 1 <= Z.of_nat n).
  { destruct chunk; [ congruence | ]. subst n. simpl List.length. lia. }
  destruct (iter_unpack_H_even chunk Heven) as [wc Hwc].
  assert (Hwc16 := iter_unpack_H_words _ _ Hwc).
  (* the padding is an even number of zero bytes *)
  assert (Hpad : exists k, (1008 - n = 2 * k)%nat).
  { apply Nat.even_spec in Heven as [m Hm]. fold n in Hm. exists (504 - m)%nat. lia. }
  destruct Hpad as [k Hk].
  assert (Hpadded : (if (n <? PAYLOAD_SIZE)%nat
                     then chunk ++ repeat x00 (PAYLOAD_SIZE - n) else chunk)
                    = chunk ++ repeat x00 (2 * k)).
  { unfold PAYLOAD_SIZE. rewrite <- Hk. destruct (Nat.ltb_spec n 1008); [ reflexivity | ].
    replace (1008 - n)%nat with 0%nat by lia. cbn [repeat]. rewrite app_nil_r.
    reflexivity. }
  assert (Hfirst : firstn n (chunk ++ repeat x00 (2 * k)) = chunk).
  { subst n. rewrite firstn_app, firstn_all, Nat.sub_diag. cbn [firstn].
    apply app_nil_r. }
  set (sum := fold_left cksum_step wc
                (header_sum seqnum_ acknum_ false false false w (Z.of_nat n) 0)).
  assert (Hsum : 1 <= sum <= 65536).
  { pose proof (header_sum_range seqnum_ acknum_ false false false w (Z.of_nat n) 0
                  Hs Ha Hw Hn uint16_0).
    pose proof (header_sum_length_pos seqnum_ acknum_ false false false w (Z.of_nat n)
                  Hs Ha Hw Hn Hpos).
    split; [ apply cksum_fold_pos | apply cksum_fold_range ]; assumption || lia. }
  assert (Hck : uint16 (2 ^ 16 - sum))
    by (unfold uint16; change (2 ^ 16) with 65536; lia).
  exists (header_bytes seqnum_ acknum_ false false false w (Z.of_nat n) (2 ^ 16 - sum)
          ++ chunk ++ repeat x00 (2 * k)), (2 ^ 16 - sum).
  split; [ | split ].
  - unfold Client.data_segment. fold n. rewrite Hpadded.
    rewrite build_segment_header_ok by auto with btcp. cbn [obind].
    rewrite in_cksum_header_payload by auto with btcp.
    rewrite iter_unpack_H_app, Hwc, iter_unpack_H_zeros by exact Heven.
    rewrite fold_left_app. fold sum. rewrite cksum_fold_zeros by lia. cbn [obind].
    rewrite build_segment_header_ok by auto with btcp. reflexivity.
  - unfold Server.checksum_valid, Server.verify.
    rewrite firstn_header_bytes, skipn_header_bytes.
    rewrite unpack_header_bytes by auto. cbn [obind].
    rewrite Nat2Z.id, Hfirst.
    rewrite build_segment_header_ok by auto with btcp. cbn [obind].
    rewrite in_cksum_header_payload by auto with btcp.
    rewrite Hwc. reflexivity.
  - rewrite skipn_header_bytes. exact Hfirst.
Qed.

Lemma data_segment_validates_at_server_witness :
  exists segment checksum,
    Client.data_segment 5 100 1 [x68; x69] = Return segment
    /\ Server.checksum_valid segment
         (5, 100, false, false, false, 1, Z.of_nat (List.length [x68; x69]), checksum)
    /\ firstn (List.length [x68; x69]) (skipn HEADER_SIZE segment) = [x68; x69].
Proof.
  apply (data_segment_validates_at_server 5 100 1 [x68; x69]).
  - unfold uint16. lia.
  - unfold uint16. lia.
  - unfold uint8. lia.
  - discriminate.
  - unfold PAYLOAD_SIZE. simpl. lia.
  - reflexivity.
Defined.

(** X8. A bare segment (header and zero payload, [length] 0) with at least one
    flag set, built in two passes over the same fields, passes the
    verification of both endpoints.  This is how [connect], [shutdown],
    [accept] and the server's FIN+ACK build their segments. *)
Theorem two_pass_bare_segment_validates :
  forall (seqnum_ acknum_ : Z) (syn_set ack_set fin_set : bool) (window : Z),
    uint16 seqnum_ -> uint16 acknum_ -> uint8 window ->
    syn_set || ack_set || fin_set = true ->
    exists header0 checksum header,
      build_segment_header seqnum_ acknum_ syn_set ack_set fin_set window 0 0
      = Return header0
      /\ in_cksum header0 = Return checksum
      /\ build_segment_header seqnum_ acknum_ syn_set ack_set fin_set window 0 checksum
         = Return header
      /\ Client.checksum_valid (header ++ zero_payload)
           (seqnum_, acknum_, syn_set, ack_set, fin_set, window, 0, checksum)
      /\ Server.checksum_valid (header ++ zero_payload)
           (seqnum_, acknum_, syn_set, ack_set, fin_set, window, 0, checksum).
Proof.
  intros seqnum_ acknum_ syn_set ack_set fin_set window Hs Ha Hw Hflag.
  assert (Hf : 1 <= flag_byte syn_set ack_set fin_set).
  { destruct syn_set, ack_set, fin_set; try discriminate; vm_compute; discriminate. }
  assert (Hck := header_sum_flagged seqnum_ acknum_ syn_set ack_set fin_set window 0
                   Hs Ha Hw uint16_0 Hf).
  set (ck := 2 ^ 16 - header_sum seqnum_ acknum_ syn_set ack_set fin_set window 0 0) in *.
  exists (header_bytes seqnum_ acknum_ syn_set ack_set fin_set window 0 0), ck,
         (header_bytes seqnum_ acknum_ syn_set ack_set fin_set window 0 ck).
  split; [ apply build_segment_header_ok; auto with btcp | ].
  split; [ apply in_cksum_header; auto with btcp | ].
  split; [ apply build_segment_header_ok; auto with btcp | ].
  split.
  - unfold Client.checksum_valid, Client.verify. rewrite firstn_header_bytes.
    rewrite unpack_header_bytes by auto with btcp. cbn [obind].
    rewrite build_segment_header_ok by auto with btcp. cbn [obind].
    rewrite in_cksum_header by auto with btcp. reflexivity.
  - unfold Server.checksum_valid, Server.verify.
    rewrite firstn_header_bytes, skipn_header_bytes.
    rewrite unpack_header_bytes by auto with btcp. cbn [obind].
    change (Z.to_nat 0) with 0%nat. cbn [firstn].
    rewrite build_segment_header_ok by auto with btcp. cbn [obind].
    rewrite app_nil_r, in_cksum_header by auto with btcp. reflexivity.
Qed.

Lemma two_pass_bare_segment_validates_witness :
  exists header0 checksum header,
    build_segment_header 100 42 true true false 1 0 0 = Return header0
    /\ in_cksum header0 = Return checksum
    /\ build_segment_header 100 42 true true false 1 0 checksum = Return header
    /\ Client.checksum_valid (header ++ zero_payload)
         (100, 42, true, true, false, 1, 0, checksum)
    /\ Server.checksum_valid (header ++ zero_payload)
         (100, 42, true, true, false, 1, 0, checksum).
Proof.
  apply (two_pass_bare_segment_validates 100 42 true true false 1).
  - unfold uint16. lia.
  - unfold uint16. lia.
  - unfold uint8. lia.
  - reflexivity.
Defined.

(** ** send *)

Lemma client_set_sendbuf_twice (x y : list bytes) (c : Client.t) :
  Client.set_sendbuf x (Client.set_sendbuf y c) = Client.set_sendbuf x c.
Proof. reflexivity. Qed.

Lemma client_set_sendbuf_same (c : Client.t) :
  Client.set_sendbuf (Client.sendbuf c) c = c.
Proof. destruct c; reflexivity. Qed.

Lemma firstn_skipn_add {A : Type} (a b : nat) (l : list A) :
  firstn a l ++ firstn b (skipn a l) = firstn (a + b) l.
Proof.
  revert l. induction a as [|a IH]; intros l; [ reflexivity | ].
  destruct l as [|x l]; simpl.
  - rewrite firstn_nil. reflexivity.
  - rewrite IH. reflexivity.
Qed.

Lemma firstn_length_firstn {A : Type} (k : nat) (l : list A) :
  firstn (List.length (firstn k l)) l = firstn k l.
Proof.
  rewrite length_firstn. destruct (Nat.le_gt_cases k (List.length l)).
  - rewrite Nat.min_l by assumption. reflexivity.
  - rewrite Nat.min_r, firstn_all, firstn_all2 by lia. reflexivity.
Qed.

(** What the loop of [send] does from position [sent_bytes], given fuel for
    the bytes that are left. *)
Lemma send_loop_spec (fuel : nat) :
  forall (data : bytes) (sent_bytes : nat) (c : Client.t),
    (sent_bytes <= List.length data)%nat ->
    (List.length data - sent_bytes <= fuel)%nat ->
    exists n chunks,
      Client.send_loop fuel data sent_bytes c
      = (Return (Some n), Client.set_sendbuf (Client.sendbuf c ++ chunks) c)
      /\ (sent_bytes <= n <= List.length data)%nat
      /\ concat chunks = firstn (n - sent_bytes) (skipn sent_bytes data)
      /\ Forall (fun chunk => (1 <= List.length chunk <= PAYLOAD_SIZE)%nat) chunks
      /\ n = Nat.min (List.length data)
               (sent_bytes
                + PAYLOAD_SIZE * (Client.sendbuf_maxsize - List.length (Client.sendbuf c))).
Proof.
  induction fuel as [|fuel IH]; intros data sent_bytes c Hle Hfuel.
  - assert (sent_bytes = List.length data) by lia. subst sent_bytes.
    exists (List.length data), []. cbn [Client.send_loop].
    rewrite Nat.ltb_irrefl, app_nil_r, client_set_sendbuf_same, Nat.sub_diag.
    repeat split; try lia; constructor.
  - cbn [Client.send_loop].
    destruct (Nat.ltb_spec sent_bytes (List.length data)) as [Hlt|Hge].
    + run_py.
      set (chunk := firstn PAYLOAD_SIZE (skipn sent_bytes data)).
      assert (Hchunk : List.length chunk
                       = Nat.min PAYLOAD_SIZE (List.length data - sent_bytes))
        by (unfold chunk; rewrite length_firstn, length_skipn; reflexivity).
      destruct (Nat.ltb_spec (List.length (Client.sendbuf c)) Client.sendbuf_maxsize)
        as [Hroom|Hfull].
      * destruct (IH data (sent_bytes + List.length chunk)%nat
                    (Client.set_sendbuf (Client.sendbuf c ++ [chunk]) c))
          as (n & chunks & Hrun & Hn & Hcat & Hall & Hcount).
        { unfold PAYLOAD_SIZE in *. lia. }
        { unfold PAYLOAD_SIZE in *. lia. }
        exists n, (chunk :: chunks). rewrite Hrun.
        cbn [Client.sendbuf Client.set_sendbuf] in *.
        rewrite client_set_sendbuf_twice, <- app_assoc.
        split; [ reflexivity | ]. split; [ lia | ]. split; [ | split ].
        -- cbn [concat]. rewrite Hcat.
           replace (n - sent_bytes)%nat
             with (List.length chunk + (n - (sent_bytes + List.length chunk)))%nat by lia.
           rewrite <- firstn_skipn_add, skipn_skipn.
           rewrite (Nat.add_comm (List.length chunk) sent_bytes).
           f_equal. unfold chunk. symmetry. apply firstn_length_firstn.
        -- constructor; [ | exact Hall ]. unfold PAYLOAD_SIZE in *. lia.
        -- rewrite Hcount, length_app. cbn [List.length].
           unfold PAYLOAD_SIZE, Client.sendbuf_maxsize in *. lia.
      * exists sent_bytes, [].
        rewrite app_nil_r, client_set_sendbuf_same, Nat.sub_diag.
        repeat split; try lia; try constructor.
    + assert (sent_bytes = List.length data) by lia. subst sent_bytes.
      exists (List.length data), [].
      rewrite app_nil_r, client_set_sendbuf_same, Nat.sub_diag.
      repeat split; try lia; constructor.
Qed.



(** X9. [send] always returns, and what it returns is the number of bytes it
    queued: it appends to the send queue the chunks of a prefix of [data],
    each between 1 and [PAYLOAD_SIZE] bytes long, in order, and changes no
    other attribute.  The prefix is all of [data] when the free places of the
    queue (1000 less the chunks already waiting) can hold it, and as many
    full chunks as there are free places otherwise; on a full queue nothing
    is queued and 0 is returned. *)
Theorem send_queues_a_prefix :
  forall (data : bytes) (c : Client.t),
    let n := Nat.min (List.length data)
               (PAYLOAD_SIZE
                * (Client.sendbuf_maxsize - List.length (Client.sendbuf c))) in
    exists chunks,
      Client.send data c
      = (Return (Some n), Client.set_sendbuf (Client.sendbuf c ++ chunks) c)
      /\ concat chunks = firstn n data
      /\ Forall (fun chunk => (1 <= List.length chunk <= PAYLOAD_SIZE)%nat) chunks
      /\ ((Client.sendbuf_maxsize <= List.length (Client.sendbuf c))%nat ->
          chunks = []).
Proof.
  intros data c n.
  destruct (send_loop_spec (List.length data) data 0 c) as
    (n' & chunks & Hrun & Hn & Hcat & Hall & Hcount); [ lia | lia | ].
  rewrite Nat.add_0_l in Hcount.
  rewrite Nat.sub_0_r in Hcat. cbn [skipn] in Hcat.
  subst n. rewrite <- Hcount.
  exists chunks. unfold Client.send.
  split; [ exact Hrun | ]. split; [ exact Hcat | ]. split; [ exact Hall | ].
  intros Hfull.
  assert (Hn0 : n' = 0%nat) by lia.
  rewrite Hn0 in Hcat. cbn [firstn] in Hcat.
  destruct chunks as [|chunk chunks]; [ reflexivity | ].
  exfalso. apply Forall_inv in Hall as Hlen.
  destruct chunk; [ cbn [List.length] in Hlen; lia
                  | cbn [concat app] in Hcat; discriminate Hcat ].
Qed.

(** ** The client's handler and tick, field by field *)

Ltac break_match :=
  match goal with
  | |- context [match ?x with _ => _ end] =>
      lazymatch x with
      | context [match _ with _ => _ end] => fail
      | _ => destruct x eqn:?
      end
  | |- context [if ?x then _ else _] =>
      lazymatch x with
      | context [if _ then _ else _] => fail
      | _ => destruct x eqn:?
      end
  end.

Ltac client_fields :=
  cbn [snd fst Client.state Client.seqnum Client.acknum Client.client_window
       Client.server_window Client.last_rec_ack Client.synack_recv Client.finack_recv
       Client.segments_in_transit Client.sendbuf Client.lossy_layer
       Client.set_state Client.set_seqnum Client.set_acknum Client.set_server_window
       Client.set_last_rec_ack Client.set_synack_recv Client.set_finack_recv
       Client.set_segments_in_transit Client.set_sendbuf Client.send_segment].


(** X10. The client's receive handler, on any segment and in any state, sends
    nothing and changes neither the state, nor the sequence number, nor the
    window the client advertises, nor the send queue; [last_rec_ack] never
    decreases, and the list in transit only loses a head. *)
Theorem client_handler_frame :
  forall (segment : bytes) (c : Client.t),
    let c' := snd (Client.lossy_layer_segment_received segment c) in
    Client.state c' = Client.state c
    /\ Client.seqnum c' = Client.seqnum c
    /\ Client.client_window c' = Client.client_window c
    /\ Client.sendbuf c' = Client.sendbuf c
    /\ Client.lossy_layer c' = Client.lossy_layer c
    /\ Client.last_rec_ack c <= Client.last_rec_ack c'
    /\ exists i, Client.segments_in_transit c'
                 = skipn i (Client.segments_in_transit c).
Proof.
  intros segment c c'. subst c'.
  assert (Hskip : exists i, Client.segments_in_transit c
                            = skipn i (Client.segments_in_transit c))
    by (exists 0%nat; reflexivity).
  unfold Client.lossy_layer_segment_received. run_py.
  repeat break_match; cbn [snd Client.state Client.seqnum Client.client_window
    Client.sendbuf Client.lossy_layer Client.last_rec_ack Client.segments_in_transit
    Client.set_acknum Client.set_server_window Client.set_synack_recv
    Client.set_finack_recv Client.set_last_rec_ack Client.set_segments_in_transit];
    repeat split; try reflexivity; try exact Hskip; try lia; eauto.
  all: match goal with
       | H : (_ <? _) && _ = true |- _ =>
           apply andb_true_iff in H as [H _]; apply Z.ltb_lt in H; lia
       end.
Qed.

(** X11. The teardown counterpart of the handshake check: in FIN_SENT, on a
    checksum-valid segment, the client records the FIN+ACK exactly when ACK
    and FIN are set and the [acknum] field is the client's [seqnum + 1]; it
    then sets [finack_recv] and nothing else (the fields [seqnum] and
    [window] of the segment are not stored).  On every other valid segment it
    changes nothing.  It never raises. *)
Theorem fin_sent_teardown_determinism :
  forall (c : Client.t) segment S seqnum_ acknum_ syn_set ack_set fin_set window
         datalen checksum,
    Client.state c = FIN_SENT ->
    Client.seqnum c = Some S ->
    Client.checksum_valid segment
      (seqnum_, acknum_, syn_set, ack_set, fin_set, window, datalen, checksum) ->
    let accepted := ack_set = true /\ fin_set = true /\ acknum_ = S + 1 in
    let r := Client.lossy_layer_segment_received segment c in
    fst r = Return tt
    /\ (accepted -> snd r = Client.set_finack_recv true c)
    /\ (~ accepted -> snd r = c).
Proof.
  intros c segment S seqnum_ acknum_ syn_set ack_set fin_set window datalen checksum
         Hst Hseq Hvalid accepted r.
  apply client_verify_inv in Hvalid as (Hunpack & header & Hbuild & Hck).
  assert (Hr : r = if ack_set && fin_set && (S + 1 =? acknum_)
                   then (Return tt, Client.set_finack_recv true c)
                   else (Return tt, c)).
  { subst r. unfold Client.lossy_layer_segment_received. run_py.
    rewrite Hst. cbn [BTCPStates_eqb].
    rewrite Hunpack, Hbuild, Hck, Z.eqb_refl, Hseq. cbn [negb int_of].
    destruct ack_set, fin_set; cbn [andb]; try reflexivity.
    destruct (S + 1 =? acknum_); reflexivity. }
  assert (Hacc : accepted <-> ack_set && fin_set && (S + 1 =? acknum_) = true).
  { subst accepted. rewrite !andb_true_iff, Z.eqb_eq. intuition lia. }
  destruct (ack_set && fin_set && (S + 1 =? acknum_)) eqn:E; rewrite Hr; cbn [fst snd].
  - split; [ reflexivity | ]. split; [ reflexivity | ].
    intros Hn. exfalso. apply Hn, Hacc. reflexivity.
  - split; [ reflexivity | ]. split; [ | reflexivity ].
    intros Ha. apply Hacc in Ha. discriminate.
Qed.

Lemma fin_sent_teardown_determinism_witness :
  let accepted := true = true /\ true = true /\ 43 = 42 + 1 in
  let r := Client.lossy_layer_segment_received Scenario.fin_ack_43
             Scenario.client_fin_sent in
  fst r = Return tt
  /\ (accepted -> snd r = Client.set_finack_recv true Scenario.client_fin_sent)
  /\ (~ accepted -> snd r = Scenario.client_fin_sent).
Proof.
  apply (fin_sent_teardown_determinism Scenario.client_fin_sent Scenario.fin_ack_43
           42 100 43 false true true 1 0 64624).
  - reflexivity.
  - reflexivity.
  - vm_compute. reflexivity.
Defined.

Lemma Zseq_app (n m : nat) :
  forall a, Zseq a (n + m) = Zseq a n ++ Zseq (a + Z.of_nat n) m.
Proof.
  induction n as [|n IH]; intros a.
  - cbn [Nat.add Zseq app]. rewrite Z.add_0_r. reflexivity.
  - cbn [Nat.add Zseq app]. rewrite IH. do 3 f_equal. lia.
Qed.

Lemma skipn_Zseq (i : nat) :
  forall a n, skipn i (Zseq a n) = Zseq (a + Z.of_nat i) (n - i).
Proof.
  induction i as [|i IH]; intros a n.
  - cbn [skipn]. rewrite Z.add_0_r, Nat.sub_0_r. reflexivity.
  - destruct n as [|n]; [ reflexivity | ].
    cbn [skipn Zseq Nat.sub]. rewrite IH. f_equal. lia.
Qed.

Lemma length_Zseq (n : nat) : forall a, List.length (Zseq a n) = n.
Proof. induction n as [|n IH]; intros a; simpl; [ | rewrite IH ]; reflexivity. Qed.

(** What the send loop of the tick does from sequence number [s]: it sends
    [k] new segments with the sequence numbers [s], [s+1], ..., built from the
    first [k] chunks of the queue, records each in [segments_in_transit], and
    sends the last one only while the window condition held.  It leaves the
    queue without those [k] chunks, and without one more when building the
    segment for that one raised. *)
Lemma send_window_spec (now : time) (queue : list bytes) :
  forall (c : Client.t) (s : Z),
    Client.seqnum c = Some s ->
    exists (new : list Client.in_transit),
      let c' := snd (Client.send_window now queue c) in
      let k := List.length new in
      Client.seqnum c' = Some (s + Z.of_nat k)
      /\ Client.segments_in_transit c' = Client.segments_in_transit c ++ new
      /\ map Client.entry_seqnum new = Zseq s k
      /\ Client.lossy_layer c' = Client.lossy_layer c ++ map snd new
      /\ (k <= List.length queue)%nat
      /\ (k = 0%nat
          \/ s + Z.of_nat k - 1 - Client.last_rec_ack c < Client.server_window c)
      /\ Client.last_rec_ack c' = Client.last_rec_ack c
      /\ Client.server_window c' = Client.server_window c
      /\ Client.state c' = Client.state c
      /\ Client.acknum c' = Client.acknum c
      /\ Client.client_window c' = Client.client_window c
      /\ Forall2 (sent_as now c) (firstn k queue) new
      /\ (Client.sendbuf c = queue ->
          Client.sendbuf c' = skipn k queue \/ Client.sendbuf c' = skipn (S k) queue).
Proof.
  induction queue as [|chunk queue IH]; intros c s Hseq.
  - exists []. cbn [Client.send_window]. run_py. rewrite Hseq. cbn [int_of].
    destruct (s - Client.last_rec_ack c <? Client.server_window c);
      cbn [snd List.length map Zseq firstn skipn]; rewrite Z.add_0_r, !app_nil_r;
      repeat split; auto; constructor.
  - cbn [Client.send_window]. run_py. rewrite Hseq. cbn [int_of].
    destruct (Z.ltb_spec (s - Client.last_rec_ack c) (Client.server_window c))
      as [Hwin|Hwin].
    + destruct (Client.data_segment s (Client.acknum c) (Client.client_window c) chunk)
        as [segment|e] eqn:Hseg.
      * cbn [Client.acknum Client.client_window Client.set_sendbuf].
        match goal with
        | |- context [Client.send_window now queue ?c1] =>
            destruct (IH c1 (s + 1) eq_refl) as (new & H); revert H;
            generalize (Client.send_window now queue c1)
        end.
        intros r H. cbn zeta in H.
        cbn [Client.seqnum Client.segments_in_transit Client.lossy_layer
             Client.last_rec_ack Client.server_window Client.state Client.acknum
             Client.client_window Client.sendbuf Client.set_seqnum Client.send_segment
             Client.set_segments_in_transit Client.set_sendbuf] in H.
        destruct H as (H1 & H2 & H3 & H4 & H5 & H6 & H7 & H8 & H9 & H10 & H11 & H12
                       & H13).
        exists ((now, s, segment) :: new). cbn zeta.
        cbn [List.length map Zseq snd fst Client.entry_seqnum firstn skipn].
        rewrite H1, H2, H3, H4, H7, H8, H9, H10, H11, <- !app_assoc.
        cbn [app]. repeat split; try reflexivity.
        -- f_equal. lia.
        -- lia.
        -- right. destruct H6 as [H6|H6]; [ rewrite H6 | ]; lia.
        -- constructor; [ split; [ reflexivity | exact Hseg ] | ].
           eapply Forall2_impl; [ | exact H12 ].
           intros a b Hab. exact Hab.
        -- intros _. apply H13. reflexivity.
      * exists []. cbn [snd List.length map Zseq Client.seqnum Client.set_sendbuf
                        Client.segments_in_transit Client.lossy_layer
                        Client.last_rec_ack Client.server_window Client.state
                        Client.acknum Client.client_window Client.sendbuf firstn skipn].
        rewrite Z.add_0_r, !app_nil_r. repeat split; auto; try lia; constructor.
    + exists []. cbn [snd List.length map Zseq firstn skipn].
      rewrite Z.add_0_r, !app_nil_r.
      repeat split; auto; try lia; constructor.
Qed.

(** The first loop of the tick, entry by entry. *)
Lemma resend_timed_out_spec TIMEOUT now (l : list Client.in_transit) :
  Client.resend_timed_out TIMEOUT now l
  = (map (fun e => if timed_out TIMEOUT now e then (now, snd (fst e), snd e) else e) l,
     map snd (filter (timed_out TIMEOUT now) l)).
Proof.
  induction l as [|[[t s] seg] l IH]; [ reflexivity | ].
  cbn [Client.resend_timed_out map filter]. rewrite IH.
  unfold timed_out. cbn [fst snd].
  destruct (t + TIMEOUT <? now); reflexivity.
Qed.

Lemma fold_send_segment (sent : list bytes) :
  forall c : Client.t,
    fold_left (fun c segment => Client.send_segment segment c) sent c
    = Client.mk (Client.state c) (Client.seqnum c) (Client.acknum c)
        (Client.client_window c) (Client.server_window c) (Client.last_rec_ack c)
        (Client.synack_recv c) (Client.finack_recv c) (Client.segments_in_transit c)
        (Client.sendbuf c) (Client.lossy_layer c ++ sent).
Proof.
  induction sent as [|segment sent IH]; intros c; cbn [fold_left].
  - rewrite app_nil_r. destruct c; reflexivity.
  - rewrite IH. cbn [Client.send_segment Client.state Client.seqnum Client.acknum
      Client.client_window Client.server_window Client.last_rec_ack Client.synack_recv
      Client.finack_recv Client.segments_in_transit Client.sendbuf Client.lossy_layer].
    rewrite <- app_assoc. reflexivity.
Qed.

Lemma retransmit_eq TIMEOUT now (c : Client.t) :
  Client.retransmit TIMEOUT now c
  = Client.mk (Client.state c) (Client.seqnum c) (Client.acknum c)
      (Client.client_window c) (Client.server_window c) (Client.last_rec_ack c)
      (Client.synack_recv c) (Client.finack_recv c)
      (map (fun e => if timed_out TIMEOUT now e then (now, snd (fst e), snd e) else e)
         (Client.segments_in_transit c))
      (Client.sendbuf c)
      (Client.lossy_layer c
       ++ map snd (filter (timed_out TIMEOUT now) (Client.segments_in_transit c))).
Proof.
  unfold Client.retransmit. rewrite resend_timed_out_spec, fold_send_segment.
  reflexivity.
Qed.

Lemma timed_out_refresh TIMEOUT now e :
  0 <= TIMEOUT -> timed_out TIMEOUT now (refresh TIMEOUT now e) = false.
Proof.
  intros HT. unfold refresh. destruct (timed_out TIMEOUT now e) eqn:E; [ | exact E ].
  unfold timed_out. cbn [fst snd]. apply Z.ltb_ge. lia.
Qed.

Lemma filter_timed_out_refresh TIMEOUT now (l : list Client.in_transit) :
  0 <= TIMEOUT -> filter (timed_out TIMEOUT now) (map (refresh TIMEOUT now) l) = [].
Proof.
  intros HT. induction l as [|e l IH]; [ reflexivity | ].
  cbn [map filter]. rewrite timed_out_refresh by exact HT. exact IH.
Qed.

(** X12. The first loop of the client's tick sends again exactly the segments
    in transit whose timer has run out ([timeout + TIMEOUT < now]), once
    each and in the order of the list; it keeps every entry's sequence number
    and segment (only time stamps change); and with a timeout that is not
    negative a second run at the same reading of the clock sends nothing. *)
Theorem retransmit_resends_timed_out_once :
  forall (TIMEOUT : Z) (now : time) (c : Client.t),
    let c' := Client.retransmit TIMEOUT now c in
    Client.lossy_layer c'
    = Client.lossy_layer c
      ++ map snd (filter (timed_out TIMEOUT now) (Client.segments_in_transit c))
    /\ map (fun e => (snd (fst e), snd e)) (Client.segments_in_transit c')
       = map (fun e => (snd (fst e), snd e)) (Client.segments_in_transit c)
    /\ (0 <= TIMEOUT -> Client.retransmit TIMEOUT now c' = c').
Proof.
  intros TIMEOUT now c c'. subst c'. rewrite retransmit_eq.
  cbn [Client.lossy_layer Client.segments_in_transit].
  split; [ reflexivity | ]. split.
  - rewrite map_map. apply map_ext. intros [[t s] seg].
    destruct (timed_out TIMEOUT now (t, s, seg)); reflexivity.
  - intros HT. rewrite retransmit_eq.
    cbn [Client.state Client.seqnum Client.acknum Client.client_window
         Client.server_window Client.last_rec_ack Client.synack_recv
         Client.finack_recv Client.segments_in_transit Client.sendbuf
         Client.lossy_layer].
    change (fun e : Client.in_transit =>
              if timed_out TIMEOUT now e then (now, snd (fst e), snd e) else e)
      with (refresh TIMEOUT now).
    rewrite filter_timed_out_refresh by exact HT. cbn [map]. rewrite app_nil_r.
    f_equal. rewrite map_map. apply map_ext. intros e.
    unfold refresh at 1. rewrite timed_out_refresh by exact HT. reflexivity.
Qed.



(** The handler leaves the sequence number alone and only ever drops a head
    of the list in transit. *)
Lemma client_handler_in_transit (segment : bytes) (c : Client.t) :
  let c' := snd (Client.lossy_layer_segment_received segment c) in
  Client.seqnum c' = Client.seqnum c
  /\ Client.sendbuf c' = Client.sendbuf c
  /\ Client.lossy_layer c' = Client.lossy_layer c
  /\ Client.state c' = Client.state c
  /\ Client.client_window c' = Client.client_window c
  /\ exists i, Client.segments_in_transit c' = skipn i (Client.segments_in_transit c).
Proof.
  assert (Hskip : exists i, Client.segments_in_transit c
                            = skipn i (Client.segments_in_transit c))
    by (exists 0%nat; reflexivity).
  unfold Client.lossy_layer_segment_received. run_py.
  repeat break_match; cbn [snd Client.state Client.seqnum Client.client_window
    Client.sendbuf Client.lossy_layer Client.segments_in_transit
    Client.set_acknum Client.set_server_window Client.set_synack_recv
    Client.set_finack_recv Client.set_last_rec_ack Client.set_segments_in_transit];
    repeat split; try reflexivity; try exact Hskip; eauto.
Qed.

Lemma consecutive_skipn (c c' : Client.t) (i : nat) :
  in_flight_consecutive c ->
  Client.seqnum c' = Client.seqnum c ->
  Client.segments_in_transit c' = skipn i (Client.segments_in_transit c) ->
  in_flight_consecutive c'.
Proof.
  intros (s & Hseq & Hmap) Hs Hl. exists s. split; [ congruence | ].
  rewrite Hl, <- skipn_map, Hmap, skipn_Zseq, length_skipn.
  set (n := List.length (Client.segments_in_transit c)).
  destruct (Nat.le_gt_cases i n).
  - f_equal. lia.
  - replace (n - i)%nat with 0%nat by lia. reflexivity.
Qed.

Lemma tick_consecutive TIMEOUT now (c : Client.t) :
  in_flight_consecutive c ->
  in_flight_consecutive (snd (Client.lossy_layer_tick TIMEOUT now c)).
Proof.
  intros (s & Hseq & Hmap).
  unfold Client.lossy_layer_tick. run_py.
  pose proof (retransmit_eq TIMEOUT now c) as Hre.
  destruct (send_window_spec now (Client.sendbuf (Client.retransmit TIMEOUT now c))
              (Client.retransmit TIMEOUT now c) s) as (new & H).
  { rewrite Hre. exact Hseq. }
  cbn zeta in H. destruct H as (H1 & H2 & H3 & _).
  exists (s + Z.of_nat (List.length new)). split; [ exact H1 | ].
  rewrite H2, map_app, H3, length_app. rewrite Hre.
  cbn [Client.segments_in_transit]. rewrite length_map, map_map.
  rewrite (map_ext _ Client.entry_seqnum).
  - rewrite Hmap, Zseq_app. f_equal.
    + f_equal. lia.
    + f_equal. lia.
  - intros [[t q] seg].
    destruct (timed_out TIMEOUT now (t, q, seg)); reflexivity.
Qed.

(** X14. An invariant of the network thread: when the segments in transit
    carry consecutive sequence numbers ending just below [seqnum], they still
    do after any sequence of arriving segments and ticks. *)
Theorem in_flight_stays_consecutive :
  forall (TIMEOUT : Z) (cbs : list Client.callback) (c : Client.t),
    in_flight_consecutive c ->
    in_flight_consecutive (Client.network_thread TIMEOUT cbs c).
Proof.
  intros TIMEOUT cbs. induction cbs as [|[segment|now] cbs IH]; intros c Hc.
  - exact Hc.
  - cbn [Client.network_thread]. apply IH.
    destruct (client_handler_in_transit segment c) as (Hs & _ & _ & _ & _ & i & Hl).
    exact (consecutive_skipn c _ i Hc Hs Hl).
  - cbn [Client.network_thread]. apply IH, tick_consecutive, Hc.
Qed.

Lemma in_flight_stays_consecutive_witness :
  in_flight_consecutive
    (Client.network_thread Scenario.TIMEOUT
       [Client.Arrives (Scenario.server_ack 6 1); Client.Ticks 10]
       Scenario.client_two_in_flight).
Proof.
  apply (in_flight_stays_consecutive Scenario.TIMEOUT
           [Client.Arrives (Scenario.server_ack 6 1); Client.Ticks 10]
           Scenario.client_two_in_flight).
  exists 7. split; vm_compute; reflexivity.
Defined.

(** ** Bare segments *)

Lemma flag_byte_pos (syn_set ack_set fin_set : bool) :
  syn_set || ack_set || fin_set = true -> 1 <= flag_byte syn_set ack_set fin_set.
Proof.
  destruct syn_set, ack_set, fin_set; try discriminate; intros _; vm_compute; discriminate.
Qed.

Lemma bare_checksum_range seqnum acknum syn_set ack_set fin_set window :
  uint16 seqnum -> uint16 acknum -> uint8 window ->
  syn_set || ack_set || fin_set = true ->
  uint16 (bare_checksum seqnum acknum syn_set ack_set fin_set window).
Proof.
  intros Hs Ha Hw Hf. apply header_sum_flagged; auto with btcp.
  apply flag_byte_pos, Hf.
Qed.

(** The two passes every bare segment is built in. *)
Lemma two_pass_bare seqnum acknum syn_set ack_set fin_set window :
  uint16 seqnum -> uint16 acknum -> uint8 window ->
  syn_set || ack_set || fin_set = true ->
  build_segment_header seqnum acknum syn_set ack_set fin_set window 0 0
  = Return (header_bytes seqnum acknum syn_set ack_set fin_set window 0 0)
  /\ in_cksum (header_bytes seqnum acknum syn_set ack_set fin_set window 0 0)
     = Return (bare_checksum seqnum acknum syn_set ack_set fin_set window)
  /\ build_segment_header seqnum acknum syn_set ack_set fin_set window 0
       (bare_checksum seqnum acknum syn_set ack_set fin_set window)
     = Return (header_bytes seqnum acknum syn_set ack_set fin_set window 0
                 (bare_checksum seqnum acknum syn_set ack_set fin_set window)).
Proof.
  intros Hs Ha Hw Hf.
  pose proof (bare_checksum_range _ _ _ _ _ _ Hs Ha Hw Hf).
  split; [ apply build_segment_header_ok; auto with btcp | ].
  split; [ apply in_cksum_header; auto with btcp | ].
  apply build_segment_header_ok; auto with btcp.
Qed.

(** What either handler unpacks from a bare segment. *)
Lemma unpack_bare seqnum acknum syn_set ack_set fin_set window :
  uint16 seqnum -> uint16 acknum -> uint8 window ->
  syn_set || ack_set || fin_set = true ->
  unpack_segment_header
    (firstn HEADER_SIZE (bare_segment seqnum acknum syn_set ack_set fin_set window))
  = Return (seqnum, acknum, syn_set, ack_set, fin_set, window, 0,
            bare_checksum seqnum acknum syn_set ack_set fin_set window).
Proof.
  intros Hs Ha Hw Hf. unfold bare_segment. rewrite firstn_header_bytes.
  apply unpack_header_bytes; auto with btcp.
  apply bare_checksum_range; assumption.
Qed.

(** The FIN+ACK of the server is such a segment. *)
Lemma send_fin_ack_returns (s : Server.t) (sn : Z) :
  Server.seqnum s = Some sn -> uint16 sn -> uint16 (Server.acknum s) ->
  Server.send_fin_ack s
  = (Return tt,
     Server.send_segment
       (bare_segment sn (Server.acknum s) false true true default_window) s).
Proof.
  intros Hseq Hsn Ha.
  destruct (two_pass_bare sn (Server.acknum s) false true true default_window)
    as (H1 & H2 & H3); auto with btcp.
  unfold Server.send_fin_ack. run_py. rewrite Hseq. cbn [build_segment_header_opt].
  rewrite H1, H2, H3. reflexivity.
Qed.

(** ** connect and shutdown while the peer stays silent *)

(** A tick changes nothing at an idle client. *)
Lemma idle_tick TIMEOUT now (c : Client.t) :
  idle c -> Client.lossy_layer_tick TIMEOUT now c = (Return tt, c).
Proof.
  intros (Hq & Ht & s & Hs).
  unfold Client.lossy_layer_tick. run_py.
  assert (Hre : Client.retransmit TIMEOUT now c = c).
  { unfold Client.retransmit. rewrite Ht. cbn [Client.resend_timed_out fold_left].
    destruct c; cbn in *; subst; reflexivity. }
  rewrite Hre, Hq. cbn [Client.send_window]. run_py. rewrite Hs. cbn [int_of].
  destruct (s - Client.last_rec_ack c <? Client.server_window c); reflexivity.
Qed.

(** While the client waits in SYN_SENT, a segment either changes nothing or
    records the SYN+ACK. *)
Lemma syn_sent_handler segment (c : Client.t) :
  Client.state c = SYN_SENT ->
  let c' := snd (Client.lossy_layer_segment_received segment c) in
  c' = c
  \/ exists a w, c' = Client.set_synack_recv true
                        (Client.set_server_window w (Client.set_acknum a c)).
Proof.
  intros Hst. unfold Client.lossy_layer_segment_received. run_py.
  rewrite Hst. cbn [BTCPStates_eqb].
  repeat break_match; cbn [snd]; eauto.
Qed.

Lemma syn_sent_quiet TIMEOUT (cbs : list Client.callback) :
  forall c : Client.t,
    Client.state c = SYN_SENT -> idle c ->
    let c' := Client.network_thread TIMEOUT cbs c in
    Client.state c' = SYN_SENT /\ idle c'
    /\ (Client.synack_recv c = true -> Client.synack_recv c' = true)
    /\ (Client.synack_recv c' = false -> c' = c).
Proof.
  induction cbs as [|[segment|now] cbs IH]; intros c Hst Hidle; cbn zeta.
  - cbn [Client.network_thread]. auto.
  - cbn [Client.network_thread].
    destruct (syn_sent_handler segment c Hst) as [Hc | (a & w & Hc)];
      cbn zeta in Hc; rewrite Hc.
    + apply IH; assumption.
    + destruct (IH (Client.set_synack_recv true
                      (Client.set_server_window w (Client.set_acknum a c))))
        as (H1 & H2 & H3 & H4).
      { exact Hst. }
      { exact Hidle. }
      cbn zeta in *. split; [ exact H1 | ]. split; [ exact H2 | ].
      split; [ intros _; apply H3; reflexivity | ].
      intros Hf. rewrite H3 in Hf by reflexivity. discriminate.
  - cbn [Client.network_thread]. rewrite idle_tick by exact Hidle. cbn [snd].
    apply IH; assumption.
Qed.

(** The retry loop of [connect] when no SYN+ACK gets recorded. *)
Lemma await_synack_exhausted TIMEOUT (retries : nat) segment :
  forall (rounds : list (list Client.callback)) (c : Client.t),
    Client.state c = SYN_SENT -> idle c ->
    let r := Client.await_synack TIMEOUT retries rounds segment c in
    (Client.synack_recv (snd r) = true ->
     Client.state (snd r) = SYN_SENT /\ idle (snd r))
    /\ (Client.synack_recv c = false -> Client.synack_recv (snd r) = false ->
        snd r = fold_left (fun c seg => Client.send_segment seg c)
                  (repeat segment retries) c).
Proof.
  induction retries as [|retries IH]; intros rounds c Hst Hidle; cbn zeta.
  - cbn [Client.await_synack repeat fold_left]. run_py. cbn [snd]. auto.
  - cbn [Client.await_synack]. run_py.
    destruct (syn_sent_quiet TIMEOUT (hd [] rounds) c Hst Hidle) as (H1 & H2 & H3 & H4).
    cbn zeta in *.
    set (c1 := Client.network_thread TIMEOUT (hd [] rounds) c) in *.
    destruct (Client.synack_recv c1) eqn:Hrec; cbn [negb snd].
    + split; [ auto | ]. intros _ Hf. congruence.
    + rewrite (H4 eq_refl) in *.
      destruct (IH (tl rounds) (Client.send_segment segment c)) as (IH1 & IH2).
      { exact Hst. }
      { exact Hidle. }
      cbn zeta in *. split; [ exact IH1 | ].
      intros Hc Hf. cbn [repeat fold_left]. apply IH2; assumption.
Qed.

(** X15. [connect] on a client with nothing queued and nothing in transit,
    whatever the network thread is called back with during the waits: when
    no SYN+ACK has been recorded by the end, [connect] has sent the same SYN
    [RETRIES + 1] times (the first one and one after each wait), sent
    nothing else, stored the initial sequence number, ended in CLOSED and
    changed no other attribute; it returns [None]. *)
Theorem connect_gives_up_after_retries :
  forall (TIMEOUT : Z) (RETRIES : nat) (isn : Z) (rounds : list (list Client.callback))
         (c : Client.t),
    uint16 isn -> uint16 (Client.acknum c) -> uint8 (Client.client_window c) ->
    Client.sendbuf c = [] -> Client.segments_in_transit c = [] ->
    Client.synack_recv c = false ->
    let syn := bare_segment isn (Client.acknum c) true false false
                 (Client.client_window c) in
    let r := Client.connect TIMEOUT RETRIES isn rounds c in
    Client.synack_recv (snd r) = false ->
    fst r = Return PyNone
    /\ snd r
       = Client.mk CLOSED (Some isn) (Client.acknum c) (Client.client_window c)
           (Client.server_window c) (Client.last_rec_ack c) false
           (Client.finack_recv c) [] []
           (Client.lossy_layer c ++ repeat syn (S RETRIES)).
Proof.
  intros TIMEOUT RETRIES isn rounds c Hisn Ha Hw Hq Ht Hrec0 syn r.
  destruct (two_pass_bare isn (Client.acknum c) true false false (Client.client_window c))
    as (H1 & H2 & H3); auto.
  subst r. unfold Client.connect. run_py.
  cbn [Client.seqnum Client.set_seqnum Client.acknum Client.client_window
       build_segment_header_opt].
  rewrite H1, H2, H3. fold (bare_segment isn (Client.acknum c) true false false
                              (Client.client_window c)). fold syn.
  set (c0 := Client.set_state SYN_SENT
               (Client.send_segment syn (Client.set_seqnum (Some isn) c))).
  assert (Hst0 : Client.state c0 = SYN_SENT) by reflexivity.
  assert (Hidle0 : idle c0).
  { subst c0. unfold idle. client_fields. rewrite Hq, Ht. eauto. }
  destruct (await_synack_exhausted TIMEOUT RETRIES syn rounds c0 Hst0 Hidle0)
    as (Hyes & Hno).
  cbn zeta in Hyes, Hno.
  pose proof (await_synack_returns TIMEOUT RETRIES rounds syn c0) as Hret.
  destruct (Client.await_synack TIMEOUT RETRIES rounds syn c0) as [o c3].
  cbn [fst snd] in *. subst o.
  destruct (Client.synack_recv c3) eqn:Hrec; cbn [negb].
  - (* a SYN+ACK was recorded: the flag stays set whatever follows *)
    intros Hfalse. exfalso. revert Hfalse.
    destruct (Client.seqnum c3) as [a|]; cbn [int_of].
    + repeat match goal with
             | |- context [match ?o with Return _ => _ | Raise _ => _ end] =>
                 destruct o
             end; client_fields; congruence.
    + client_fields. congruence.
  - intros _. cbn [fst snd]. split; [ reflexivity | ].
    rewrite Hno by (assumption || reflexivity).
    rewrite fold_send_segment. subst c0. unfold Client.set_state. client_fields.
    rewrite Hq, Ht, Hrec0. rewrite <- app_assoc.
    replace ([syn] ++ repeat syn RETRIES) with (repeat syn (S RETRIES)) by reflexivity.
    reflexivity.
Qed.

Lemma connect_gives_up_after_retries_witness :
  fst Scenario.connect_exhausted = Return PyNone
  /\ snd Scenario.connect_exhausted
     = Client.mk CLOSED (Some 41) 0 1 1 0 false false [] []
         ([] ++ repeat (bare_segment 41 0 true false false 1) 4).
Proof.
  apply (connect_gives_up_after_retries Scenario.TIMEOUT Scenario.RETRIES 41 []
           (Client.init 1)).
  - unfold uint16. lia.
  - unfold uint16. simpl. lia.
  - unfold uint8. simpl. lia.
  - reflexivity.
  - reflexivity.
  - reflexivity.
  - vm_compute. reflexivity.
Defined.

(** A FIN+ACK whose [acknum] is not the client's [seqnum + 1] changes nothing
    at a client in FIN_SENT. *)
Lemma fin_sent_ignores (c : Client.t) (s sn a : Z) :
  Client.state c = FIN_SENT -> Client.seqnum c = Some s ->
  uint16 sn -> uint16 a -> a <> s + 1 ->
  Client.lossy_layer_segment_received
    (bare_segment sn a false true true default_window) c
  = (Return tt, c).
Proof.
  intros Hst Hseq Hsn Ha Hne.
  destruct (two_pass_bare sn a false true true default_window) as (H1 & H2 & _);
    auto with btcp.
  unfold Client.lossy_layer_segment_received. run_py.
  rewrite Hst. cbn [BTCPStates_eqb].
  rewrite unpack_bare by auto with btcp.
  rewrite H1, H2, Z.eqb_refl, Hseq. cbn [negb andb int_of].
  destruct (Z.eqb_spec (s + 1) a); [ congruence | reflexivity ].
Qed.

(** The retry loop of [shutdown] when every round leaves the client as it
    was. *)
Lemma await_finack_unanswered TIMEOUT (Q : Client.t -> Prop) segment :
  (forall c, Q c -> Client.finack_recv c = false) ->
  (forall c, Q c -> Q (Client.send_segment segment c)) ->
  forall (retries : nat) (rounds : list (list Client.callback)) (c : Client.t),
    Forall (fun cbs => forall c', Q c' -> Client.network_thread TIMEOUT cbs c' = c')
      rounds ->
    Q c ->
    Client.await_finack TIMEOUT retries rounds segment c
    = (Return tt,
       fold_left (fun c seg => Client.send_segment seg c) (repeat segment retries) c).
Proof.
  intros Hflag Hsend. induction retries as [|retries IH]; intros rounds c Hrounds Hc.
  - reflexivity.
  - cbn [Client.await_finack repeat fold_left]. run_py.
    assert (Hhd : Client.network_thread TIMEOUT (hd [] rounds) c = c).
    { destruct Hrounds as [|cbs rounds Hcbs _]; [ reflexivity | ]. apply Hcbs, Hc. }
    rewrite Hhd, (Hflag c Hc). cbn [negb].
    apply IH; [ | apply Hsend, Hc ].
    destruct Hrounds; [ constructor | assumption ].
Qed.

(** X16. [shutdown] against this server.  The client advances [seqnum] to
    [s + 1] for its FIN and accepts a FIN+ACK only when the [acknum] field is
    [s + 2]; the server's FIN+ACK carries the server's [acknum].  So for a
    server whose [acknum] is not [s + 2] (after a handshake it is [s], see
    X25), with nothing but that FIN+ACK and ticks reaching the client,
    [shutdown] never records the answer: it sends its FIN [RETRIES + 1]
    times, ends in CLOSED by retry exhaustion and returns [None]. *)
Theorem shutdown_never_accepts_server_fin_ack :
  forall (TIMEOUT : Z) (RETRIES : nat) (rounds : list (list Client.callback))
         (c : Client.t) (s : Z) (srv : Server.t) (sn : Z),
    Client.seqnum c = Some s ->
    uint16 (s + 1) -> uint16 (Client.acknum c + 1) -> uint8 (Client.client_window c) ->
    Client.sendbuf c = [] -> Client.segments_in_transit c = [] ->
    Client.finack_recv c = false ->
    Server.seqnum srv = Some sn -> uint16 sn -> uint16 (Server.acknum srv) ->
    Server.acknum srv <> s + 2 ->
    let fin := bare_segment (s + 1) (Client.acknum c + 1) false false true
                 (Client.client_window c) in
    let fin_ack := bare_segment sn (Server.acknum srv) false true true default_window in
    Forall (Forall (fun cb => cb = Client.Arrives fin_ack
                              \/ exists now, cb = Client.Ticks now)) rounds ->
    Server.send_fin_ack srv = (Return tt, Server.send_segment fin_ack srv)
    /\ Client.shutdown TIMEOUT RETRIES rounds c
       = (Return PyNone,
          Client.mk CLOSED (Some (s + 1)) (Client.acknum c + 1) (Client.client_window c)
            (Client.server_window c) (Client.last_rec_ack c) (Client.synack_recv c)
            false [] []
            (Client.lossy_layer c ++ repeat fin (S RETRIES))).
Proof.
  intros TIMEOUT RETRIES rounds c s srv sn Hseq Hs Ha Hw Hq Ht Hrec0 Hsseq Hsn Hsa Hne
         fin fin_ack Hrounds.
  split; [ apply send_fin_ack_returns; assumption | ].
  destruct (two_pass_bare (s + 1) (Client.acknum c + 1) false false true
              (Client.client_window c)) as (H1 & H2 & H3); auto.
  unfold Client.shutdown. run_py. client_fields.
  rewrite Hseq. cbn [int_of build_segment_header_opt].
  rewrite H1, H2, H3.
  fold (bare_segment (s + 1) (Client.acknum c + 1) false false true
          (Client.client_window c)). fold fin.
  set (c0 := Client.set_state FIN_SENT
               (Client.send_segment fin
                  (Client.set_seqnum (Some (s + 1))
                     (Client.set_acknum (Client.acknum c + 1) c)))).
  set (Q := fun c' : Client.t =>
              Client.state c' = FIN_SENT /\ idle c'
              /\ Client.seqnum c' = Some (s + 1) /\ Client.finack_recv c' = false).
  rewrite (await_finack_unanswered TIMEOUT Q fin).
  - cbn [fst snd]. rewrite fold_send_segment. subst c0. unfold Client.set_state.
    client_fields. rewrite Hrec0, Hq, Ht. cbn [negb]. client_fields.
    rewrite <- app_assoc.
    replace ([fin] ++ repeat fin RETRIES) with (repeat fin (S RETRIES)) by reflexivity.
    reflexivity.
  - intros c' (_ & _ & _ & H). exact H.
  - intros c' (Hst' & Hidle' & Hseq' & Hf'). unfold idle in *. client_fields.
    repeat split; try assumption; apply Hidle'.
  - eapply Forall_impl; [ | exact Hrounds ].
    intros cbs Hcbs. induction Hcbs as [|cb cbs Hcb _ IH]; intros c' Hc'.
    + reflexivity.
    + pose proof Hc' as (Hst' & Hidle' & Hseq' & Hf').
      destruct Hcb as [-> | (now & ->)]; cbn [Client.network_thread].
      * subst fin_ack.
        rewrite (fin_sent_ignores c' (s + 1) sn (Server.acknum srv))
          by (assumption || lia).
        apply IH, Hc'.
      * rewrite idle_tick by exact Hidle'. apply IH, Hc'.
  - subst c0 Q. cbn beta. unfold idle. client_fields. rewrite Hq, Ht, Hrec0.
    repeat split; eauto.
Qed.

Lemma shutdown_never_accepts_server_fin_ack_witness :
  Server.send_fin_ack (Scenario.server_at 42 1)
  = (Return tt,
     Server.send_segment (bare_segment 100 42 false true true default_window)
       (Scenario.server_at 42 1))
  /\ Client.shutdown Scenario.TIMEOUT Scenario.RETRIES
       [[Client.Arrives (bare_segment 100 42 false true true default_window);
         Client.Ticks 3]]
       Scenario.client_established
     = (Return PyNone,
        Client.mk CLOSED (Some (42 + 1)) (101 + 1) 1 1 0 true false [] []
          ([] ++ repeat Scenario.fin_43 (S Scenario.RETRIES))).
Proof.
  apply (shutdown_never_accepts_server_fin_ack Scenario.TIMEOUT Scenario.RETRIES
           [[Client.Arrives (bare_segment 100 42 false true true default_window);
             Client.Ticks 3]]
           Scenario.client_established 42 (Scenario.server_at 42 1) 100).
  - reflexivity.
  - unfold uint16. lia.
  - unfold uint16. simpl. lia.
  - unfold uint8. simpl. lia.
  - reflexivity.
  - reflexivity.
  - reflexivity.
  - reflexivity.
  - unfold uint16. lia.
  - unfold uint16. simpl. lia.
  - simpl. lia.
  - constructor; [ | constructor ].
    constructor; [ left; reflexivity | ].
    constructor; [ right; exists 3; reflexivity | constructor ].
Defined.

(** ** The server's network thread *)

Ltac server_fields :=
  cbn [snd fst Server.state Server.seqnum Server.acknum Server.recvbuf Server.fin_retries
       Server.fin_timeout Server.ack_timeout Server.window Server.lossy_layer
       Server.set_state Server.set_acknum Server.set_recvbuf Server.set_fin_retries
       Server.set_fin_timeout Server.set_ack_timeout Server.send_segment
       Server.set_seqnum Server.set_window].

Ltac server_run :=
  cbn [snd fst Server.state Server.seqnum Server.acknum Server.recvbuf Server.fin_retries
       Server.fin_timeout Server.ack_timeout Server.window Server.lossy_layer
       Server.set_state Server.set_acknum Server.set_recvbuf Server.set_fin_retries
       Server.set_fin_timeout Server.set_ack_timeout Server.send_segment
       Server.set_seqnum Server.set_window Server.flag_classes
       negb andb orb int_of BTCPStates_eqb build_segment_header_opt].

Lemma BTCPStates_eqb_eq (a b : BTCPStates) : BTCPStates_eqb a b = true <-> a = b.
Proof. destruct a, b; cbn; split; intros H; congruence. Qed.

Lemma server_handler_step (now : time) (segment : bytes) (c : Server.t) :
  server_step (Server.state c)
    (Server.state (snd (Server.lossy_layer_segment_received now segment c))).
Proof.
  unfold Server.lossy_layer_segment_received, Server.send_fin_ack, Server.generate_ack,
    Server.put_nowait, server_step.
  run_py.
  repeat break_match; server_fields; auto;
    repeat match goal with
           | H : _ && _ = true |- _ => apply andb_true_iff in H as [H ?]
           | H : BTCPStates_eqb _ _ = true |- _ => apply BTCPStates_eqb_eq in H
           | H : negb _ = false |- _ => apply negb_false_iff in H
           end; auto 6.
Qed.

Lemma server_tick_step (TIMEOUT : Z) (now : time) (c : Server.t) :
  server_step (Server.state c) (Server.state (snd (Server.lossy_layer_tick TIMEOUT now c))).
Proof.
  unfold Server.lossy_layer_tick, Server.generate_ack, server_step. run_py.
  destruct (Server.state c) eqn:Hst; server_fields; auto;
    repeat break_match; server_fields; auto 6.
Qed.

(** X17. The server's network thread follows the state machine: every
    callback, whatever segment arrives and whenever the tick comes, leaves
    the state as it is or moves it one edge along ACCEPTING, SYN_RCVD,
    ESTABLISHED, CLOSING, CLOSED, never backwards and never across; so any
    run of callbacks moves the state along a path of these edges; and a
    server in CLOSED is not changed at all by its network thread. *)
Theorem server_state_machine :
  forall (TIMEOUT : Z) (cb : Server.callback) (cbs : list Server.callback)
         (c : Server.t),
    server_step (Server.state c) (Server.state (Server.network_thread TIMEOUT [cb] c))
    /\ clos_refl_trans _ server_step
         (Server.state c) (Server.state (Server.network_thread TIMEOUT cbs c))
    /\ (Server.state c = CLOSED -> Server.network_thread TIMEOUT cbs c = c).
Proof.
  intros TIMEOUT cb cbs c. split.
  - destruct cb as [now segment|now]; cbn [Server.network_thread].
    + apply server_handler_step.
    + apply server_tick_step.
  - revert c. induction cbs as [|[now segment|now] cbs IH]; intros c.
    + split; [ apply rt_refl | reflexivity ].
    + cbn [Server.network_thread]. split.
      * eapply rt_trans; [ apply rt_step, (server_handler_step now segment) | apply IH ].
      * intros Hc.
        assert (Hh : snd (Server.lossy_layer_segment_received now segment c) = c).
        { unfold Server.lossy_layer_segment_received. run_py. rewrite Hc. reflexivity. }
        rewrite Hh. apply IH, Hc.
    + cbn [Server.network_thread]. split.
      * eapply rt_trans; [ apply rt_step, (server_tick_step TIMEOUT now) | apply IH ].
      * intros Hc.
        assert (Hh : snd (Server.lossy_layer_tick TIMEOUT now c) = c).
        { unfold Server.lossy_layer_tick. run_py. rewrite Hc. reflexivity. }
        rewrite Hh. apply IH, Hc.
Qed.

(** What one arriving segment can do to the receive queue, the sequence
    number and the window. *)
Lemma server_handler_recvbuf (now : time) (segment : bytes) (c : Server.t) :
  let c' := snd (Server.lossy_layer_segment_received now segment c) in
  Server.seqnum c' = Server.seqnum c
  /\ Server.window c' = Server.window c
  /\ (Server.recvbuf c' = Server.recvbuf c
      \/ exists chunk,
           Server.recvbuf c' = Server.recvbuf c ++ [chunk]
           /\ (List.length (Server.recvbuf c) < Server.recvbuf_maxsize)%nat).
Proof.
  unfold Server.lossy_layer_segment_received, Server.send_fin_ack, Server.generate_ack,
    Server.put_nowait.
  run_py.
  repeat break_match; server_fields; repeat split; auto.
  right. eexists. split; [ reflexivity | ].
  match goal with H : (_ <? _)%nat = true |- _ => apply Nat.ltb_lt in H; exact H end.
Qed.

Lemma server_tick_recvbuf (TIMEOUT : Z) (now : time) (c : Server.t) :
  let c' := snd (Server.lossy_layer_tick TIMEOUT now c) in
  Server.seqnum c' = Server.seqnum c
  /\ Server.window c' = Server.window c
  /\ Server.recvbuf c' = Server.recvbuf c.
Proof.
  unfold Server.lossy_layer_tick, Server.generate_ack. run_py.
  destruct (Server.state c) eqn:Hst; server_fields; auto;
    repeat break_match; server_fields; auto.
Qed.

(** X18. What the server's network thread does to the attributes the
    application thread reads: it never changes [seqnum] or [window]; it only
    appends to the receive queue, at most one chunk per callback, leaving
    what was queued in place and in order; and a queue within its bound of
    1000 chunks stays within it. *)
Theorem server_network_thread_appends :
  forall (TIMEOUT : Z) (cbs : list Server.callback) (c : Server.t),
    let c' := Server.network_thread TIMEOUT cbs c in
    Server.seqnum c' = Server.seqnum c
    /\ Server.window c' = Server.window c
    /\ (exists chunks, Server.recvbuf c' = Server.recvbuf c ++ chunks
                       /\ (List.length chunks <= List.length cbs)%nat)
    /\ ((List.length (Server.recvbuf c) <= Server.recvbuf_maxsize)%nat ->
        (List.length (Server.recvbuf c') <= Server.recvbuf_maxsize)%nat).
Proof.
  intros TIMEOUT cbs. induction cbs as [|[now segment|now] cbs IH]; intros c; cbn zeta.
  - cbn [Server.network_thread]. repeat split; auto.
    exists []. rewrite app_nil_r. split; [ reflexivity | apply Nat.le_refl ].
  - cbn [Server.network_thread].
    destruct (server_handler_recvbuf now segment c) as (Hs & Hw & Hr).
    specialize (IH (snd (Server.lossy_layer_segment_received now segment c))).
    cbn zeta in IH. destruct IH as (IHs & IHw & (chunks & IHr & IHl) & IHb).
    split; [ congruence | ]. split; [ congruence | ].
    destruct Hr as [Hr | (chunk & Hr & Hlt)].
    + rewrite Hr in *. split; [ | exact IHb ].
      exists chunks. split; [ exact IHr | cbn [List.length]; lia ].
    + rewrite Hr in *. split.
      * exists (chunk :: chunks). rewrite IHr, <- app_assoc. split; [ reflexivity | ].
        cbn [List.length]. lia.
      * intros _. apply IHb. rewrite length_app. cbn [List.length]. lia.
  - cbn [Server.network_thread].
    destruct (server_tick_recvbuf TIMEOUT now c) as (Hs & Hw & Hr).
    specialize (IH (snd (Server.lossy_layer_tick TIMEOUT now c))).
    cbn zeta in IH. destruct IH as (IHs & IHw & (chunks & IHr & IHl) & IHb).
    rewrite Hr in *.
    split; [ congruence | ]. split; [ congruence | ]. split; [ | exact IHb ].
    exists chunks. split; [ exact IHr | cbn [List.length]; lia ].
Qed.

(** ** Teardown at the server *)

(** X19. The start of the teardown at the server: in ESTABLISHED, a
    checksum-valid segment with only FIN set moves the server to CLOSING,
    sets [fin_retries] to 0 and [fin_timeout] to 30 clock units after the
    arrival, and sends one FIN+ACK carrying the server's [seqnum] and
    [acknum], which passes the client's verification.  From there a tick
    before the deadline changes nothing, and a tick at or after it closes
    the server. *)
Theorem server_fin_starts_teardown :
  forall (TIMEOUT : Z) (now : time) (s : Server.t) segment sn seqnum_ acknum_ window_
         datalen checksum,
    Server.state s = ESTABLISHED ->
    Server.seqnum s = Some sn -> uint16 sn -> uint16 (Server.acknum s) ->
    Server.checksum_valid segment
      (seqnum_, acknum_, false, false, true, window_, datalen, checksum) ->
    let fin_ack := bare_segment sn (Server.acknum s) false true true default_window in
    let s' := Server.send_segment fin_ack
                (Server.set_fin_timeout (Some (now + 30))
                   (Server.set_fin_retries (Some 0) (Server.set_state CLOSING s))) in
    Server.lossy_layer_segment_received now segment s = (Return tt, s')
    /\ Client.checksum_valid fin_ack
         (sn, Server.acknum s, false, true, true, default_window, 0,
          bare_checksum sn (Server.acknum s) false true true default_window)
    /\ (forall t, t < now + 30 -> Server.lossy_layer_tick TIMEOUT t s' = (Return tt, s'))
    /\ (forall t, now + 30 <= t ->
          Server.lossy_layer_tick TIMEOUT t s' = (Return tt, Server.set_state CLOSED s')).
Proof.
  intros TIMEOUT now s segment sn seqnum_ acknum_ window_ datalen checksum
         Hst Hseq Hsn Ha Hvalid fin_ack s'.
  apply server_verify_inv in Hvalid as (Hunpack & header & Hbuild & Hck).
  split; [ | split; [ | split ] ].
  - unfold Server.lossy_layer_segment_received. run_py.
    rewrite Hst. cbn [BTCPStates_eqb].
    rewrite Hunpack, Hbuild, Hck, Z.eqb_refl. cbn [negb Server.flag_classes andb orb].
    rewrite send_fin_ack_returns with (sn := sn) by assumption.
    reflexivity.
  - destruct (two_pass_bare sn (Server.acknum s) false true true default_window)
      as (H1 & H2 & H3); auto with btcp.
    unfold Client.checksum_valid, Client.verify. subst fin_ack.
    rewrite unpack_bare by auto with btcp. cbn [obind].
    rewrite H1. cbn [obind]. rewrite H2. reflexivity.
  - intros t Ht. unfold Server.lossy_layer_tick. run_py. subst s'. server_fields.
    destruct (Z.geb_spec t (now + 30)); [ lia | reflexivity ].
  - intros t Ht. unfold Server.lossy_layer_tick. run_py. subst s'. server_fields.
    destruct (Z.geb_spec t (now + 30)); [ reflexivity | lia ].
Qed.

Lemma server_fin_starts_teardown_witness :
  let fin_ack := bare_segment 100 (Server.acknum (Scenario.server_at 42 1)) false true true
                   default_window in
  let s' := Server.send_segment fin_ack
              (Server.set_fin_timeout (Some (7 + 30))
                 (Server.set_fin_retries (Some 0)
                    (Server.set_state CLOSING (Scenario.server_at 42 1)))) in
  Server.lossy_layer_segment_received 7 Scenario.fin_43 (Scenario.server_at 42 1)
  = (Return tt, s')
  /\ Client.checksum_valid fin_ack
       (100, Server.acknum (Scenario.server_at 42 1), false, true, true, default_window, 0,
        bare_checksum 100 (Server.acknum (Scenario.server_at 42 1)) false true true
          default_window)
  /\ (forall t, t < 7 + 30 ->
        Server.lossy_layer_tick Scenario.TIMEOUT t s' = (Return tt, s'))
  /\ (forall t, 7 + 30 <= t ->
        Server.lossy_layer_tick Scenario.TIMEOUT t s'
        = (Return tt, Server.set_state CLOSED s')).
Proof.
  apply (server_fin_starts_teardown Scenario.TIMEOUT 7 (Scenario.server_at 42 1)
           Scenario.fin_43 100 43 102 1 0 (bare_checksum 43 102 false false true 1)).
  - reflexivity.
  - reflexivity.
  - unfold uint16. lia.
  - unfold uint16. simpl. lia.
  - vm_compute. reflexivity.
Defined.

(** One duplicate FIN in CLOSING. *)
Lemma server_closing_fin (now : time) (s : Server.t) segment sn r seqnum_ acknum_ window_
    datalen checksum :
  Server.state s = CLOSING ->
  Server.fin_retries s = Some r ->
  Server.seqnum s = Some sn -> uint16 sn -> uint16 (Server.acknum s) ->
  Server.checksum_valid segment
    (seqnum_, acknum_, false, false, true, window_, datalen, checksum) ->
  snd (Server.lossy_layer_segment_received now segment s)
  = if r >=? 10 then Server.set_state CLOSED s
    else Server.set_fin_retries (Some (r + 1))
           (Server.send_segment
              (bare_segment sn (Server.acknum s) false true true default_window) s).
Proof.
  intros Hst Hr Hseq Hsn Ha Hvalid.
  apply server_verify_inv in Hvalid as (Hunpack & header & Hbuild & Hck).
  unfold Server.lossy_layer_segment_received. run_py.
  rewrite Hst. cbn [BTCPStates_eqb].
  rewrite Hunpack, Hbuild, Hck, Z.eqb_refl. cbn [negb Server.flag_classes andb orb].
  rewrite Hr. cbn [int_of].
  destruct (r >=? 10); [ reflexivity | ].
  rewrite send_fin_ack_returns with (sn := sn) by assumption.
  reflexivity.
Qed.

(** X20. Duplicate FINs in CLOSING.  A server in CLOSING that has answered
    [r] FINs so far answers the next ones with the same FIN+ACK until
    [fin_retries] reaches 10, and closes on the FIN after that: of [n]
    checksum-valid FINs in a row it answers [min n (10 - r)], and it is
    still in CLOSING afterwards exactly when [n <= 10 - r]. *)
Theorem server_answers_ten_duplicate_fins :
  forall (TIMEOUT : Z) (times : list time) (s : Server.t) segment sn r seqnum_ acknum_
         window_ datalen checksum,
    Server.state s = CLOSING ->
    Server.fin_retries s = Some r -> 0 <= r <= 10 ->
    Server.seqnum s = Some sn -> uint16 sn -> uint16 (Server.acknum s) ->
    Server.checksum_valid segment
      (seqnum_, acknum_, false, false, true, window_, datalen, checksum) ->
    let n := List.length times in
    let answered := Nat.min n (Z.to_nat (10 - r)) in
    let s' := Server.network_thread TIMEOUT
                (map (fun t => Server.Arrives t segment) times) s in
    Server.lossy_layer s'
    = Server.lossy_layer s
      ++ repeat (bare_segment sn (Server.acknum s) false true true default_window) answered
    /\ Server.fin_retries s' = Some (r + Z.of_nat answered)
    /\ Server.state s' = (if (n <=? Z.to_nat (10 - r))%nat then CLOSING else CLOSED).
Proof.
  intros TIMEOUT times. induction times as [|t times IH];
    intros s segment sn r seqnum_ acknum_ window_ datalen checksum
           Hst Hr Hr10 Hseq Hsn Ha Hvalid; cbn zeta.
  - cbn [map Server.network_thread List.length Nat.min repeat Nat.leb].
    rewrite app_nil_r, Z.add_0_r. auto.
  - cbn [map Server.network_thread].
    rewrite (server_closing_fin t s segment sn r seqnum_ acknum_ window_ datalen checksum)
      by assumption.
    destruct (Z.geb_spec r 10) as [Hge | Hlt].
    + (* the eleventh FIN: closed, and closed for good *)
      assert (r = 10) by lia. subst r.
      assert (Hclosed : forall cbs c, Server.state c = CLOSED ->
                                      Server.network_thread TIMEOUT cbs c = c).
      { intros cbs. induction cbs as [|[t' seg'|t'] cbs IHc]; intros c Hc.
        - reflexivity.
        - cbn [Server.network_thread].
          replace (snd (Server.lossy_layer_segment_received t' seg' c)) with c;
            [ apply IHc, Hc | ].
          unfold Server.lossy_layer_segment_received. run_py. rewrite Hc. reflexivity.
        - cbn [Server.network_thread].
          replace (snd (Server.lossy_layer_tick TIMEOUT t' c)) with c;
            [ apply IHc, Hc | ].
          unfold Server.lossy_layer_tick. run_py. rewrite Hc. reflexivity. }
      rewrite Hclosed by reflexivity.
      change (Z.to_nat (10 - 10)) with 0%nat. rewrite Nat.min_0_r.
      cbn [repeat List.length Nat.leb]. server_fields.
      rewrite app_nil_r, Z.add_0_r. auto.
    + set (fin_ack := bare_segment sn (Server.acknum s) false true true default_window).
      specialize (IH (Server.set_fin_retries (Some (r + 1)) (Server.send_segment fin_ack s))
                    segment sn (r + 1) seqnum_ acknum_ window_ datalen checksum).
      cbn zeta in IH. revert IH. server_fields. intros IH.
      destruct IH as (IHl & IHr & IHs); try assumption; try reflexivity; try lia.
      fold fin_ack in IHl. rewrite IHl, IHr, IHs.
      replace (Z.to_nat (10 - r)) with (S (Z.to_nat (10 - (r + 1)))) by lia.
      cbn [List.length Nat.min repeat Nat.leb].
      rewrite <- app_assoc. cbn [app].
      repeat split; try reflexivity. f_equal. lia.
Qed.

Lemma server_answers_ten_duplicate_fins_witness :
  let n := List.length [1; 2; 3] in
  let answered := Nat.min n (Z.to_nat (10 - 0)) in
  let s' := Server.network_thread Scenario.TIMEOUT
              (map (fun t => Server.Arrives t Scenario.fin_43) [1; 2; 3])
              Scenario.server_closing in
  Server.lossy_layer s'
  = Server.lossy_layer Scenario.server_closing
    ++ repeat (bare_segment 100 (Server.acknum Scenario.server_closing) false true true
                 default_window) answered
  /\ Server.fin_retries s' = Some (0 + Z.of_nat answered)
  /\ Server.state s' = (if (n <=? Z.to_nat (10 - 0))%nat then CLOSING else CLOSED).
Proof.
  apply (server_answers_ten_duplicate_fins Scenario.TIMEOUT [1; 2; 3]
           Scenario.server_closing Scenario.fin_43 100 0 43 102 1 0
           (bare_checksum 43 102 false false true 1)).
  - reflexivity.
  - reflexivity.
  - lia.
  - reflexivity.
  - unfold uint16. lia.
  - unfold uint16. simpl. lia.
  - vm_compute. reflexivity.
Defined.

(** ** The data path at the server *)

(** In ESTABLISHED, whatever arrives under a sequence number other than
    [acknum + 1] leaves [acknum] and the receive queue as they were. *)
Lemma server_strict_order (now : time) (segment : bytes) (s : Server.t)
    seqnum_ acknum_ syn_set ack_set fin_set window_ datalen checksum :
  Server.state s = ESTABLISHED ->
  unpack_segment_header (firstn HEADER_SIZE segment)
  = Return (seqnum_, acknum_, syn_set, ack_set, fin_set, window_, datalen, checksum) ->
  seqnum_ <> Server.acknum s + 1 ->
  let s' := snd (Server.lossy_layer_segment_received now segment s) in
  Server.acknum s' = Server.acknum s /\ Server.recvbuf s' = Server.recvbuf s.
Proof.
  intros Hst Hunpack Hne.
  unfold Server.lossy_layer_segment_received, Server.send_fin_ack, Server.generate_ack.
  run_py. rewrite Hst. cbn [BTCPStates_eqb negb andb]. rewrite Hunpack.
  repeat break_match; server_fields; auto.
  all: match goal with
       | H : (_ =? Server.acknum _ + 1) = true |- _ =>
           apply Z.eqb_eq in H; contradiction
       end.
Qed.

(** X21. Data loss on a full receive queue.  In ESTABLISHED, when the
    receive queue already holds 1000 chunks, a checksum-valid segment without
    flags under the expected sequence number is still answered with an ACK
    and [acknum] still advances, but the chunk is dropped.  The chunk is then
    lost for good: when the same segment arrives again its sequence number
    is no longer [acknum + 1], so neither [acknum] nor the queue changes. *)
Theorem server_full_queue_drops_acknowledged_chunk :
  forall (now later : time) (s : Server.t) segment sn seqnum_ acknum_ window_ datalen
         checksum,
    Server.state s = ESTABLISHED ->
    Server.seqnum s = Some sn ->
    uint16 sn -> uint16 (Server.acknum s) -> uint8 (Server.window s) ->
    Server.checksum_valid segment
      (seqnum_, acknum_, false, false, false, window_, datalen, checksum) ->
    seqnum_ = Server.acknum s + 1 ->
    (Server.recvbuf_maxsize <= List.length (Server.recvbuf s))%nat ->
    let s' := snd (Server.lossy_layer_segment_received now segment s) in
    let s'' := snd (Server.lossy_layer_segment_received later segment s') in
    fst (Server.lossy_layer_segment_received now segment s) = Return tt
    /\ Server.acknum s' = Server.acknum s + 1
    /\ Server.recvbuf s' = Server.recvbuf s
    /\ List.length (Server.lossy_layer s') = S (List.length (Server.lossy_layer s))
    /\ Server.acknum s'' = Server.acknum s'
    /\ Server.recvbuf s'' = Server.recvbuf s.
Proof.
  intros now later s segment sn seqnum_ acknum_ window_ datalen checksum
         Hst Hseq Hsn Ha Hw Hvalid Hnext Hfull.
  apply server_verify_inv in Hvalid as (Hunpack & header & Hbuild & Hck).
  destruct (generate_ack_returns s sn Hseq Hsn Ha Hw) as (Hckr & Hgen).
  set (ack := header_bytes sn (Server.acknum s) false true false (Server.window s) 0
                (2 ^ 16 - header_sum sn (Server.acknum s) false true false
                            default_window 0 0) ++ zero_payload) in *.
  assert (Hrun : Server.lossy_layer_segment_received now segment s
                 = (Return tt,
                    Server.set_acknum (Server.acknum s + 1)
                      (Server.send_segment ack (Server.set_ack_timeout None s)))).
  { unfold Server.lossy_layer_segment_received. run_py.
    rewrite Hst. cbn [BTCPStates_eqb].
    rewrite Hunpack, Hbuild, Hck, Z.eqb_refl. cbn [negb Server.flag_classes andb orb].
    destruct (Z.eqb_spec seqnum_ (Server.acknum s + 1)); [ | contradiction ].
    rewrite (generate_ack_frame s (Server.set_ack_timeout None) sn ack)
      by (reflexivity || assumption).
    unfold Server.put_nowait. server_fields.
    destruct (Nat.ltb_spec (List.length (Server.recvbuf s)) Server.recvbuf_maxsize);
      [ lia | reflexivity ]. }
  cbn zeta. rewrite Hrun. cbn [fst snd].
  set (s' := Server.set_acknum (Server.acknum s + 1)
               (Server.send_segment ack (Server.set_ack_timeout None s))).
  destruct (server_strict_order later segment s' seqnum_ acknum_ false false false
              window_ datalen checksum) as (Ha2 & Hr2).
  { exact Hst. }
  { exact Hunpack. }
  { subst s'. server_fields. lia. }
  cbn zeta in Ha2, Hr2. rewrite Ha2, Hr2. subst s'. server_fields.
  rewrite length_app. cbn [List.length].
  repeat split; try reflexivity. lia.
Qed.

Lemma server_full_queue_drops_acknowledged_chunk_witness :
  let s' := snd (Server.lossy_layer_segment_received 0 Scenario.data_segment_5
                   Scenario.server_full) in
  let s'' := snd (Server.lossy_layer_segment_received 9 Scenario.data_segment_5 s') in
  fst (Server.lossy_layer_segment_received 0 Scenario.data_segment_5 Scenario.server_full)
  = Return tt
  /\ Server.acknum s' = Server.acknum Scenario.server_full + 1
  /\ Server.recvbuf s' = Server.recvbuf Scenario.server_full
  /\ List.length (Server.lossy_layer s')
     = S (List.length (Server.lossy_layer Scenario.server_full))
  /\ Server.acknum s'' = Server.acknum s'
  /\ Server.recvbuf s'' = Server.recvbuf Scenario.server_full.
Proof.
  apply (server_full_queue_drops_acknowledged_chunk 0 9 Scenario.server_full
           Scenario.data_segment_5 100 5 100 1 2 38699).
  - reflexivity.
  - reflexivity.
  - unfold uint16. lia.
  - unfold uint16. simpl. lia.
  - unfold uint8. simpl. lia.
  - vm_compute. reflexivity.
  - reflexivity.
  - unfold Scenario.server_full, Server.recvbuf_maxsize. cbn [Server.recvbuf].
    rewrite repeat_length. lia.
Defined.



(** ** recv *)

Lemma drain_spec (queue : list bytes) :
  forall (data : bytes) (c : Server.t),
    Server.drain queue data c
    = (Return (data ++ concat queue),
       match queue with
       | [] => c
       | _ :: _ =>
           Server.set_window (Z.of_nat Server.recvbuf_maxsize) (Server.set_recvbuf [] c)
       end).
Proof.
  induction queue as [|chunk queue IH]; intros data c.
  - cbn [Server.drain concat]. rewrite app_nil_r. reflexivity.
  - cbn [Server.drain concat]. run_py. rewrite IH, <- app_assoc.
    f_equal. destruct queue as [|chunk' queue].
    + cbn [List.length]. rewrite Z.sub_0_r. reflexivity.
    + reflexivity.
Qed.

(** X23. [recv] hands over the receive queue in order, chunk boundaries
    erased.  On a non-empty queue it returns at once; on an empty one it
    first lets the network thread run ([wait]) and returns the empty bytes
    when the queue is still empty then.  With no segment arriving while it
    drains, it returns the concatenation of the queued chunks, leaves the
    queue empty, and sets [window] to 1000 when it took two chunks or more
    (after the first chunk [window] is not written); state, [acknum] and the
    segments sent are as the wait left them. *)
Theorem recv_returns_the_queue_in_order :
  forall (TIMEOUT : Z) (wait : list Server.callback) (s : Server.t),
    let s1 := match Server.recvbuf s with
              | [] => Server.network_thread TIMEOUT wait s
              | _ :: _ => s
              end in
    let r := Server.recv TIMEOUT wait s in
    fst r = Return (concat (Server.recvbuf s1))
    /\ Server.recvbuf (snd r) = []
    /\ Server.window (snd r)
       = (if (2 <=? List.length (Server.recvbuf s1))%nat
          then Z.of_nat Server.recvbuf_maxsize else Server.window s)
    /\ Server.state (snd r) = Server.state s1
    /\ Server.acknum (snd r) = Server.acknum s1
    /\ Server.lossy_layer (snd r) = Server.lossy_layer s1.
Proof.
  intros TIMEOUT wait s s1 r.
  assert (Hr : r = match Server.recvbuf s1 with
                   | [] => (Return [], s1)
                   | chunk :: queue =>
                       Server.drain queue chunk (Server.set_recvbuf queue s1)
                   end).
  { subst r s1. unfold Server.recv. run_py.
    destruct (Server.recvbuf s) eqn:Hq; cbn [snd].
    - destruct (Server.recvbuf (Server.network_thread TIMEOUT wait s)); reflexivity.
    - rewrite Hq. reflexivity. }
  assert (Hw : Server.window s1 = Server.window s).
  { subst s1. destruct (Server.recvbuf s); [ | reflexivity ].
    clear. revert s. induction wait as [|[now segment|now] wait IH]; intros s.
    - reflexivity.
    - cbn [Server.network_thread]. rewrite IH.
      apply (server_handler_recvbuf now segment s).
    - cbn [Server.network_thread]. rewrite IH.
      apply (server_tick_recvbuf TIMEOUT now s). }
  rewrite Hr. clear Hr r.
  destruct (Server.recvbuf s1) as [|chunk [|chunk' queue]] eqn:Hq.
  - cbn [fst snd concat List.length Nat.leb]. rewrite Hq.
    repeat split; try reflexivity. exact Hw.
  - rewrite drain_spec. cbn [fst snd concat List.length Nat.leb app]. server_fields.
    rewrite app_nil_r. repeat split; try reflexivity. exact Hw.
  - rewrite drain_spec. cbn [fst snd List.length Nat.leb]. server_fields.
    cbn [concat]. repeat split; reflexivity.
Qed.

Lemma build_segment_header_raises seqnum acknum syn_set ack_set fin_set window length
    checksum e :
  build_segment_header seqnum acknum syn_set ack_set fin_set window length checksum
  = Raise e ->
  e = StructError.
Proof.
  unfold build_segment_header, pack_H, pack_B.
  repeat match goal with
         | |- context [if ?c then _ else _] => destruct c; cbn [obind]
         end; congruence.
Qed.

(** With a window that does not fit one byte no ACK can be generated. *)
Lemma generate_ack_raises (c : Server.t) :
  ~ uint8 (Server.window c) ->
  Server.generate_ack c = (Raise StructError, c).
Proof.
  intros Hc. unfold Server.generate_ack. run_py.
  destruct (Server.seqnum c) as [sn|]; cbn [build_segment_header_opt];
    [ | reflexivity ].
  destruct (build_segment_header sn (Server.acknum c) false true false
              default_window 0 0) as [h|e] eqn:Hb.
  - apply build_segment_header_inv in Hb as (Hs1 & Ha1 & _ & _ & _ & ->).
    rewrite in_cksum_header by auto with btcp.
    destruct (build_segment_header sn (Server.acknum c) false true false
                (Server.window c) 0 _) as [h|e] eqn:Hb2.
    + apply build_segment_header_inv in Hb2 as (_ & _ & Hw & _). contradiction.
    + apply build_segment_header_raises in Hb2. subst e. reflexivity.
  - apply build_segment_header_raises in Hb. subst e. reflexivity.
Qed.

(** X24. After a [recv] that took two chunks or more (no segment arriving
    while it drained) [window] is 1000, which does not fit the one-byte
    window field: [generate_ack] raises [struct.error], and so does the
    handler on every checksum-valid segment without flags, in order or not,
    after it has cleared the ACK timer; no ACK is sent, [acknum] does not
    advance and the chunk is not queued. *)
Theorem recv_leaves_window_no_ack_can_carry :
  forall (TIMEOUT : Z) (wait : list Server.callback) (now : time) (s : Server.t)
         chunk chunk' queue segment seqnum_ acknum_ window_ datalen checksum,
    Server.recvbuf s = chunk :: chunk' :: queue ->
    Server.state s = ESTABLISHED ->
    Server.checksum_valid segment
      (seqnum_, acknum_, false, false, false, window_, datalen, checksum) ->
    let s' := snd (Server.recv TIMEOUT wait s) in
    Server.window s' = 1000
    /\ fst (Server.generate_ack s') = Raise StructError
    /\ Server.lossy_layer_segment_received now segment s'
       = (Raise StructError, Server.set_ack_timeout None s').
Proof.
  intros TIMEOUT wait now s chunk chunk' queue segment seqnum_ acknum_ window_ datalen
         checksum Hq Hst Hvalid s'.
  apply server_verify_inv in Hvalid as (Hunpack & header & Hbuild & Hck).
  assert (Hs' : s' = Server.set_window 1000 (Server.set_recvbuf [] s)).
  { subst s'. unfold Server.recv. run_py. rewrite Hq. cbn [snd]. rewrite Hq.
    rewrite drain_spec. reflexivity. }
  assert (Hw : forall c, Server.window c = 1000 -> ~ uint8 (Server.window c)).
  { intros c Hc. rewrite Hc. unfold uint8. lia. }
  split; [ rewrite Hs'; reflexivity | ].
  split; [ rewrite generate_ack_raises; [ reflexivity | ];
           apply Hw; rewrite Hs'; reflexivity | ].
  unfold Server.lossy_layer_segment_received. run_py.
  assert (Hst' : Server.state s' = ESTABLISHED) by (rewrite Hs'; exact Hst).
  rewrite Hst'. cbn [BTCPStates_eqb].
  rewrite Hunpack, Hbuild, Hck, Z.eqb_refl. cbn [negb Server.flag_classes andb orb].
  destruct (seqnum_ =? Server.acknum s' + 1);
    rewrite generate_ack_raises by (apply Hw; rewrite Hs'; reflexivity);
    reflexivity.
Qed.

Lemma recv_leaves_window_no_ack_can_carry_witness :
  let s' := snd (Server.recv Scenario.TIMEOUT [] Scenario.server_two_chunks) in
  Server.window s' = 1000
  /\ fst (Server.generate_ack s') = Raise StructError
  /\ Server.lossy_layer_segment_received 0 Scenario.data_segment_5 s'
     = (Raise StructError, Server.set_ack_timeout None s').
Proof.
  apply (recv_leaves_window_no_ack_can_carry Scenario.TIMEOUT [] 0
           Scenario.server_two_chunks [x68; x69] [x79; x6f] []
           Scenario.data_segment_5 5 100 1 2 38699).
  - reflexivity.
  - reflexivity.
  - vm_compute. reflexivity.
Defined.

(** ** The handshake *)

(** What the server's handler reads from a bare segment: the fields, and a
    checksum that matches. *)
Lemma server_reads_bare (now : time) (s : Server.t) seqnum acknum syn_set ack_set fin_set
    window :
  uint16 seqnum -> uint16 acknum -> uint8 window ->
  syn_set || ack_set || fin_set = true ->
  Server.state s <> CLOSED ->
  Server.lossy_layer_segment_received now
    (bare_segment seqnum acknum syn_set ack_set fin_set window) s
  = let '(SYNACK, SYN, ACK, FIN, NOFLAG) := Server.flag_classes syn_set ack_set fin_set in
    if negb (BTCPStates_eqb (Server.state s) ESTABLISHED) then
      if BTCPStates_eqb (Server.state s) ACCEPTING && SYN then
        (Return tt, Server.set_state SYN_RCVD (Server.set_acknum (seqnum + 1) s))
      else if BTCPStates_eqb (Server.state s) SYN_RCVD && ACK then
        (Return tt, Server.set_state ESTABLISHED s)
      else Server.lossy_layer_segment_received now
             (bare_segment seqnum acknum syn_set ack_set fin_set window) s
    else Server.lossy_layer_segment_received now
           (bare_segment seqnum acknum syn_set ack_set fin_set window) s.
Proof.
  intros Hs Ha Hw Hf Hst.
  destruct (two_pass_bare seqnum acknum syn_set ack_set fin_set window)
    as (H1 & H2 & _); auto.
  destruct (Server.flag_classes syn_set ack_set fin_set) as [[[[SYNACK SYN] ACK] FIN] NOFLAG]
    eqn:Hfc.
  destruct (negb (BTCPStates_eqb (Server.state s) ESTABLISHED)) eqn:Hest;
    [ | reflexivity ].
  destruct (BTCPStates_eqb (Server.state s) ACCEPTING && SYN) eqn:Hacc;
    [ | destruct (BTCPStates_eqb (Server.state s) SYN_RCVD && ACK) eqn:Hrcv;
        [ | reflexivity ] ].
  all: unfold Server.lossy_layer_segment_received; run_py;
    destruct (BTCPStates_eqb (Server.state s) CLOSED) eqn:Hcl;
    [ apply BTCPStates_eqb_eq in Hcl; contradiction | ];
    rewrite unpack_bare by assumption;
    rewrite H1; change (Z.to_nat 0) with 0%nat; cbn [firstn];
    rewrite app_nil_r, H2, Z.eqb_refl; cbn [negb];
    rewrite Hfc, Hest, ?Hacc, ?Hrcv; reflexivity.
Qed.




Lemma build_segment_header_error seqnum acknum syn_set ack_set fin_set window length
    checksum :
  ~ (uint16 seqnum /\ uint16 acknum /\ uint8 window /\ uint16 length /\ uint16 checksum) ->
  build_segment_header seqnum acknum syn_set ack_set fin_set window length checksum
  = Raise StructError.
Proof.
  intros Hn.
  destruct (build_segment_header seqnum acknum syn_set ack_set fin_set window length
              checksum) as [h|e] eqn:Hb.
  - apply build_segment_header_inv in Hb as (H1 & H2 & H3 & H4 & H5 & _).
    exfalso. apply Hn. auto.
  - apply build_segment_header_raises in Hb. subst e. reflexivity.
Qed.

(** X26. An initial sequence number the handshake cannot carry: on the SYN
    of a client that drew 65535, the server stores [acknum] 65536 and moves
    to SYN_RCVD, and [accept] then raises [struct.error] while building its
    SYN+ACK, having sent nothing: 65536 does not fit the 16-bit field. *)
Theorem accept_raises_on_last_sequence_number :
  forall (TIMEOUT : Z) (t1 : time) (srv : Server.t) (a : Server.attempt)
         (script : list Server.attempt) (acknum_c window_c : Z),
    uint16 acknum_c -> uint8 window_c ->
    Server.syn_wait a
    = [Server.Arrives t1 (bare_segment 65535 acknum_c true false false window_c)] ->
    Server.accept TIMEOUT (a :: script) srv
    = (Raise StructError,
       Server.mk SYN_RCVD (Some (Server.isn a)) 65536 (Server.recvbuf srv)
         (Server.fin_retries srv) (Server.fin_timeout srv) (Server.ack_timeout srv)
         (Server.window srv) (Server.lossy_layer srv)).
Proof.
  intros TIMEOUT t1 srv a script acknum_c window_c Ha Hw Hwait.
  cbn [Server.accept]. run_py. rewrite Hwait. cbn [Server.network_thread].
  rewrite server_reads_bare by (auto; try discriminate; unfold uint16; lia).
  server_run.
  rewrite build_segment_header_error; [ reflexivity | ].
  unfold uint16. intros (_ & H & _). lia.
Qed.

Lemma accept_raises_on_last_sequence_number_witness :
  Server.accept Scenario.TIMEOUT (Scenario.attempt_unanswered 65535 :: []) (Server.init 1)
  = (Raise StructError,
     Server.mk SYN_RCVD (Some (Server.isn (Scenario.attempt_unanswered 65535))) 65536
       (Server.recvbuf (Server.init 1)) (Server.fin_retries (Server.init 1))
       (Server.fin_timeout (Server.init 1)) (Server.ack_timeout (Server.init 1))
       (Server.window (Server.init 1)) (Server.lossy_layer (Server.init 1))).
Proof.
  apply (accept_raises_on_last_sequence_number Scenario.TIMEOUT 0 (Server.init 1)
           (Scenario.attempt_unanswered 65535) [] 0 1).
  - unfold uint16. lia.
  - unfold uint8. lia.
  - reflexivity.
Defined.

(** Ticks do nothing to a server in SYN_RCVD. *)
Lemma syn_rcvd_ticks TIMEOUT (cbs : list Server.callback) (s : Server.t) :
  Server.state s = SYN_RCVD ->
  Forall (fun cb => exists now, cb = Server.Ticks now) cbs ->
  Server.network_thread TIMEOUT cbs s = s.
Proof.
  intros Hst Hcbs. induction Hcbs as [|cb cbs (now & ->) _ IH]; [ reflexivity | ].
  cbn [Server.network_thread].
  replace (snd (Server.lossy_layer_tick TIMEOUT now s)) with s; [ exact IH | ].
  unfold Server.lossy_layer_tick. run_py. rewrite Hst. reflexivity.
Qed.

Lemma send_syn_ack_unanswered TIMEOUT syn_ack (left : nat) :
  forall (sleeps : list (list Server.callback)) (s : Server.t) (sent : list bytes),
    Server.state s = SYN_RCVD ->
    Forall (Forall (fun cb => exists now, cb = Server.Ticks now)) sleeps ->
    Server.send_syn_ack TIMEOUT left sleeps syn_ack
      (Server.mk SYN_RCVD (Server.seqnum s) (Server.acknum s) (Server.recvbuf s)
         (Server.fin_retries s) (Server.fin_timeout s) (Server.ack_timeout s)
         (Server.window s) (Server.lossy_layer s ++ sent))
    = (Return tt,
       Server.mk SYN_RCVD (Server.seqnum s) (Server.acknum s) (Server.recvbuf s)
         (Server.fin_retries s) (Server.fin_timeout s) (Server.ack_timeout s)
         (Server.window s) (Server.lossy_layer s ++ sent ++ repeat syn_ack left)).
Proof.
  induction left as [|left IH]; intros sleeps s sent Hst Hsleeps.
  - cbn [Server.send_syn_ack repeat]. rewrite app_nil_r. reflexivity.
  - cbn [Server.send_syn_ack]. run_py. server_run.
    rewrite syn_rcvd_ticks;
      [ | reflexivity | destruct Hsleeps; [ constructor | assumption ] ].
    unfold Server.send_segment. server_run.
    rewrite <- app_assoc. rewrite IH;
      [ | assumption | destruct Hsleeps; [ constructor | assumption ] ].
    rewrite <- app_assoc. reflexivity.
Qed.

(** X27. [accept] when the client's final ACK never comes.  After a SYN with
    initial sequence number [isn_c] the server stores [acknum] [isn_c + 1],
    draws its own initial sequence number and sends the same SYN+ACK ten
    times, one before each sleep (ticks do nothing in SYN_RCVD); it then goes
    round its outer loop again, back to ACCEPTING, instead of returning. *)
Theorem accept_sends_ten_syn_acks :
  forall (TIMEOUT : Z) (t1 : time) (srv : Server.t) (a : Server.attempt)
         (script : list Server.attempt) (isn_c acknum_c window_c : Z),
    uint16 isn_c -> uint16 (isn_c + 1) -> uint16 acknum_c -> uint8 window_c ->
    uint16 (Server.isn a) -> uint8 (Server.window srv) ->
    Server.syn_wait a
    = [Server.Arrives t1 (bare_segment isn_c acknum_c true false false window_c)] ->
    Forall (Forall (fun cb => exists now, cb = Server.Ticks now)) (Server.sleeps a) ->
    let syn_ack := bare_segment (Server.isn a) (isn_c + 1) true true false
                     (Server.window srv) in
    Server.accept TIMEOUT (a :: script) srv
    = Server.accept TIMEOUT script
        (Server.mk SYN_RCVD (Some (Server.isn a)) (isn_c + 1) (Server.recvbuf srv)
           (Server.fin_retries srv) (Server.fin_timeout srv) (Server.ack_timeout srv)
           (Server.window srv) (Server.lossy_layer srv ++ repeat syn_ack 10)).
Proof.
  intros TIMEOUT t1 srv a script isn_c acknum_c window_c Hc Hc1 Hac Hwc Hisn Hw Hwait
         Hsleeps syn_ack.
  destruct (two_pass_bare (Server.isn a) (isn_c + 1) true true false (Server.window srv))
    as (B1 & B2 & B3); auto.
  cbn [Server.accept]. run_py. rewrite Hwait. cbn [Server.network_thread].
  rewrite server_reads_bare by (auto; discriminate).
  server_run. rewrite B1, B2, B3.
  fold (bare_segment (Server.isn a) (isn_c + 1) true true false (Server.window srv)).
  fold syn_ack.
  pose proof (send_syn_ack_unanswered TIMEOUT syn_ack 10 (Server.sleeps a)
                (Server.mk SYN_RCVD (Some (Server.isn a)) (isn_c + 1) (Server.recvbuf srv)
                   (Server.fin_retries srv) (Server.fin_timeout srv)
                   (Server.ack_timeout srv) (Server.window srv) (Server.lossy_layer srv))
                [] eq_refl Hsleeps) as Hloop.
  revert Hloop. server_run. rewrite app_nil_r. cbn [app]. intros Hloop.
  unfold Server.set_seqnum, Server.set_state, Server.set_acknum. server_run.
  rewrite Hloop. server_run. reflexivity.
Qed.

Lemma accept_sends_ten_syn_acks_witness :
  let syn_ack := bare_segment (Server.isn (Scenario.attempt_unanswered 41)) (41 + 1)
                   true true false (Server.window (Server.init 1)) in
  Server.accept Scenario.TIMEOUT (Scenario.attempt_unanswered 41 :: []) (Server.init 1)
  = Server.accept Scenario.TIMEOUT []
      (Server.mk SYN_RCVD (Some (Server.isn (Scenario.attempt_unanswered 41))) (41 + 1)
         (Server.recvbuf (Server.init 1)) (Server.fin_retries (Server.init 1))
         (Server.fin_timeout (Server.init 1)) (Server.ack_timeout (Server.init 1))
         (Server.window (Server.init 1))
         (Server.lossy_layer (Server.init 1) ++ repeat syn_ack 10)).
Proof.
  apply (accept_sends_ten_syn_acks Scenario.TIMEOUT 0 (Server.init 1)
           (Scenario.attempt_unanswered 41) [] 41 0 1).
  - unfold uint16. lia.
  - unfold uint16. lia.
  - unfold uint16. lia.
  - unfold uint8. lia.
  - unfold uint16. simpl. lia.
  - unfold uint8. simpl. lia.
  - reflexivity.
  - constructor.
Defined.

(** ** The data path, end to end *)








(** ** What the checksum detects *)

(** The running sum of [in_cksum] is the sum of the words modulo [2^16 - 1]. *)
Lemma cksum_step_mod (c w : Z) : cksum_step c w mod 65535 = (c + w) mod 65535.
Proof.
  unfold cksum_step. change (2 ^ 16) with 65536.
  destruct (c + w >? 65536); [ | reflexivity ].
  replace (c + w - (65536 - 1)) with (c + w + (-1) * 65535) by lia.
  apply Z.mod_add. lia.
Qed.

Lemma cksum_fold_mod (ws : list Z) :
  forall c, fold_left cksum_step ws c mod 65535
            = (c + fold_right Z.add 0 ws) mod 65535.
Proof.
  induction ws as [|w ws IH]; intros c; cbn [fold_left fold_right].
  - rewrite Z.add_0_r. reflexivity.
  - rewrite IH, Z.add_mod, cksum_step_mod, <- Z.add_mod by lia.
    f_equal. lia.
Qed.

(** X30. What the checksum detects.  [in_cksum] keeps its running sum equal
    to the sum of the words modulo [2^16 - 1].  So when one 16-bit word of a
    buffer is replaced by a different one, [in_cksum] of the buffer changes
    (or it raises on both, the buffer having odd length), unless the word
    went from 0x0000 to 0xFFFF or back. *)
Theorem in_cksum_detects_word_change :
  forall (pre post : bytes) (hi lo hi' lo' : byte),
    Nat.even (List.length pre) = true ->
    unpack_H hi lo <> unpack_H hi' lo' ->
    ~ (unpack_H hi lo = 0 /\ unpack_H hi' lo' = 0xFFFF) ->
    ~ (unpack_H hi lo = 0xFFFF /\ unpack_H hi' lo' = 0) ->
    (in_cksum (pre ++ hi :: lo :: post) = Raise StructError
     /\ in_cksum (pre ++ hi' :: lo' :: post) = Raise StructError)
    \/ exists v v',
         in_cksum (pre ++ hi :: lo :: post) = Return v
         /\ in_cksum (pre ++ hi' :: lo' :: post) = Return v'
         /\ v <> v'.
Proof.
  intros pre post hi lo hi' lo' Heven Hne H0 H1.
  pose proof (unpack_H_range hi lo) as Hr. pose proof (unpack_H_range hi' lo') as Hr'.
  destruct (iter_unpack_H_even pre Heven) as [wpre Hpre].
  assert (Hcons : forall a b, in_cksum (pre ++ a :: b :: post)
                              = match iter_unpack_H post with
                                | Some wpost =>
                                    Return (2 ^ 16 - fold_left cksum_step
                                                       (wpre ++ unpack_H a b :: wpost) 0)
                                | None => Raise StructError
                                end).
  { intros a b. unfold in_cksum.
    rewrite iter_unpack_H_app by exact Heven. rewrite Hpre. cbn [iter_unpack_H].
    destruct pre; cbn [app]; destruct (iter_unpack_H post); reflexivity. }
  rewrite !Hcons. destruct (iter_unpack_H post) as [wpost|];
    [ right | left; split; reflexivity ].
  eexists. eexists. split; [ reflexivity | ]. split; [ reflexivity | ].
  intros Heq.
  assert (Hfold : fold_left cksum_step (wpre ++ unpack_H hi lo :: wpost) 0
                  = fold_left cksum_step (wpre ++ unpack_H hi' lo' :: wpost) 0) by lia.
  rewrite !fold_left_app in Hfold. cbn [fold_left] in Hfold.
  set (c := fold_left cksum_step wpre 0) in *.
  apply (f_equal (fun z => z mod 65535)) in Hfold. cbn beta in Hfold.
  rewrite !cksum_fold_mod in Hfold.
  rewrite (Z.add_mod (cksum_step c (unpack_H hi lo))),
          (Z.add_mod (cksum_step c (unpack_H hi' lo'))), !cksum_step_mod in Hfold by lia.
  rewrite <- !Z.add_mod in Hfold by lia.
  set (t := fold_right Z.add 0 wpost) in *.
  assert (Hdiff : (unpack_H hi lo - unpack_H hi' lo') mod 65535 = 0).
  { replace (unpack_H hi lo - unpack_H hi' lo')
      with ((c + unpack_H hi lo + t) - (c + unpack_H hi' lo' + t)) by lia.
    rewrite Zminus_mod, Hfold, Z.sub_diag. reflexivity. }
  apply Z.mod_divide in Hdiff; [ | lia ]. destruct Hdiff as [k Hk]. lia.
Qed.

Lemma in_cksum_detects_word_change_witness :
  (in_cksum ([x00; x02] ++ x12 :: x34 :: [x00; x01]) = Raise StructError
   /\ in_cksum ([x00; x02] ++ x12 :: x35 :: [x00; x01]) = Raise StructError)
  \/ exists v v',
       in_cksum ([x00; x02] ++ x12 :: x34 :: [x00; x01]) = Return v
       /\ in_cksum ([x00; x02] ++ x12 :: x35 :: [x00; x01]) = Return v'
       /\ v <> v'.
Proof.
  apply (in_cksum_detects_word_change [x00; x02] [x00; x01] x12 x34 x12 x35).
  - reflexivity.
  - vm_compute. discriminate.
  - vm_compute. intros [H _]. discriminate H.
  - vm_compute. intros [H _]. discriminate H.
Defined.
